(** * The stream job supervisor of app.py, embedded and verified

    The Python program keeps a catalog of stream jobs (a pandas DataFrame in
    the Streamlit session), a JSON file of active jobs, and per-job pid,
    status and log files; it spawns one ffmpeg process per job.  This file
    embeds the supervisor functions of [app.py] over an explicit world state
    and proves (or refutes) the properties the specification states about
    them.

    The world is that of one Streamlit session on one host.  Reads of the
    state files can fail and are modelled with their failures; writes to the
    working directory succeed.  A supervisor function runs from its first to
    its last statement without another thread in between; the threads of
    [run_ffmpeg] take their turns between two such calls. *)

From Stdlib Require Import ZArith Ascii String List Bool Lia DecimalString.
From stdpp Require Import base option list gmap strings fin_maps.

Local Open Scope string_scope.

(** ** Python exceptions and the error monad *)

Inductive exn : Type :=
| NoSuchProcess            (* psutil.NoSuchProcess *)
| AccessDenied             (* psutil.AccessDenied *)
| ProcessLookupError
| PermissionError
| ValueError
| FileNotFoundError
| JSONDecodeError
| KeyError
| OSError (msg : string).

Inductive result (A : Type) : Type :=
| Ok (a : A)
| Raise (e : exn).
Arguments Ok {A} a.
Arguments Raise {A} e.

(** Sequencing: a raised exception skips the rest of the block.  With the
    instance, [x ← m; k] is stdpp's notation for it. *)
Global Instance result_bind : MBind result := λ A B k m,
  match m with
  | Ok a => k a
  | Raise e => Raise e
  end.

(** A bare [except:] and [except Exception] catch every exception of the
    model. *)
Definition any_exception (e : exn) : bool := true.

(** ** Python string operations used by the supervisor *)

Definition is_upper (c : ascii) : bool :=
  Nat.leb 65 (nat_of_ascii c) && Nat.leb (nat_of_ascii c) 90.

Definition lower_ascii (c : ascii) : ascii :=
  if is_upper c then ascii_of_nat (nat_of_ascii c + 32) else c.

(** [str.lower] on the ASCII range. *)
Fixpoint lower (s : string) : string :=
  match s with
  | EmptyString => EmptyString
  | String c t => String (lower_ascii c) (lower t)
  end.

(** [prefix.startswith]: [startswith p s] is Python's [s.startswith(p)]. *)
Fixpoint startswith (p s : string) : bool :=
  match p, s with
  | EmptyString, _ => true
  | String a p', String b s' => Ascii.eqb a b && startswith p' s'
  | String _ _, EmptyString => false
  end.

(** [needle in hay]. *)
Fixpoint contains (needle hay : string) : bool :=
  startswith needle hay ||
  match hay with
  | EmptyString => false
  | String _ t => contains needle t
  end.

(** The characters [str.strip()] removes: tab to carriage return, the four
    separators 0x1c to 0x1f, and the space. *)
Definition is_space (c : ascii) : bool :=
  let n := nat_of_ascii c in
  (Nat.leb 9 n && Nat.leb n 13) || (Nat.leb 28 n && Nat.leb n 31)
  || Nat.eqb n 32.

Fixpoint lstrip (s : string) : string :=
  match s with
  | String c t => if is_space c then lstrip t else s
  | EmptyString => EmptyString
  end.

Fixpoint rstrip (s : string) : string :=
  match s with
  | EmptyString => EmptyString
  | String c t =>
      match rstrip t with
      | EmptyString => if is_space c then EmptyString else String c EmptyString
      | t' => String c t'
      end
  end.

Definition strip (s : string) : string := rstrip (lstrip s).

(** ** Quality profiles: [get_quality_settings] *)

Record QualitySettings := {
  video_bitrate : string;
  audio_bitrate : string;
  maxrate : string;
  bufsize : string;
  scale : string;
  fps : string
}.

Global Instance QualitySettings_eq_dec : EqDecision QualitySettings.
Proof. solve_decision. Defined.

(** The dictionary literal [settings] of [get_quality_settings]. *)
Definition settings (is_shorts : bool) : gmap string QualitySettings :=
  <["720p" := {| video_bitrate := "2500k"; audio_bitrate := "128k";
                 maxrate := "2750k"; bufsize := "5500k";
                 scale := if negb is_shorts then "1280:720" else "720:1280";
                 fps := "30" |}]>
  (<["1080p" := {| video_bitrate := "4500k"; audio_bitrate := "192k";
                   maxrate := "4950k"; bufsize := "9900k";
                   scale := if negb is_shorts then "1920:1080" else "1080:1920";
                   fps := "30" |}]>
  (<["480p" := {| video_bitrate := "1000k"; audio_bitrate := "96k";
                  maxrate := "1100k"; bufsize := "2200k";
                  scale := if negb is_shorts then "854:480" else "480:854";
                  fps := "30" |}]> ∅)).

(** [settings.get(quality, settings["720p"])].  The subscript
    [settings["720p"]] is evaluated first and raises [KeyError] on a missing
    key. *)
Definition get_quality_settings (quality : string) (is_shorts : bool)
    : result QualitySettings :=
  dflt ← match settings is_shorts !! "720p" with
          | Some v => Ok v
          | None => Raise KeyError
          end;
  Ok (default dflt (settings is_shorts !! quality)).

(** The specification's quality tiers and orientations, and the strings the
    program stores for them (the options of the UI's quality selector and
    the "Is Shorts" flag). *)
Inductive tier := low | medium | high.
Inductive orientation := normal | vertical.

Definition tier_key (t : tier) : string :=
  match t with low => "480p" | medium => "720p" | high => "1080p" end.

Definition is_vertical (o : orientation) : bool :=
  match o with normal => false | vertical => true end.

Definition mk_settings (v a m b s : string) : QualitySettings :=
  {| video_bitrate := v; audio_bitrate := a; maxrate := m; bufsize := b;
     scale := s; fps := "30" |}.

(** Width and height of a tier, and the scale string ffmpeg takes, with the
    two swapped for the vertical orientation. *)
Definition dimensions (t : tier) : string * string :=
  match t with
  | low => ("854", "480")
  | medium => ("1280", "720")
  | high => ("1920", "1080")
  end.

Definition scale_of (t : tier) (o : orientation) : string :=
  let '(width, height) := dimensions t in
  match o with
  | normal => width ++ ":" ++ height
  | vertical => height ++ ":" ++ width
  end.

(** The table of the specification, section 6: video bitrate, audio
    bitrate, maxrate, bufsize and scale; the framerate is 30 throughout. *)
Definition profile_table (t : tier) (o : orientation) : QualitySettings :=
  match t with
  | low => mk_settings "1000k" "96k" "1100k" "2200k" (scale_of low o)
  | medium => mk_settings "2500k" "128k" "2750k" "5500k" (scale_of medium o)
  | high => mk_settings "4500k" "192k" "4950k" "9900k" (scale_of high o)
  end.

(** ** The data model *)

(** One row of the catalog DataFrame; the fields are its seven columns. *)
Record StreamJob := {
  Video : string;
  Durasi : string;
  Jam_Mulai : string;
  Streaming_Key : string;
  Status : string;
  Is_Shorts : bool;
  Quality : string
}.

(** The status strings the program stores in the 'Status' column; an error
    status is any string that starts with "error:". *)
Definition Menunggu : string := "Menunggu".        (* Waiting *)
Definition Sedang_Live : string := "Sedang Live".  (* Live *)
Definition Selesai : string := "Selesai".          (* Finished *)
Definition Dihentikan : string := "Dihentikan".    (* Stopped *)
Definition Terputus : string := "Terputus".        (* Disconnected *)

Definition with_status (st : string) (j : StreamJob) : StreamJob :=
  {| Video := Video j; Durasi := Durasi j; Jam_Mulai := Jam_Mulai j;
     Streaming_Key := Streaming_Key j; Status := st;
     Is_Shorts := Is_Shorts j; Quality := Quality j |}.

(** A DataFrame as the state store sees it: the column labels and the rows
    under a RangeIndex 0..n-1. *)
Record DataFrame := { columns : list string; rows : list StreamJob }.

Definition schema : list string :=
  ["Video"; "Durasi"; "Jam Mulai"; "Streaming Key"; "Status"; "Is Shorts";
   "Quality"].

(** [pd.DataFrame(columns=[...])]. *)
Definition empty_catalog : DataFrame := {| columns := schema; rows := [] |}.

(** [pd.DataFrame(data)] for a list of records: the columns are the keys of
    the records, none when the list is empty. *)
Definition DataFrame_of_records (data : list StreamJob) : DataFrame :=
  {| columns := match data with [] => [] | _ => schema end; rows := data |}.

(** The value of [active_streams[str(row_id)]]. *)
Record ActiveJobRecord := { pid : Z; started_at : string }.

(** A JSON state file.  [Stored a] is content that [json.load] (and, for the
    catalog, [pd.DataFrame]) turns into [a]; [Garbage] is content they
    reject; [Unreadable] is a file that exists and cannot be opened.
    [Stored] holds content of the shape the program itself writes: JSON of
    another shape (null, a list, a record without 'pid', a row without
    'Status') has no counterpart here, and what the program does with it is
    not covered. *)
Inductive file (A : Type) : Type :=
| NoFile
| Unreadable
| Garbage
| Stored (a : A).
Arguments NoFile {A}.
Arguments Unreadable {A}.
Arguments Garbage {A}.
Arguments Stored {A} a.

(** What the operating system knows about a process id.  [Vanished] is a pid
    that [psutil.pid_exists] still reports while [psutil.Process(pid)]
    already raises [NoSuchProcess]; [Protected] is a process whose name may
    not be read. *)
Inductive proc : Type :=
| Running (name : string) (pgid : Z)
| Protected (pgid : Z)
| Vanished.

Inductive signal := SIGTERM | SIGKILL.

(** The calls [stop_stream] makes to the operating system, in order. *)
Inductive syscall : Type :=
| Killpg (pgid : Z) (s : signal)
| Sleep (seconds : Z)
| Taskkill (pid : Z).

(** The arguments of a [run_ffmpeg] thread. *)
Record run_args := {
  arg_video_path : string;
  arg_stream_key : string;
  arg_is_shorts : bool;
  arg_row_id : nat;
  arg_quality : string
}.

(** The world the supervisor acts on.  The keys of the per-job files and of
    the active-jobs mapping are row ids: the program derives the file names
    and the dictionary keys from [row_id] with the injective [str].  The pid
    file holds what [int(f.read().strip())] makes of its content, [None]
    when [int] raises [ValueError]. *)
Record world := {
  streams : list StreamJob;                       (* rows of st.session_state.streams *)
  streams_file : file (list StreamJob);           (* streams_data.json *)
  active_file : file (gmap nat ActiveJobRecord);  (* active_streams.json *)
  pid_files : gmap nat (option Z);                (* stream_<id>.pid *)
  status_files : gmap nat string;                 (* stream_<id>.status *)
  log_files : gmap nat (list string);             (* stream_<id>.log, by lines *)
  procs : gmap Z proc;                            (* the process table *)
  threads : list run_args;                        (* run_ffmpeg threads started *)
  syscalls : list syscall;                        (* signals sent and sleeps, oldest first *)
  st_errors : list exn                            (* st.error reports, oldest first *)
}.

Definition set_streams (f : list StreamJob → list StreamJob) (w : world) :=
  {| streams := f (streams w); streams_file := streams_file w;
     active_file := active_file w; pid_files := pid_files w;
     status_files := status_files w; log_files := log_files w;
     procs := procs w; threads := threads w; syscalls := syscalls w;
     st_errors := st_errors w |}.

Definition set_streams_file (x : file (list StreamJob)) (w : world) :=
  {| streams := streams w; streams_file := x;
     active_file := active_file w; pid_files := pid_files w;
     status_files := status_files w; log_files := log_files w;
     procs := procs w; threads := threads w; syscalls := syscalls w;
     st_errors := st_errors w |}.

Definition set_active_file (x : file (gmap nat ActiveJobRecord)) (w : world) :=
  {| streams := streams w; streams_file := streams_file w;
     active_file := x; pid_files := pid_files w;
     status_files := status_files w; log_files := log_files w;
     procs := procs w; threads := threads w; syscalls := syscalls w;
     st_errors := st_errors w |}.

Definition set_pid_files (f : gmap nat (option Z) → gmap nat (option Z))
    (w : world) :=
  {| streams := streams w; streams_file := streams_file w;
     active_file := active_file w; pid_files := f (pid_files w);
     status_files := status_files w; log_files := log_files w;
     procs := procs w; threads := threads w; syscalls := syscalls w;
     st_errors := st_errors w |}.

Definition set_status_files (f : gmap nat string → gmap nat string)
    (w : world) :=
  {| streams := streams w; streams_file := streams_file w;
     active_file := active_file w; pid_files := pid_files w;
     status_files := f (status_files w); log_files := log_files w;
     procs := procs w; threads := threads w; syscalls := syscalls w;
     st_errors := st_errors w |}.

Definition set_log_files (f : gmap nat (list string) → gmap nat (list string))
    (w : world) :=
  {| streams := streams w; streams_file := streams_file w;
     active_file := active_file w; pid_files := pid_files w;
     status_files := status_files w; log_files := f (log_files w);
     procs := procs w; threads := threads w; syscalls := syscalls w;
     st_errors := st_errors w |}.

Definition set_procs (f : gmap Z proc → gmap Z proc) (w : world) :=
  {| streams := streams w; streams_file := streams_file w;
     active_file := active_file w; pid_files := pid_files w;
     status_files := status_files w; log_files := log_files w;
     procs := f (procs w); threads := threads w; syscalls := syscalls w;
     st_errors := st_errors w |}.

Definition add_thread (a : run_args) (w : world) :=
  {| streams := streams w; streams_file := streams_file w;
     active_file := active_file w; pid_files := pid_files w;
     status_files := status_files w; log_files := log_files w;
     procs := procs w; threads := threads w ++ [a]; syscalls := syscalls w;
     st_errors := st_errors w |}.

Definition add_syscall (c : syscall) (w : world) :=
  {| streams := streams w; streams_file := streams_file w;
     active_file := active_file w; pid_files := pid_files w;
     status_files := status_files w; log_files := log_files w;
     procs := procs w; threads := threads w; syscalls := syscalls w ++ [c];
     st_errors := st_errors w |}.

Definition add_st_error (e : exn) (w : world) :=
  {| streams := streams w; streams_file := streams_file w;
     active_file := active_file w; pid_files := pid_files w;
     status_files := status_files w; log_files := log_files w;
     procs := procs w; threads := threads w; syscalls := syscalls w;
     st_errors := st_errors w ++ [e] |}.

(** ** The monad of the supervisor's code

    A Python block runs on the world, changes it, and either returns a value
    or raises; the changes made before a [raise] stay. *)
Definition M (A : Type) : Type := world → result A * world.

Global Instance M_ret : MRet M := λ A a w, (Ok a, w).

Global Instance M_bind : MBind M := λ A B k m w,
  match m w with
  | (Ok a, w') => k a w'
  | (Raise e, w') => (Raise e, w')
  end.

Definition gets {A} (f : world → A) : M A := λ w, (Ok (f w), w).
Definition modify (f : world → world) : M unit := λ w, (Ok tt, f w).
Definition raise {A} (e : exn) : M A := λ w, (Raise e, w).
Definition lift {A} (r : result A) : M A := λ w, (r, w).

(** [try: body except <caught>: handler]. *)
Definition try_catch {A} (body : M A) (caught : exn → bool)
    (handler : exn → M A) : M A := λ w,
  match body w with
  | (Ok a, w') => (Ok a, w')
  | (Raise e, w') => if caught e then handler e w' else (Raise e, w')
  end.

(** [for x in xs: body], with the local variables the body rebinds carried
    as [s]. *)
Fixpoint for_each {A S} (xs : list A) (s : S) (body : A → S → M S) : M S :=
  match xs with
  | [] => mret s
  | x :: xs' => s' ← body x s; for_each xs' s' body
  end.

(** The exception classes of the [except] clauses.  [IOError] is [OSError]
    in Python 3, [FileNotFoundError], [PermissionError] and
    [ProcessLookupError] are its subclasses, and [json.JSONDecodeError] is a
    [ValueError]. *)
Definition is_OSError (e : exn) : bool :=
  match e with
  | FileNotFoundError | PermissionError | ProcessLookupError | OSError _ => true
  | _ => false
  end.

Definition is_ValueError (e : exn) : bool :=
  match e with ValueError | JSONDecodeError => true | _ => false end.

Definition is_ProcessLookupError (e : exn) : bool :=
  match e with ProcessLookupError => true | _ => false end.

Definition is_psutil_gone_or_denied (e : exn) : bool :=
  match e with NoSuchProcess | AccessDenied => true | _ => false end.

(** ** State store *)

Definition os_path_exists {A} (f : file A) : bool :=
  match f with NoFile => false | _ => true end.

(** [with open(path, "r") as f: json.load(f)]. *)
Definition json_load {A} (f : file A) : result A :=
  match f with
  | NoFile => Raise FileNotFoundError
  | Unreadable => Raise PermissionError
  | Garbage => Raise JSONDecodeError
  | Stored a => Ok a
  end.

Definition load_persistent_streams : M DataFrame :=
  found ← gets (λ w, os_path_exists (streams_file w));
  if found : bool then
    try_catch
      (f ← gets streams_file;
       data ← lift (json_load f);
       mret (DataFrame_of_records data))
      any_exception
      (λ _, mret empty_catalog)
  else mret empty_catalog.

Definition load_active_streams : M (gmap nat ActiveJobRecord) :=
  found ← gets (λ w, os_path_exists (active_file w));
  if found : bool then
    try_catch
      (f ← gets active_file; lift (json_load f))
      any_exception
      (λ _, mret ∅)
  else mret ∅.

(** The two writers report a failed write with [st.error] and go on, the
    file keeping what it held.  In this model a write to the working
    directory succeeds, also over a file that could not be read: the
    [except] branch of the writers is not covered, and no theorem below
    speaks of a write that fails. *)
Definition save_persistent_streams : M unit :=
  modify (λ w, set_streams_file (Stored (streams w)) w).

Definition save_active_streams (active_streams : gmap nat ActiveJobRecord)
    : M unit :=
  modify (set_active_file (Stored active_streams)).

(** ** Process monitor *)

Definition psutil_pid_exists (pid : Z) : M bool :=
  gets (λ w, bool_decide (is_Some (procs w !! pid))).

(** [psutil.Process(pid).name()]. *)
Definition psutil_Process_name (pid : Z) : M string :=
  ps ← gets procs;
  match ps !! pid with
  | Some (Running name _) => mret name
  | Some (Protected _) => raise AccessDenied
  | Some Vanished | None => raise NoSuchProcess
  end.

(** The function returns [True] from inside the [try] and [False] after
    it; the value of the [try] block below is whether it returned. *)
Definition is_process_running (pid : Z) : M bool :=
  try_catch
    (found ← psutil_pid_exists pid;
     if found : bool then
       name ← psutil_Process_name pid;
       if contains "ffmpeg" (lower name) then mret true else mret false
     else mret false)
    is_psutil_gone_or_denied
    (λ _, mret false).

(** ** Lifecycle cleaner *)

(** Removes the pid file and the status file of the job when they exist;
    a failing [os.remove] is swallowed. *)
Definition cleanup_stream_files (row_id : nat) : M unit :=
  _ ← modify (set_pid_files (delete row_id));
  modify (set_status_files (delete row_id)).

(** ** Catalog updates *)

(** [st.session_state.streams.loc[row_id, 'Status'] = status].  Every caller
    passes a label that [iterrows] produced or checks [row_id < len] first,
    so the label exists; pandas would add a row for a label that does not,
    here the frame is left as it is. *)
Definition set_Status (row_id : nat) (status : string) : M unit :=
  modify (set_streams (alter (with_status status) row_id)).

Fixpoint enumerate {A} (start : nat) (l : list A) : list (nat * A) :=
  match l with
  | [] => []
  | x :: t => (start, x) :: enumerate (S start) t
  end.

(** [iterrows()]: the labels and the rows as they are when the loop starts. *)
Definition iterrows (w : world) : list (nat * StreamJob) :=
  enumerate 0 (streams w).

(** ** Job runner *)

(** [start_stream].  None of its statements raises in this model, so the
    [except] branch (report and return [False]) is not reached. *)
Definition start_stream (video_path stream_key : string) (is_shorts : bool)
    (row_id : nat) (quality : string) : M bool :=
  _ ← set_Status row_id Sedang_Live;
  _ ← save_persistent_streams;
  _ ← modify (set_status_files <[row_id := "starting"]>);
  _ ← modify (add_thread {| arg_video_path := video_path;
                            arg_stream_key := stream_key;
                            arg_is_shorts := is_shorts;
                            arg_row_id := row_id;
                            arg_quality := quality |});
  mret true.

(** The newline character. *)
Definition nl : string := String (ascii_of_nat 10) EmptyString.

(** The lines [run_ffmpeg] writes at the end of a run. *)
Definition completed_line : string := "Streaming completed." ++ nl.
Definition closing_line : string := "Streaming finished or stopped." ++ nl.
Definition error_line (msg : string) : string := "Error: " ++ msg ++ nl.

(** [with open(log_file, "a") as f: f.write(line)]. *)
Definition append_log (row_id : nat) (line : string) : M unit :=
  modify (set_log_files (λ logs,
    <[row_id := (default [] (logs !! row_id) ++ [line])%list]> logs)).

Definition write_status (row_id : nat) (text : string) : M unit :=
  modify (set_status_files <[row_id := text]>).

(** The block "Remove from active streams" of [run_ffmpeg]: load, delete the
    key when present, save. *)
Definition remove_active (row_id : nat) : M unit :=
  active_streams ← load_active_streams;
  save_active_streams (delete row_id active_streams).

(** The [finally] block of [run_ffmpeg]. *)
Definition run_ffmpeg_finally (row_id : nat) : M unit :=
  _ ← append_log row_id closing_line;
  cleanup_stream_files row_id.

(** [str(e)] for the exceptions of the model. *)
Definition exn_str (e : exn) : string :=
  match e with
  | NoSuchProcess => "process no longer exists"
  | AccessDenied => "access denied"
  | ProcessLookupError => "[Errno 3] No such process"
  | PermissionError => "[Errno 13] Permission denied"
  | ValueError => "invalid literal for int()"
  | FileNotFoundError => "[Errno 2] No such file or directory"
  | JSONDecodeError => "Expecting value"
  | KeyError => "key"
  | OSError msg => msg
  end.

(** The [except Exception as e] block of [run_ffmpeg]. *)
Definition run_ffmpeg_except (row_id : nat) (e : exn) : M unit :=
  _ ← append_log row_id (error_line (exn_str e));
  _ ← write_status row_id ("error: " ++ exn_str e);
  remove_active row_id.

(** [run_ffmpeg] up to [process.wait()].  [header] is the text written to the
    fresh log (the two opening lines and the command line), [spawn] is what
    [subprocess.Popen] does: it returns the pid of the new ffmpeg process,
    leader of its own session, or raises.  When it raises the function runs
    to its end here.  The settings are looked up before the [try]; the
    command line built from them is part of [header]. *)
Definition run_ffmpeg_launch (a : run_args) (header : list string)
    (spawn : result Z) (now : string) : M unit :=
  let row_id := arg_row_id a in
  _ ← modify (set_log_files <[row_id := header]>);
  _ ← lift (get_quality_settings (arg_quality a) (arg_is_shorts a));
  match spawn with
  | Ok p =>
      _ ← modify (set_procs <[p := Running "ffmpeg" p]>);
      _ ← modify (set_pid_files <[row_id := Some p]>);
      _ ← write_status row_id "streaming";
      active_streams ← load_active_streams;
      save_active_streams
        (<[row_id := {| pid := p; started_at := now |}]> active_streams)
  | Raise e =>
      _ ← run_ffmpeg_except row_id e;
      run_ffmpeg_finally row_id
  end.

(** The statements of the [try] block after [process.wait()] has returned. *)
Definition run_ffmpeg_completed (row_id : nat) : M unit :=
  _ ← write_status row_id "completed";
  _ ← append_log row_id completed_line;
  remove_active row_id.

(** [run_ffmpeg] from the return of [process.wait()] to its end. *)
Definition run_ffmpeg_exit (row_id : nat) : M unit :=
  _ ← run_ffmpeg_completed row_id;
  run_ffmpeg_finally row_id.

(** One turn of the [log_output] loop, for one line of ffmpeg output. *)
Definition log_output (row_id : nat) (line : string) : M unit :=
  _ ← append_log row_id line;
  if contains "Connection refused" line || contains "Server returned 4" line
  then write_status row_id "error: YouTube connection failed"
  else mret tt.

(** ** Supervisor: reattachment, liveness sweep, schedule sweep *)

(** One turn of the loop of [reconnect_to_existing_streams], for the pid
    file of [row_id].  The file is read again here: it may be gone. *)
Definition reconnect_body (now : string) (row_id : nat)
    (active_streams : gmap nat ActiveJobRecord)
    : M (gmap nat ActiveJobRecord) :=
  try_catch
    (content ← gets (λ w, pid_files w !! row_id);
     p ← match content with
         | None => raise FileNotFoundError
         | Some None => raise ValueError
         | Some (Some p) => mret p
         end;
     running ← is_process_running p;
     if running : bool then
       n ← gets (λ w, length (streams w));
       if bool_decide (row_id < n) then
         _ ← set_Status row_id Sedang_Live;
         mret (<[row_id := {| pid := p; started_at := now |}]> active_streams)
       else mret active_streams
     else
       _ ← cleanup_stream_files row_id;
       mret (delete row_id active_streams))
    (λ e, is_ValueError e || is_OSError e)
    (λ _, _ ← modify (set_pid_files (delete row_id)); mret active_streams).

(** [now] is [datetime.datetime.now().isoformat()].  The directory listing is
    taken once, in the order the map enumerates its keys. *)
Definition reconnect_to_existing_streams (now : string) : M unit :=
  active_streams ← load_active_streams;
  pid_file_ids ← gets (λ w, (map_to_list (pid_files w)).*1);
  active_streams ← for_each pid_file_ids active_streams (reconnect_body now);
  save_active_streams active_streams.

(** The three-way classification of a status marker read by
    [check_stream_statuses] for a tracked job whose process died. *)
Definition classify_marker (status : string) : string :=
  if String.eqb status "completed" then Selesai
  else if startswith "error:" status then status
  else Terputus.

(** One turn of the loop of [check_stream_statuses]. *)
Definition check_body (it : nat * StreamJob)
    (active_streams : gmap nat ActiveJobRecord)
    : M (gmap nat ActiveJobRecord) :=
  let '(idx, row) := it in
  marker ← gets (λ w, status_files w !! idx);
  match active_streams !! idx with
  | Some rec =>
      running ← is_process_running (pid rec);
      if negb running then
        if String.eqb (Status row) Sedang_Live then
          _ ← match marker with
              | Some content =>
                  _ ← set_Status idx (classify_marker (strip content));
                  _ ← save_persistent_streams;
                  modify (set_status_files (delete idx))
              | None => mret tt
              end;
          let active_streams := delete idx active_streams in
          _ ← save_active_streams active_streams;
          _ ← cleanup_stream_files idx;
          mret active_streams
        else mret active_streams
      else mret active_streams
  | None =>
      match marker with
      | Some content =>
          let status := strip content in
          if String.eqb status "completed"
             && String.eqb (Status row) Sedang_Live then
            _ ← set_Status idx Selesai;
            _ ← save_persistent_streams;
            _ ← modify (set_status_files (delete idx));
            mret active_streams
          else if startswith "error:" status
                  && String.eqb (Status row) Sedang_Live then
            _ ← set_Status idx status;
            _ ← save_persistent_streams;
            _ ← modify (set_status_files (delete idx));
            mret active_streams
          else mret active_streams
      | None => mret active_streams
      end
  end.

Definition check_stream_statuses : M unit :=
  active_streams ← load_active_streams;
  its ← gets iterrows;
  _ ← for_each its active_streams check_body;
  mret tt.

(** One turn of the loop of [check_scheduled_streams].  [row.get] finds the
    columns 'Quality' and 'Is Shorts' in every row of the model. *)
Definition sweep_body (current_time : string) (it : nat * StreamJob)
    (_ : unit) : M unit :=
  let '(idx, row) := it in
  if String.eqb (Status row) Menunggu
     && String.eqb (Jam_Mulai row) current_time then
    _ ← start_stream (Video row) (Streaming_Key row) (Is_Shorts row) idx
          (Quality row);
    mret tt
  else mret tt.

(** [current_time] is [datetime.datetime.now().strftime("%H:%M")]. *)
Definition check_scheduled_streams (current_time : string) : M unit :=
  its ← gets iterrows;
  for_each its tt (sweep_body current_time).

(** The reconciliation of one script run, in the order [main] calls it. *)
Definition reconcile (now : string) : M unit :=
  _ ← reconnect_to_existing_streams now;
  check_stream_statuses.

(** ** Supervisor: stop *)

(** What the operating system does on the calls of [stop_stream]: the name
    [os.name] reports, the effect of [os.killpg] on the process table (it
    may raise), what becomes of the processes during [time.sleep], and the
    effect of [taskkill /F /PID]. *)
Record Kernel := {
  os_name : string;
  deliver : signal → Z → gmap Z proc → result (gmap Z proc);
  elapse : Z → gmap Z proc → gmap Z proc;
  taskkill : Z → gmap Z proc → gmap Z proc
}.

Definition os_getpgid (p : Z) : M Z :=
  ps ← gets procs;
  match ps !! p with
  | Some (Running _ g) | Some (Protected g) => mret g
  | Some Vanished | None => raise ProcessLookupError
  end.

Definition os_killpg (K : Kernel) (pgid : Z) (s : signal) : M unit :=
  _ ← modify (add_syscall (Killpg pgid s));
  ps ← gets procs;
  ps' ← lift (deliver K s pgid ps);
  modify (set_procs (λ _, ps')).

Definition time_sleep (K : Kernel) (seconds : Z) : M unit :=
  _ ← modify (add_syscall (Sleep seconds));
  modify (set_procs (elapse K seconds)).

Definition run_taskkill (K : Kernel) (p : Z) : M unit :=
  _ ← modify (add_syscall (Taskkill p));
  modify (set_procs (taskkill K p)).

(** Python's truth value of [pid]: [None] and [0] are false. *)
Definition truthy (p : option Z) : bool :=
  match p with
  | Some n => negb (Z.eqb n 0)
  | None => false
  end.

(** The termination attempt of [stop_stream] for a live process: [taskkill]
    on Windows; elsewhere SIGTERM to the process group, a sleep of 2, and
    SIGKILL when the process is still running.  A [ProcessLookupError] ends
    the attempt quietly, any other exception leaves through the caller. *)
Definition stop_terminate (K : Kernel) (p : Z) : M unit :=
  if String.eqb (os_name K) "nt" then run_taskkill K p
  else
    try_catch
      (g ← os_getpgid p;
       _ ← os_killpg K g SIGTERM;
       _ ← time_sleep K 2;
       again ← is_process_running p;
       if again : bool then
         g' ← os_getpgid p;
         os_killpg K g' SIGKILL
       else mret tt)
      is_ProcessLookupError
      (λ _, mret tt).

Definition stop_stream (K : Kernel) (row_id : nat) : M bool :=
  try_catch
    (active_streams ← load_active_streams;
     let tracked := pid <$> (active_streams !! row_id) in
     has_pid_file ← gets (λ w, bool_decide (is_Some (pid_files w !! row_id)));
     p ← (if negb (truthy tracked) && has_pid_file then
            content ← gets (λ w, pid_files w !! row_id);
            match content with
            | Some (Some n) => mret (Some n)
            | Some None => raise ValueError
            | None => raise FileNotFoundError
            end
          else mret tracked);
     running ← (if truthy p then is_process_running (default 0%Z p)
                else mret false);
     if running : bool then
       try_catch
         (_ ← stop_terminate K (default 0%Z p);
          _ ← set_Status row_id Dihentikan;
          _ ← save_persistent_streams;
          _ ← write_status row_id "stopped";
          _ ← save_active_streams (delete row_id active_streams);
          _ ← cleanup_stream_files row_id;
          mret true)
         any_exception
         (λ e, _ ← modify (add_st_error e); mret false)
     else
       _ ← set_Status row_id Dihentikan;
       _ ← save_persistent_streams;
       _ ← cleanup_stream_files row_id;
       _ ← save_active_streams (delete row_id active_streams);
       mret true)
    any_exception
    (λ e, _ ← modify (add_st_error e); mret false).

(** ** The operator's buttons *)

(** "Add Stream": the new row is appended with status 'Menunggu'. *)
Definition ui_add_stream (job : StreamJob) : M unit :=
  _ ← modify (set_streams (λ l, (l ++ [with_status Menunggu job])%list));
  save_persistent_streams.

(** The test of the "Remove" button: the status is terminal. *)
Definition removable (status : string) : bool :=
  String.eqb status Selesai || String.eqb status Dihentikan
  || String.eqb status Terputus || startswith "error:" status.

(** "Remove": [drop(i).reset_index(drop=True)] takes the row out and moves
    the rows after it up by one; the log file of id [i] is deleted. *)
Definition ui_remove (i : nat) : M unit :=
  row ← gets (λ w, streams w !! i);
  match row with
  | Some row =>
      if removable (Status row) then
        _ ← modify (set_streams (delete i));
        _ ← save_persistent_streams;
        modify (set_log_files (delete i))
      else mret tt
  | None => mret tt
  end.

(** ** The supervisor as a transition system

    One step is one call of a supervisor function, one event of a
    [run_ffmpeg] thread, or a change of the process table.  The buttons
    "Start" and "Stop" call [start_stream] and [stop_stream].  These steps
    leave every job at its row id. *)
Inductive step (K : Kernel) : world → world → Prop :=
| step_reconnect now w :
    step K w (reconnect_to_existing_streams now w).2
| step_check w :
    step K w (check_stream_statuses w).2
| step_sweep current_time w :
    step K w (check_scheduled_streams current_time w).2
| step_start video_path stream_key is_shorts row_id quality w :
    step K w (start_stream video_path stream_key is_shorts row_id quality w).2
| step_stop row_id w :
    step K w (stop_stream K row_id w).2
| step_add job w :
    step K w (ui_add_stream job w).2
| step_launch a header spawn now w :
    step K w (run_ffmpeg_launch a header spawn now w).2
| step_exit row_id w :
    step K w (run_ffmpeg_exit row_id w).2
| step_log row_id line w :
    step K w (log_output row_id line w).2
| step_os ps w :
    step K w (set_procs (λ _, ps) w).

(** Whether "Remove" on row [j] takes a row out. *)
Definition removes (j : nat) (w : world) : bool :=
  match streams w !! j with
  | Some row => removable (Status row)
  | None => false
  end.

(** The steps of the supervisor as one job sees them: the job stays at its
    row id, except that removing an earlier row moves it up by one.  The
    removal of the job itself ends its history. *)
Inductive job_step (K : Kernel) : world * nat → world * nat → Prop :=
| job_step_same w w' i :
    step K w w' → job_step K (w, i) (w', i)
| job_step_remove w i j :
    (j = i → removes j w = false) →
    job_step K (w, i)
      ((ui_remove j w).2,
       if removes j w && bool_decide (j < i) then i - 1 else i).

(** ** Pure readings of the world, used to state the theorems *)

(** The mapping [load_active_streams] returns. *)
Definition active_of (w : world) : gmap nat ActiveJobRecord :=
  match active_file w with
  | Stored m => m
  | _ => ∅
  end.

(** The answer of [is_process_running]. *)
Definition alive (ps : gmap Z proc) (p : Z) : bool :=
  match ps !! p with
  | Some (Running name _) => contains "ffmpeg" (lower name)
  | _ => false
  end.

(** The catalog [load_persistent_streams] returns. *)
Definition catalog_of (f : file (list StreamJob)) : DataFrame :=
  match f with
  | Stored data => DataFrame_of_records data
  | _ => empty_catalog
  end.

(** A sample job. *)
Definition sample_job (status : string) : StreamJob :=
  {| Video := "sample.mp4"; Durasi := "01:00:00"; Jam_Mulai := "09:00";
     Streaming_Key := "abcd1234"; Status := status; Is_Shorts := false;
     Quality := "720p" |}.

(** Row [i] exists and has left 'Menunggu'. *)
Definition started (w : world) (i : nat) : Prop :=
  ∃ row, streams w !! i = Some row ∧ Status row ≠ Menunggu.

(** No row that has left 'Menunggu' is back in it, and no row is lost. *)
Definition keeps_started (w w' : world) : Prop :=
  ∀ j row, streams w !! j = Some row →
    ∃ row', streams w' !! j = Some row' ∧
            (Status row ≠ Menunggu → Status row' ≠ Menunggu).

(** The world after [os.killpg], with the outcome of the call. *)
Definition killed (K : Kernel) (g : Z) (s : signal) (w : world)
    : result unit * world :=
  match deliver K s g (procs w) with
  | Ok ps' => (Ok tt, set_procs (λ _, ps') (add_syscall (Killpg g s) w))
  | Raise e => (Raise e, add_syscall (Killpg g s) w)
  end.

(** The world after [time.sleep(2)]. *)
Definition slept (K : Kernel) (w : world) : world :=
  set_procs (elapse K 2) (add_syscall (Sleep 2) w).

(** Nothing but the process table and the list of system calls differs. *)
Definition same_files (w w' : world) : Prop :=
  streams w' = streams w ∧ streams_file w' = streams_file w ∧
  active_file w' = active_file w ∧ pid_files w' = pid_files w ∧
  status_files w' = status_files w ∧ log_files w' = log_files w ∧
  threads w' = threads w ∧ st_errors w' = st_errors w.

(** ** Concrete operating systems, for examples *)

Definition pgid_of (pr : proc) : option Z :=
  match pr with
  | Running _ g | Protected g => Some g
  | Vanished => None
  end.

Definition in_group (g : Z) (pr : proc) : bool :=
  bool_decide (pgid_of pr = Some g).

(** The processes of group [g] are removed from the table; an empty group
    is a [ProcessLookupError]. *)
Definition kill_group (g : Z) (ps : gmap Z proc) : result (gmap Z proc) :=
  if bool_decide (map_Forall (λ _ pr, in_group g pr = false) ps)
  then Raise ProcessLookupError
  else Ok (filter (λ kv, in_group g kv.2 = false) ps).

(** A Unix whose processes exit as soon as they get SIGTERM. *)
Definition obedient_unix : Kernel :=
  {| os_name := "posix";
     deliver := λ _ g ps, kill_group g ps;
     elapse := λ _ ps, ps;
     taskkill := λ _ ps, ps |}.

(** A Unix whose processes ignore SIGTERM and die of SIGKILL only. *)
Definition stubborn_unix : Kernel :=
  {| os_name := "posix";
     deliver := λ s g ps,
       match s with
       | SIGTERM =>
           if bool_decide (map_Forall (λ _ pr, in_group g pr = false) ps)
           then Raise ProcessLookupError else Ok ps
       | SIGKILL => kill_group g ps
       end;
     elapse := λ _ ps, ps;
     taskkill := λ _ ps, ps |}.

(** A Unix whose processes ignore SIGTERM and on which SIGKILL may not be
    sent. *)
Definition unkillable_unix : Kernel :=
  {| os_name := "posix";
     deliver := λ s _ ps,
       match s with
       | SIGTERM => Ok ps
       | SIGKILL => Raise PermissionError
       end;
     elapse := λ _ ps, ps;
     taskkill := λ _ ps, ps |}.

(** Windows: [os.name] is "nt" and [taskkill /F /PID] removes the process. *)
Definition windows : Kernel :=
  {| os_name := "nt";
     deliver := λ _ _ _, Raise (OSError "os.killpg is not available");
     elapse := λ _ ps, ps;
     taskkill := λ p ps, delete p ps |}.

(** ** Sample worlds *)

Definition sample_record : ActiveJobRecord :=
  {| pid := 4242; started_at := "2024-01-01T09:00:00" |}.

(** Job 0 is streaming: catalog row 'Sedang Live', ffmpeg 4242 alive, record,
    pid file and status marker in place. *)
Definition w_streaming : world :=
  {| streams := [sample_job Sedang_Live];
     streams_file := Stored [sample_job Sedang_Live];
     active_file := Stored {[ 0 := sample_record ]};
     pid_files := {[ 0 := Some 4242%Z ]};
     status_files := {[ 0 := "streaming" ]};
     log_files := {[ 0 := ["Starting optimized stream"] ]};
     procs := {[ 4242%Z := Running "ffmpeg" 4242 ]};
     threads := []; syscalls := []; st_errors := [] |}.

(** The same after the host lost the ffmpeg process without any of the
    program's code running (a crash or a reboot). *)
Definition w_crashed : world := set_procs (λ _, ∅) w_streaming.

(** Job 0 is 'Sedang Live' in the catalog, its record points to a dead
    process and there is no status marker. *)
Definition w_dead_no_marker : world :=
  {| streams := [sample_job Sedang_Live];
     streams_file := Stored [sample_job Sedang_Live];
     active_file := Stored {[ 0 := sample_record ]};
     pid_files := ∅; status_files := ∅; log_files := ∅; procs := ∅;
     threads := []; syscalls := []; st_errors := [] |}.

(** Job 0 is 'Sedang Live' in the catalog and nothing tracks it: the state
    [run_ffmpeg] leaves when ffmpeg exits by itself. *)
Definition w_untracked_live : world :=
  (run_ffmpeg_exit 0 w_crashed).2.

(** Job 0 is still 'Menunggu' while the record under key 0 points to a live
    ffmpeg process. *)
Definition w_tracked_waiting : world :=
  {| streams := [sample_job Menunggu];
     streams_file := Stored [sample_job Menunggu];
     active_file := Stored {[ 0 := sample_record ]};
     pid_files := ∅; status_files := ∅; log_files := ∅;
     procs := {[ 4242%Z := Running "ffmpeg" 4242 ]};
     threads := []; syscalls := []; st_errors := [] |}.

(** Job 0 is 'Sedang Live', untracked, and its pid file is not a number. *)
Definition w_garbage_pid : world :=
  {| streams := [sample_job Sedang_Live];
     streams_file := Stored [sample_job Sedang_Live];
     active_file := NoFile;
     pid_files := {[ 0 := None ]};
     status_files := ∅; log_files := ∅; procs := ∅;
     threads := []; syscalls := []; st_errors := [] |}.

(** ** The properties as the specification words them *)



(** Job 0 after a stop that needed SIGKILL: the catalog says 'Dihentikan'
    and the [run_ffmpeg] thread is about to return from [process.wait()]. *)
Definition w_stopped : world := (stop_stream stubborn_unix 0 w_streaming).2.

(** "The runner writes the terminal marker completed only if the process
    exited rather than being deliberately stopped." *)
Definition completed_only_on_own_exit : Prop :=
  ∀ w row_id row,
    streams w !! row_id = Some row → Status row = Dihentikan →
    status_files (run_ffmpeg_completed row_id w).2 !! row_id
      ≠ Some "completed".

(** ** Pure readings of [stop_stream] *)

(** The pid [stop_stream] resolves: the tracked one when it is there and not
    0, else the one of the pid file; reading a pid file that is not a number
    raises. *)
Definition resolved_pid (w : world) (row_id : nat) : result (option Z) :=
  let tracked := pid <$> (active_of w !! row_id) in
  if truthy tracked then Ok tracked
  else match pid_files w !! row_id with
       | Some (Some n) => Ok (Some n)
       | Some None => Raise ValueError
       | None => Ok tracked
       end.

(** The world after the closing statements of the two branches. *)
Definition finish_dead (row_id : nat) (w : world) : world :=
  set_active_file (Stored (delete row_id (active_of w)))
    (set_status_files (delete row_id)
       (set_pid_files (delete row_id)
          (set_streams_file
             (Stored (alter (with_status Dihentikan) row_id (streams w)))
             (set_streams (alter (with_status Dihentikan) row_id) w)))).

Definition finish_live (row_id : nat) (active : gmap nat ActiveJobRecord)
    (w : world) : world :=
  set_status_files (delete row_id)
    (set_pid_files (delete row_id)
       (set_active_file (Stored (delete row_id active))
          (set_status_files <[row_id := "stopped"]>
             (set_streams_file
                (Stored (alter (with_status Dihentikan) row_id (streams w)))
                (set_streams (alter (with_status Dihentikan) row_id) w))))).

(** No live process handle can be resolved for the job: neither the pid of
    its record nor the pid in its pid file is a running ffmpeg. *)
Definition no_live_handle (w : world) (row_id : nat) : Prop :=
  (∀ m rec, load_active_streams w = (Ok m, w) → m !! row_id = Some rec →
            is_process_running (pid rec) w = (Ok false, w)) ∧
  (∀ p, pid_files w !! row_id = Some (Some p) →
        is_process_running p w = (Ok false, w)).

(** [stop_stream] returns [True], the job is 'Dihentikan', it has no record,
    no pid file and no status marker, and no error was reported. *)
Definition stopped_cleanly (K : Kernel) (row_id : nat) (w : world) : Prop :=
  ∃ w' row' m,
    stop_stream K row_id w = (Ok true, w') ∧
    streams w' !! row_id = Some row' ∧ Status row' = Dihentikan ∧
    load_active_streams w' = (Ok m, w') ∧ m !! row_id = None ∧
    pid_files w' !! row_id = None ∧ status_files w' !! row_id = None ∧
    st_errors w' = st_errors w.


(** The handle [stop_stream] works on is [p]: the pid of the job's record,
    or, when there is no record or its pid is 0, the pid in the pid file. *)
Definition resolves_to (w : world) (row_id : nat) (p : Z) : Prop :=
  match active_of w !! row_id with
  | Some rec =>
      if Z.eqb (pid rec) 0 then pid_files w !! row_id = Some (Some p)
      else pid rec = p
  | None => pid_files w !! row_id = Some (Some p)
  end.

(** The closing bookkeeping of a stop: the job is 'Dihentikan', its record
    is gone from the saved mapping, its pid file and status marker are
    deleted. *)
Definition stop_bookkeeping (row_id : nat) (w w' : world) : Prop :=
  (∃ row', streams w' !! row_id = Some row' ∧ Status row' = Dihentikan) ∧
  load_active_streams w' = (Ok (delete row_id (active_of w)), w') ∧
  pid_files w' !! row_id = None ∧ status_files w' !! row_id = None.

(** "Stop sends a graceful termination signal to the whole process group,
    waits 2, escalates to a forceful kill if still alive, then transitions to
    Stopped, clears the record, and cleans artifacts." *)
Definition stop_is_graceful : Prop :=
  ∀ K w row_id p,
    row_id < length (streams w) → resolves_to w row_id p → p ≠ 0%Z →
    is_process_running p w = (Ok true, w) →
    ∃ w' g rest,
      stop_stream K row_id w = (Ok true, w') ∧
      os_getpgid p w = (Ok g, w) ∧
      syscalls w' = (syscalls w ++ Killpg g SIGTERM :: Sleep 2 :: rest)%list ∧
      (rest = [] ∨ ∃ g', rest = [Killpg g' SIGKILL]) ∧
      stop_bookkeeping row_id w w'.

(** ** Pure readings of the schedule sweep *)

(** The test of [check_scheduled_streams] on a row. *)
Definition due (current_time : string) (row : StreamJob) : bool :=
  String.eqb (Status row) Menunggu && String.eqb (Jam_Mulai row) current_time.

(** The thread arguments the sweep passes for a row. *)
Definition args_of (it : nat * StreamJob) : run_args :=
  {| arg_video_path := Video it.2; arg_stream_key := Streaming_Key it.2;
     arg_is_shorts := Is_Shorts it.2; arg_row_id := it.1;
     arg_quality := Quality it.2 |}.

(** The threads a sweep at [current_time] starts in world [w]. *)
Definition launches (current_time : string) (w : world) : list run_args :=
  drop (length (threads w))
       (threads (check_scheduled_streams current_time w).2).

(** How many of the threads in [l] run job [idx]. *)
Definition times_launched (idx : nat) (l : list run_args) : nat :=
  length (filter (λ a, arg_row_id a = idx) l).

(** The row [check_stream_statuses] writes for a tracked 'Sedang Live' job
    whose process is dead: reclassified by the marker when there is one,
    unchanged when there is none. *)
Definition reclassified (marker : option string) (row : StreamJob)
    : StreamJob :=
  match marker with
  | Some content => with_status (classify_marker (strip content)) row
  | None => row
  end.

(** Job 0 is waiting for 09:00 and nothing runs. *)
Definition w_waiting : world :=
  {| streams := [sample_job Menunggu];
     streams_file := Stored [sample_job Menunggu];
     active_file := NoFile;
     pid_files := ∅; status_files := ∅; log_files := ∅; procs := ∅;
     threads := []; syscalls := []; st_errors := [] |}.

(** ** More of the program: the script run, the log viewer, the forms *)

(** The reconciliation and the schedule sweep of one script run, in the
    order [main] calls them; [now] and [current_time] are the two readings
    of the clock. *)
Definition refresh (now current_time : string) : M unit :=
  _ ← reconnect_to_existing_streams now;
  _ ← check_stream_statuses;
  check_scheduled_streams current_time.

(** Python's [l[start:]]: a negative start counts from the end, and a start
    outside the list is clipped to it. *)
Definition slice_from {A} (start : Z) (l : list A) : list A :=
  if Z.ltb start 0
  then drop (Z.to_nat (Z.max 0 (Z.of_nat (length l) + start))) l
  else drop (Z.to_nat start) l.

(** [get_stream_logs]; the log file is held by lines, as [readlines]
    returns it. *)
Definition get_stream_logs (row_id : nat) (max_lines : Z)
    : M (list string) :=
  log ← gets (λ w, log_files w !! row_id);
  match log with
  | Some lines =>
      if Z.ltb max_lines (Z.of_nat (length lines))
      then mret (slice_from (- max_lines) lines)
      else mret lines
  | None => mret []
  end.

(** Python's [s[:n]]. *)
Fixpoint str_take (n : nat) (s : string) : string :=
  match n, s with
  | S n', String c t => String c (str_take n' t)
  | _, _ => EmptyString
  end.

(** The streaming key as the stream table shows it. *)
Definition masked_key (key : string) : string :=
  if Nat.ltb 4 (String.length key) then str_take 4 key ++ "****"
  else "****".




(** ** What the two reconciliation loops do to one job

    The data of job [j] that the loops read and write: its catalog row, its
    record, its pid file and its status marker. *)
Definition slot : Type :=
  option StreamJob * option ActiveJobRecord * option (option Z)
  * option string.

Definition slot_of (w : world) (j : nat) : slot :=
  (streams w !! j, active_of w !! j, pid_files w !! j, status_files w !! j).

(** The same while a loop holds the mapping in its local variable. *)
Definition slot_with (active : gmap nat ActiveJobRecord) (w : world)
    (j : nat) : slot :=
  (streams w !! j, active !! j, pid_files w !! j, status_files w !! j).

(** The outcome of a turn of [check_stream_statuses] for a job in the
    catalog. *)
Definition check_slot (ps : gmap Z proc) (s : slot) : slot :=
  match s with
  | (Some row, Some rec, pf, marker) =>
      if alive ps (pid rec) then s
      else if String.eqb (Status row) Sedang_Live
           then (Some (reclassified marker row), None, None, None)
           else s
  | (Some row, None, pf, Some content) =>
      if String.eqb (strip content) "completed"
         && String.eqb (Status row) Sedang_Live
      then (Some (with_status Selesai row), None, pf, None)
      else if startswith "error:" (strip content)
              && String.eqb (Status row) Sedang_Live
      then (Some (with_status (strip content) row), None, pf, None)
      else s
  | _ => s
  end.

(** The outcome of a turn of [reconnect_to_existing_streams] for a job when
    the clock reads [now]; the job is in the catalog when it has a row. *)
Definition reconnect_slot (now : string) (ps : gmap Z proc) (s : slot)
    : slot :=
  match s with
  | (row, rec, Some (Some p), marker) =>
      if alive ps p then
        match row with
        | Some r =>
            (Some (with_status Sedang_Live r),
             Some {| pid := p; started_at := now |}, Some (Some p), marker)
        | None => s
        end
      else (row, None, None, None)
  | (row, rec, Some None, marker) => (row, rec, None, marker)
  | (_, _, None, _) => s
  end.

(** Everything the reconciliation never touches: the logs, the process
    table, the threads, the system calls and the error reports. *)
Definition same_rest (w w' : world) : Prop :=
  log_files w' = log_files w ∧ procs w' = procs w ∧
  threads w' = threads w ∧ syscalls w' = syscalls w ∧
  st_errors w' = st_errors w.

(** A Unix on which the signal may not be sent, and one on which the process
    group is gone when the signal is sent. *)
Definition forbidding_unix : Kernel :=
  {| os_name := "posix";
     deliver := λ _ _ _, Raise PermissionError;
     elapse := λ _ ps, ps;
     taskkill := λ _ ps, ps |}.

Definition racing_unix : Kernel :=
  {| os_name := "posix";
     deliver := λ _ _ _, Raise ProcessLookupError;
     elapse := λ _ ps, ps;
     taskkill := λ _ ps, ps |}.

(** Job 0 is 'Sedang Live' and untracked; its [run_ffmpeg] thread has
    written "completed" and removed the record, and has not yet reached its
    [finally] block. *)
Definition w_untracked_completed : world :=
  (run_ffmpeg_completed 0 w_crashed).2.

(** Job 0 has a record of a dead process 4242 while its pid file names the
    running ffmpeg 5151. *)
Definition w_stale_record : world :=
  {| streams := [sample_job Sedang_Live];
     streams_file := Stored [sample_job Sedang_Live];
     active_file := Stored {[ 0 := sample_record ]};
     pid_files := {[ 0 := Some 5151%Z ]};
     status_files := {[ 0 := "streaming" ]};
     log_files := ∅;
     procs := {[ 5151%Z := Running "ffmpeg" 5151 ]};
     threads := []; syscalls := []; st_errors := [] |}.

(** Job 0 has a log of three lines. *)
Definition w_three_lines : world :=
  set_log_files (λ _, {[ 0 := ["a"; "b"; "c"] ]}) w_waiting.

(** Job 0 has finished and job 1 is streaming, tracked under key 1. *)
Definition w_finished_and_streaming : world :=
  {| streams := [sample_job Selesai; sample_job Sedang_Live];
     streams_file := Stored [sample_job Selesai; sample_job Sedang_Live];
     active_file := Stored {[ 1 := sample_record ]};
     pid_files := {[ 1 := Some 4242%Z ]};
     status_files := {[ 1 := "streaming" ]};
     log_files := ∅;
     procs := {[ 4242%Z := Running "ffmpeg" 4242 ]};
     threads := []; syscalls := []; st_errors := [] |}.

(** ** The command line and the log header of [run_ffmpeg] *)

(** [s.replace('k', '')]. *)
Fixpoint remove_k (s : string) : string :=
  match s with
  | EmptyString => EmptyString
  | String c t =>
      if Ascii.eqb c "k" then remove_k t else String c (remove_k t)
  end.

Definition digit_of (c : ascii) : option Z :=
  let n := nat_of_ascii c in
  if Nat.leb 48 n && Nat.leb n 57 then Some (Z.of_nat (n - 48)) else None.

Fixpoint int_digits (acc : Z) (s : string) : result Z :=
  match s with
  | EmptyString => Ok acc
  | String c t =>
      match digit_of c with
      | Some d => int_digits (10 * acc + d) t
      | None => Raise ValueError
      end
  end.

(** [int(s)] on the strings [run_ffmpeg] gives it, the rates of the table
    of [get_quality_settings] without their "k": a string of decimal digits
    is read, the empty string and a string with a letter or a point raise
    [ValueError].  Signs, blanks and underscores, which Python's [int] also
    reads, do not occur there and raise here. *)
Definition int (s : string) : result Z :=
  match s with
  | EmptyString => Raise ValueError
  | _ => int_digits 0 s
  end.

(** [str(n)]. *)
Definition str (n : Z) : string :=
  DecimalString.NilZero.string_of_int (Z.to_int n).

(** The value of "-minrate":
    [str(int(settings["video_bitrate"].replace('k', '')) // 2) + "k"]. *)
Definition minrate_of (s : QualitySettings) : result string :=
  n ← int (remove_k (video_bitrate s));
  Ok (str (n / 2) ++ "k").

Definition output_url (stream_key : string) : string :=
  "rtmp://a.rtmp.youtube.com/live2/" ++ stream_key.

(** The list [cmd]. *)
Definition build_cmd (video_path stream_key : string) (s : QualitySettings)
    : result (list string) :=
  minrate ← minrate_of s;
  Ok ["ffmpeg"; "-hide_banner"; "-loglevel"; "info"; "-re";
      "-stream_loop"; "-1"; "-i"; video_path;
      "-c:v"; "libx264"; "-preset"; "veryfast"; "-tune"; "zerolatency";
      "-profile:v"; "high"; "-level"; "4.1"; "-pix_fmt"; "yuv420p";
      "-b:v"; video_bitrate s; "-maxrate"; maxrate s;
      "-bufsize"; bufsize s; "-minrate"; minrate;
      "-g"; "60"; "-keyint_min"; "30"; "-sc_threshold"; "0";
      "-r"; fps s;
      "-c:a"; "aac"; "-b:a"; audio_bitrate s; "-ar"; "44100"; "-ac"; "2";
      "-vf"; "scale=" ++ scale s
             ++ ":force_original_aspect_ratio=decrease,pad=" ++ scale s
             ++ ":(ow-iw)/2:(oh-ih)/2,fps=" ++ fps s;
      "-f"; "flv";
      "-reconnect"; "1"; "-reconnect_streamed"; "1";
      "-reconnect_delay_max"; "5";
      output_url stream_key].

(** [str(is_shorts)]. *)
Definition str_bool (b : bool) : string := if b then "True" else "False".

(** The three lines [run_ffmpeg] writes to the fresh log before it spawns
    ffmpeg; [now] is [str(datetime.datetime.now())]. *)
Definition run_ffmpeg_header (a : run_args) (now : string)
    : result (list string) :=
  settings ← get_quality_settings (arg_quality a) (arg_is_shorts a);
  cmd ← build_cmd (arg_video_path a) (arg_stream_key a) settings;
  Ok ["Starting optimized stream for " ++ arg_video_path a ++ " at " ++ now
        ++ nl;
      "Quality: " ++ arg_quality a ++ ", Shorts: "
        ++ str_bool (arg_is_shorts a) ++ nl;
      "Running: " ++ String.concat " " cmd ++ nl].

(** The arguments [check_scheduled_streams] passes for job 0 of the sample
    catalog. *)
Definition sample_args : run_args := args_of (0, sample_job Menunggu).

(** ** Basic facts about the monad and the primitives *)

Lemma load_active_streams_eq (w : world) :
  load_active_streams w = (Ok (active_of w), w).
Proof.
  unfold load_active_streams, active_of, mbind, M_bind, gets, try_catch, lift.
  destruct (active_file w) eqn:E; simpl; rewrite ?E; reflexivity.
Qed.

Lemma load_persistent_streams_eq (w : world) :
  load_persistent_streams w = (Ok (catalog_of (streams_file w)), w).
Proof.
  unfold load_persistent_streams, catalog_of, mbind, M_bind, gets, try_catch,
    lift.
  destruct (streams_file w) eqn:E; simpl; rewrite ?E; reflexivity.
Qed.

Lemma is_process_running_eq (p : Z) (w : world) :
  is_process_running p w = (Ok (alive (procs w) p), w).
Proof.
  unfold is_process_running, alive, try_catch, psutil_pid_exists,
    psutil_Process_name, mbind, M_bind, gets, raise, mret, M_ret.
  destruct (procs w !! p) as [[name g|g|]|] eqn:E; simpl; rewrite ?E;
    try reflexivity.
  destruct (contains "ffmpeg" (lower name)); reflexivity.
Qed.

Lemma for_each_cons {A S} (x : A) (xs : list A) (s : S) (body : A → S → M S)
    (w : world) :
  for_each (x :: xs) s body w
  = match body x s w with
    | (Ok s', w') => for_each xs s' body w'
    | (Raise e, w') => (Raise e, w')
    end.
Proof. reflexivity. Qed.

Lemma get_quality_settings_total (quality : string) (is_shorts : bool) :
  ∃ v, get_quality_settings quality is_shorts = Ok v.
Proof.
  unfold get_quality_settings, settings.
  rewrite lookup_insert_eq. simpl. eauto.
Qed.


(** ** The liveness sweep, one row at a time *)

Arguments startswith : simpl never.
Arguments contains : simpl never.
Arguments strip : simpl never.
Arguments String.eqb : simpl never.
Arguments truthy : simpl never.

Ltac munfold :=
  unfold mbind, M_bind, mret, M_ret, gets, modify, raise, lift, try_catch.

Lemma startswith_error_not_Menunggu (s : string) :
  startswith "error:" s = true → s ≠ Menunggu.
Proof. intros H ->. discriminate H. Qed.

Lemma classify_marker_not_Menunggu (s : string) :
  classify_marker s ≠ Menunggu.
Proof.
  unfold classify_marker.
  destruct (String.eqb s "completed"); [discriminate|].
  destruct (startswith "error:" s) eqn:E; [|discriminate].
  by apply startswith_error_not_Menunggu.
Qed.

Lemma classify_marker_not_Live (s : string) :
  classify_marker s ≠ Sedang_Live.
Proof.
  unfold classify_marker.
  destruct (String.eqb s "completed"); [discriminate|].
  destruct (startswith "error:" s) eqn:E; [|discriminate].
  intros ->. discriminate E.
Qed.

Ltac check_body_unchanged row :=
  eexists _, _; (split; [reflexivity|]); simpl;
  repeat split; auto; exists row; repeat split; auto.

Ltac check_body_altered idx st Hrow :=
  eexists _, _; (split; [reflexivity|]); simpl;
  (split; [first [reflexivity | (unfold active_of in *; simpl; assumption)]|]);
  (split; [reflexivity|]);
  (split; [apply length_alter|]);
  (split; [intros j Hj; by apply list_lookup_alter_ne|]);
  (split; [intros j rec' Hj; try apply lookup_delete_Some in Hj; tauto|]);
  eexists; (split; [rewrite list_lookup_alter_eq, Hrow; reflexivity|]);
  simpl; (split; [|split]).

Lemma check_body_spec (idx : nat) (row : StreamJob)
    (active : gmap nat ActiveJobRecord) (w : world) :
  streams w !! idx = Some row →
  active_of w = active →
  ∃ active' w',
    check_body (idx, row) active w = (Ok active', w') ∧
    active_of w' = active' ∧
    procs w' = procs w ∧
    length (streams w') = length (streams w) ∧
    (∀ j, j ≠ idx → streams w' !! j = streams w !! j) ∧
    (∀ j rec, active' !! j = Some rec → active !! j = Some rec) ∧
    ∃ row', streams w' !! idx = Some row' ∧
      (Status row ≠ Menunggu → Status row' ≠ Menunggu) ∧
      (Status row ≠ Sedang_Live → row' = row) ∧
      (∀ rec, Status row' = Sedang_Live → active' !! idx = Some rec →
              alive (procs w) (pid rec) = true).
Proof.
  intros Hrow Hact.
  unfold check_body. munfold.
  destruct (active !! idx) as [rec|] eqn:Hrec.
  - rewrite is_process_running_eq.
    destruct (alive (procs w) (pid rec)) eqn:Halive; simpl.
    { check_body_unchanged row. congruence. }
    destruct (String.eqb (Status row) Sedang_Live) eqn:Hlive; simpl;
      [|check_body_unchanged row; intros rec' Hl; apply String.eqb_neq in Hlive;
        contradiction].
    destruct (status_files w !! idx) as [content|] eqn:Hm; simpl.
    + apply String.eqb_eq in Hlive.
      check_body_altered idx (classify_marker (strip content)) Hrow.
      * intros _. apply classify_marker_not_Menunggu.
      * contradiction.
      * intros rec'. rewrite lookup_delete_eq. discriminate.
    + eexists _, _. split; [reflexivity|]. simpl.
      repeat split; auto.
      * intros j rec' Hj. apply lookup_delete_Some in Hj. tauto.
      * exists row. repeat split; auto.
        intros rec'. rewrite lookup_delete_eq. discriminate.
  - destruct (status_files w !! idx) as [content|] eqn:Hm; simpl;
      [|check_body_unchanged row; congruence].
    destruct (String.eqb (strip content) "completed"
              && String.eqb (Status row) Sedang_Live) eqn:Hc; simpl.
    { apply andb_true_iff in Hc as [_ Hc]. apply String.eqb_eq in Hc.
      check_body_altered idx Selesai Hrow;
        [discriminate|contradiction|congruence]. }
    destruct (startswith "error:" (strip content)
              && String.eqb (Status row) Sedang_Live) eqn:He; simpl;
      [|check_body_unchanged row; congruence].
    apply andb_true_iff in He as [He He']. apply String.eqb_eq in He'.
    check_body_altered idx (strip content) Hrow; [|contradiction|congruence].
    intros _. by apply startswith_error_not_Menunggu.
Qed.

Lemma check_loop_spec (rows : list StreamJob) :
  ∀ (k : nat) (active : gmap nat ActiveJobRecord) (w : world),
  (∀ i row, rows !! i = Some row → streams w !! (k + i) = Some row) →
  active_of w = active →
  ∃ active' w',
    for_each (enumerate k rows) active check_body w = (Ok active', w') ∧
    active_of w' = active' ∧
    procs w' = procs w ∧
    length (streams w') = length (streams w) ∧
    (∀ j, j < k → streams w' !! j = streams w !! j) ∧
    (∀ j rec, active' !! j = Some rec → active !! j = Some rec) ∧
    (∀ j row, streams w !! j = Some row →
       ∃ row', streams w' !! j = Some row' ∧
               (Status row ≠ Menunggu → Status row' ≠ Menunggu) ∧
               (Status row ≠ Sedang_Live → row' = row)) ∧
    (∀ j row' rec, k ≤ j < k + length rows →
       streams w' !! j = Some row' → Status row' = Sedang_Live →
       active' !! j = Some rec → alive (procs w) (pid rec) = true).
Proof.
  induction rows as [|row rows IH]; intros k active w Hsnap Hact.
  - exists active, w. simpl. repeat split; auto.
    + intros j r Hj. exists r. auto.
    + intros j r rec Hj. lia.
  - assert (Hk : streams w !! k = Some row).
    { specialize (Hsnap 0 row eq_refl). by rewrite Nat.add_0_r in Hsnap. }
    destruct (check_body_spec k row active w Hk Hact)
      as (a1 & w1 & Hb & Ha1 & Hp1 & Hlen1 & Hoth1 & Hsub1 & r1 & Hr1 & HM1 & HN1 & HL1).
    destruct (IH (S k) a1 w1) as (a2 & w2 & Hf & Ha2 & Hp2 & Hlen2 & Hlow2 & Hsub2 & HM2 & HL2).
    { intros i r Hi. rewrite Hoth1 by lia.
      specialize (Hsnap (S i) r Hi). by rewrite Nat.add_succ_r in Hsnap. }
    { exact Ha1. }
    exists a2, w2. simpl enumerate. rewrite for_each_cons, Hb.
    split; [exact Hf|]. split; [exact Ha2|]. split; [congruence|].
    split; [congruence|].
    split. { intros j Hj. rewrite Hlow2 by lia. apply Hoth1. lia. }
    split. { intros j rec Hj. auto. }
    split.
    { intros j r Hj. destruct (decide (j = k)) as [->|Hne].
      - destruct (HM2 k r1 Hr1) as (r2 & Hr2 & HM & HN). exists r2.
        split; [done|].
        rewrite Hk in Hj. injection Hj as ->. split; [auto|].
        intros Hnl. specialize (HN1 Hnl). subst r1. auto.
      - rewrite <- Hoth1 in Hj by done.
        destruct (HM2 j r Hj) as (r2 & Hr2 & HM). eauto. }
    intros j r rec Hj Hr Hlive Hrec. simpl in Hj.
    destruct (decide (j = k)) as [->|Hne].
    + rewrite Hlow2 in Hr by lia. rewrite Hr1 in Hr. injection Hr as ->.
      apply HL1; auto.
    + rewrite <- Hp1. apply (HL2 j r rec); auto. lia.
Qed.

Lemma check_stream_statuses_spec (w : world) :
  ∃ w',
    check_stream_statuses w = (Ok tt, w') ∧
    procs w' = procs w ∧
    length (streams w') = length (streams w) ∧
    (∀ j rec, active_of w' !! j = Some rec → active_of w !! j = Some rec) ∧
    (∀ j row, streams w !! j = Some row →
       ∃ row', streams w' !! j = Some row' ∧
               (Status row ≠ Menunggu → Status row' ≠ Menunggu) ∧
               (Status row ≠ Sedang_Live → row' = row)) ∧
    (∀ j row' rec, streams w' !! j = Some row' → Status row' = Sedang_Live →
       active_of w' !! j = Some rec → alive (procs w') (pid rec) = true).
Proof.
  destruct (check_loop_spec (streams w) 0 (active_of w) w)
    as (a & w' & Hf & Ha & Hp & Hlen & _ & Hsub & HM & HL); auto.
  exists w'. unfold check_stream_statuses, mbind, M_bind.
  rewrite load_active_streams_eq. unfold gets, iterrows. rewrite Hf.
  split; [reflexivity|]. split; [done|]. split; [done|].
  split. { rewrite Ha. exact Hsub. }
  split; [exact HM|].
  intros j r rec Hr Hlive Hrec. rewrite Hp. rewrite Ha in Hrec.
  apply (HL j r rec); auto.
  apply lookup_lt_Some in Hr. lia.
Qed.

(** A turn of the loop touches the record and the files of its own row
    only. *)
Lemma check_body_frame (idx : nat) (row : StreamJob)
    (active : gmap nat ActiveJobRecord) (w : world) :
  ∀ j, j ≠ idx →
    (check_body (idx, row) active w).1 ≫= (λ a, Ok (a !! j))
      = Ok (active !! j) ∧
    pid_files (check_body (idx, row) active w).2 !! j = pid_files w !! j ∧
    status_files (check_body (idx, row) active w).2 !! j
      = status_files w !! j.
Proof.
  intros j Hj. unfold check_body. munfold.
  destruct (active !! idx) as [rec|].
  - rewrite is_process_running_eq.
    repeat (case_match; simplify_eq/=);
      rewrite ?lookup_delete_ne by done; auto.
  - repeat (case_match; simplify_eq/=);
      rewrite ?lookup_delete_ne by done; auto.
Qed.

(** The turn for a tracked 'Sedang Live' row whose process is dead. *)
Lemma check_body_dead (idx : nat) (row : StreamJob) (rec : ActiveJobRecord)
    (active : gmap nat ActiveJobRecord) (w : world) :
  streams w !! idx = Some row → Status row = Sedang_Live →
  active !! idx = Some rec → alive (procs w) (pid rec) = false →
  ∃ active' w',
    check_body (idx, row) active w = (Ok active', w') ∧
    active' !! idx = None ∧
    pid_files w' !! idx = None ∧ status_files w' !! idx = None ∧
    streams w' !! idx = Some (reclassified (status_files w !! idx) row).
Proof.
  intros Hrow Hlive Hrec Hdead. unfold check_body. munfold.
  rewrite Hrec, is_process_running_eq, Hdead, Hlive. simpl.
  destruct (status_files w !! idx) as [content|]; simpl.
  - eexists _, _. split; [reflexivity|]. simpl.
    rewrite !lookup_delete_eq, list_lookup_alter_eq, Hrow. auto.
  - eexists _, _. split; [reflexivity|]. simpl.
    rewrite !lookup_delete_eq. auto.
Qed.

Lemma check_loop_dead (rows : list StreamJob) :
  ∀ (k : nat) (active : gmap nat ActiveJobRecord) (w : world),
  (∀ i row, rows !! i = Some row → streams w !! (k + i) = Some row) →
  active_of w = active →
  ∃ active' w',
    for_each (enumerate k rows) active check_body w = (Ok active', w') ∧
    (∀ j, j < k → active' !! j = active !! j
                  ∧ pid_files w' !! j = pid_files w !! j
                  ∧ status_files w' !! j = status_files w !! j
                  ∧ streams w' !! j = streams w !! j) ∧
    (∀ i row rec, rows !! i = Some row → Status row = Sedang_Live →
       active !! (k + i) = Some rec → alive (procs w) (pid rec) = false →
       active' !! (k + i) = None ∧
       pid_files w' !! (k + i) = None ∧ status_files w' !! (k + i) = None ∧
       streams w' !! (k + i)
         = Some (reclassified (status_files w !! (k + i)) row)).
Proof.
  induction rows as [|row rows IH]; intros k active w Hsnap Hact.
  - exists active, w. split; [reflexivity|]. split; [auto|].
    intros i r rec Hi. discriminate Hi.
  - assert (Hk : streams w !! k = Some row).
    { specialize (Hsnap 0 row eq_refl). by rewrite Nat.add_0_r in Hsnap. }
    destruct (check_body_spec k row active w Hk Hact)
      as (a1 & w1 & Hb & Ha1 & Hp1 & _ & Hoth1 & _).
    assert (Hframe : ∀ j, j ≠ k → a1 !! j = active !! j
                                  ∧ pid_files w1 !! j = pid_files w !! j
                                  ∧ status_files w1 !! j = status_files w !! j).
    { intros j Hj.
      destruct (check_body_frame k row active w j Hj) as (H1 & H2 & H3).
      rewrite Hb in H1, H2, H3. simpl in *. split; [congruence|auto]. }
    destruct (IH (S k) a1 w1) as (a2 & w2 & Hf & Hlow & Hdead).
    { intros i r Hi. rewrite Hoth1 by lia.
      specialize (Hsnap (S i) r Hi). by rewrite Nat.add_succ_r in Hsnap. }
    { exact Ha1. }
    exists a2, w2. simpl enumerate. rewrite for_each_cons, Hb.
    split; [exact Hf|]. split.
    + intros j Hj.
      destruct (Hlow j) as (H1 & H2 & H3 & H4); [lia|].
      destruct (Hframe j) as (F1 & F2 & F3); [lia|].
      rewrite H1, H2, H3, H4, F1, F2, F3, Hoth1 by lia. auto.
    + intros [|i] r rec Hi Hlive Hrec Hd.
      * injection Hi as <-. rewrite Nat.add_0_r in *.
        destruct (check_body_dead k row rec active w Hk Hlive Hrec Hd)
          as (a1' & w1' & Hb' & D1 & D2 & D3 & D4).
        rewrite Hb in Hb'. injection Hb' as <- <-.
        destruct (Hlow k) as (H1 & H2 & H3 & H4); [lia|].
        rewrite H1, H2, H3, H4. auto.
      * rewrite Nat.add_succ_r in *.
        destruct (Hframe (S (k + i))) as (F1 & F2 & F3); [lia|].
        rewrite <- F3. apply (Hdead i r rec Hi Hlive).
        -- simpl. by rewrite F1.
        -- by rewrite Hp1.
Qed.




(** ** Rows never return to 'Menunggu' *)

Lemma keeps_started_refl (w w' : world) :
  streams w' = streams w → keeps_started w w'.
Proof. intros E j row Hj. exists row. rewrite E. auto. Qed.

Lemma keeps_started_trans (w1 w2 w3 : world) :
  keeps_started w1 w2 → keeps_started w2 w3 → keeps_started w1 w3.
Proof.
  intros H12 H23 j row Hj.
  destruct (H12 j row Hj) as (r2 & Hr2 & HS2).
  destruct (H23 j r2 Hr2) as (r3 & Hr3 & HS3). eauto.
Qed.

Lemma keeps_started_alter (w w' : world) (i : nat) (st : string) :
  streams w' = alter (with_status st) i (streams w) → st ≠ Menunggu →
  keeps_started w w'.
Proof.
  intros E Hst j row Hj. rewrite E.
  destruct (decide (i = j)) as [->|Hne].
  - exists (with_status st row).
    rewrite list_lookup_alter_eq, Hj. split; [reflexivity|]. intros _. exact Hst.
  - exists row. rewrite list_lookup_alter_ne by done. auto.
Qed.

Lemma for_each_total {A S} (P : S → world → Prop) (xs : list A)
    (body : A → S → M S) :
  (∀ x s w, P s w → ∃ s' w', body x s w = (Ok s', w') ∧ P s' w') →
  ∀ s w, P s w → ∃ s' w', for_each xs s body w = (Ok s', w') ∧ P s' w'.
Proof.
  intros Hbody. induction xs as [|x xs IH]; intros s w HP.
  - exists s, w. split; [reflexivity|exact HP].
  - destruct (Hbody x s w HP) as (s1 & w1 & Hb & HP1).
    destruct (IH s1 w1 HP1) as (s2 & w2 & Hf & HP2).
    exists s2, w2. rewrite for_each_cons, Hb. auto.
Qed.

(** ** Reattachment *)

Lemma reconnect_body_spec (now : string) (row_id : nat)
    (active : gmap nat ActiveJobRecord) (w : world) :
  ∃ active' w',
    reconnect_body now row_id active w = (Ok active', w') ∧
    procs w' = procs w ∧ keeps_started w w'.
Proof.
  unfold reconnect_body. munfold.
  destruct (pid_files w !! row_id) as [[p|]|] eqn:Hf; simpl.
  - rewrite is_process_running_eq.
    destruct (alive (procs w) p); simpl.
    + case_bool_decide; simpl.
      * eexists _, _. split; [reflexivity|]. split; [reflexivity|].
        eapply keeps_started_alter; [reflexivity|discriminate].
      * eexists _, _. split; [reflexivity|]. split; [reflexivity|].
        by apply keeps_started_refl.
    + eexists _, _. split; [reflexivity|]. split; [reflexivity|].
      by apply keeps_started_refl.
  - eexists _, _. split; [reflexivity|]. split; [reflexivity|].
    by apply keeps_started_refl.
  - eexists _, _. split; [reflexivity|]. split; [reflexivity|].
    by apply keeps_started_refl.
Qed.

Lemma reconnect_to_existing_streams_spec (now : string) (w : world) :
  ∃ w',
    reconnect_to_existing_streams now w = (Ok tt, w') ∧
    procs w' = procs w ∧ keeps_started w w'.
Proof.
  unfold reconnect_to_existing_streams. unfold mbind at 1, M_bind at 1.
  rewrite load_active_streams_eq.
  unfold mbind at 1, M_bind at 1, gets at 1.
  destruct (for_each_total
              (λ (_ : gmap nat ActiveJobRecord) w', procs w' = procs w
                                                    ∧ keeps_started w w')
              (map_to_list (pid_files w)).*1 (reconnect_body now))
    with (s := active_of w) (w := w) as (a & w' & Hf & Hp & Hk).
  - intros x s w1 [Hp1 Hk1].
    destruct (reconnect_body_spec now x s w1) as (a' & w2 & Hb & Hp2 & Hk2).
    exists a', w2. split; [exact Hb|]. split; [congruence|].
    by eapply keeps_started_trans.
  - split; [reflexivity|]. by apply keeps_started_refl.
  - unfold mbind, M_bind. rewrite Hf. simpl.
    eexists. split; [reflexivity|]. simpl. split; [exact Hp|].
    intros j row Hj. destruct (Hk j row Hj) as (r & Hr & HS). eauto.
Qed.





(** ** [stop_stream], unfolded *)

Lemma stop_stream_unfold (K : Kernel) (row_id : nat) (w : world) :
  stop_stream K row_id w
  = match resolved_pid w row_id with
    | Raise e => (Ok false, add_st_error e w)
    | Ok p =>
        if truthy p && alive (procs w) (default 0%Z p) then
          match stop_terminate K (default 0%Z p) w with
          | (Ok _, w1) => (Ok true, finish_live row_id (active_of w) w1)
          | (Raise e, w1) => (Ok false, add_st_error e w1)
          end
        else (Ok true, finish_dead row_id w)
    end.
Proof.
  unfold stop_stream, resolved_pid.
  unfold try_catch at 1. unfold mbind at 1, M_bind at 1.
  rewrite load_active_streams_eq.
  unfold mbind at 1, M_bind at 1, gets at 1.
  destruct (truthy (pid <$> active_of w !! row_id)) eqn:Ht; simpl.
  - unfold mbind at 1, M_bind at 1, mret at 1, M_ret at 1.
    rewrite Ht. unfold mbind at 1, M_bind at 1.
    rewrite is_process_running_eq.
    destruct (alive (procs w) (default 0%Z (pid <$> active_of w !! row_id)));
      simpl.
    + unfold try_catch, mbind at 1, M_bind at 1.
      destruct (stop_terminate K _ w) as [[[]|e] w1]; reflexivity.
    + reflexivity.
  - destruct (pid_files w !! row_id) as [[n|]|] eqn:Hf; simpl.
    + munfold. rewrite Hf.
      destruct (truthy (Some n)) eqn:Hn; [|reflexivity].
      change (default 0%Z (Some n)) with n.
      rewrite is_process_running_eq. cbn [andb].
      destruct (alive (procs w) n); [|reflexivity].
      destruct (stop_terminate K n w) as [[[]|e] w1]; reflexivity.
    + munfold. rewrite Hf. reflexivity.
    + unfold mbind at 1, M_bind at 1, mret at 1, M_ret at 1.
      rewrite Ht. reflexivity.
Qed.

Lemma os_getpgid_eq (p : Z) (w : world) :
  os_getpgid p w
  = match procs w !! p ≫= pgid_of with
    | Some g => (Ok g, w)
    | None => (Raise ProcessLookupError, w)
    end.
Proof.
  unfold os_getpgid. munfold.
  destruct (procs w !! p) as [[name g|g|]|]; reflexivity.
Qed.

Lemma os_killpg_eq (K : Kernel) (g : Z) (s : signal) (w : world) :
  os_killpg K g s w = killed K g s w.
Proof.
  unfold os_killpg, killed. munfold. simpl.
  destruct (deliver K s g (procs w)); reflexivity.
Qed.

Lemma stop_terminate_posix (K : Kernel) (p : Z) (w : world) :
  String.eqb (os_name K) "nt" = false →
  stop_terminate K p w
  = match procs w !! p ≫= pgid_of with
    | None => (Ok tt, w)
    | Some g =>
        match killed K g SIGTERM w with
        | (Raise e, w0) =>
            if is_ProcessLookupError e then (Ok tt, w0) else (Raise e, w0)
        | (Ok _, w0) =>
            let w1 := slept K w0 in
            if alive (procs w1) p then
              match procs w1 !! p ≫= pgid_of with
              | None => (Ok tt, w1)
              | Some g' =>
                  match killed K g' SIGKILL w1 with
                  | (Raise e, w2) =>
                      if is_ProcessLookupError e then (Ok tt, w2)
                      else (Raise e, w2)
                  | (Ok _, w2) => (Ok tt, w2)
                  end
              end
            else (Ok tt, w1)
        end
    end.
Proof.
  intros Hos. unfold stop_terminate. rewrite Hos.
  unfold try_catch, mbind at 1, M_bind at 1. rewrite os_getpgid_eq.
  destruct (procs w !! p ≫= pgid_of) as [g|]; [|reflexivity].
  unfold mbind at 1, M_bind at 1. rewrite os_killpg_eq.
  destruct (killed K g SIGTERM w) as [[[]|e] w0]; [|reflexivity].
  unfold mbind at 1, M_bind at 1.
  change (time_sleep K 2 w0) with (Ok tt, slept K w0). cbv iota beta zeta.
  unfold mbind at 1, M_bind at 1. rewrite is_process_running_eq.
  destruct (alive (procs (slept K w0)) p); [|reflexivity].
  unfold mbind at 1, M_bind at 1. rewrite os_getpgid_eq.
  destruct (procs (slept K w0) !! p ≫= pgid_of) as [g'|]; [|reflexivity].
  rewrite os_killpg_eq.
  destruct (killed K g' SIGKILL (slept K w0)) as [[[]|e] w2]; reflexivity.
Qed.

Lemma stop_terminate_nt (K : Kernel) (p : Z) (w : world) :
  String.eqb (os_name K) "nt" = true →
  stop_terminate K p w
  = (Ok tt, set_procs (taskkill K p) (add_syscall (Taskkill p) w)).
Proof. intros Hos. unfold stop_terminate. by rewrite Hos. Qed.

Lemma same_files_killed (K : Kernel) (g : Z) (s : signal) (w w0 : world) :
  same_files w w0 → same_files w (killed K g s w0).2.
Proof.
  unfold killed. intros H.
  destruct (deliver K s g (procs w0)); exact H.
Qed.

Lemma stop_terminate_frame (K : Kernel) (p : Z) (w : world) :
  same_files w (stop_terminate K p w).2.
Proof.
  assert (Hrefl : same_files w w) by by repeat split.
  destruct (String.eqb (os_name K) "nt") eqn:Hos.
  { rewrite stop_terminate_nt by done. exact Hrefl. }
  rewrite stop_terminate_posix by done.
  destruct (procs w !! p ≫= pgid_of) as [g|]; [|exact Hrefl].
  pose proof (same_files_killed K g SIGTERM w w Hrefl) as H0.
  destruct (killed K g SIGTERM w) as [[[]|e] w0]; simpl in H0;
    [|by destruct (is_ProcessLookupError e)].
  assert (H1 : same_files w (slept K w0)) by exact H0.
  cbv zeta.
  destruct (alive (procs (slept K w0)) p); [|exact H1].
  destruct (procs (slept K w0) !! p ≫= pgid_of) as [g'|]; [|exact H1].
  pose proof (same_files_killed K g' SIGKILL w _ H1) as H2.
  destruct (killed K g' SIGKILL (slept K w0)) as [[[]|e] w2]; simpl in H2;
    [exact H2|by destruct (is_ProcessLookupError e)].
Qed.

(** ** The schedule sweep *)

Lemma start_stream_eq (v k : string) (s : bool) (row_id : nat) (q : string)
    (w : world) :
  ∃ w', start_stream v k s row_id q w = (Ok true, w') ∧
    streams w' = alter (with_status Sedang_Live) row_id (streams w) ∧
    threads w' = (threads w ++ [{| arg_video_path := v; arg_stream_key := k;
                                   arg_is_shorts := s; arg_row_id := row_id;
                                   arg_quality := q |}])%list.
Proof. eexists. split; [reflexivity|]. split; reflexivity. Qed.

Lemma sweep_loop_spec (current_time : string) (rows : list StreamJob) :
  ∀ (k : nat) (w : world),
  (∀ i row, rows !! i = Some row → streams w !! (k + i) = Some row) →
  ∃ w',
    for_each (enumerate k rows) tt (sweep_body current_time) w = (Ok tt, w') ∧
    threads w'
      = (threads w
         ++ (args_of <$> filter (λ it, due current_time it.2 = true)
                                (enumerate k rows)))%list ∧
    (∀ j, j < k → streams w' !! j = streams w !! j) ∧
    (∀ i row, rows !! i = Some row →
       streams w' !! (k + i)
       = Some (if due current_time row then with_status Sedang_Live row
               else row)).
Proof.
  induction rows as [|row rows IH]; intros k w Hsnap.
  - exists w. simpl. rewrite app_nil_r. repeat split; auto. intros i r Hi.
    discriminate Hi.
  - assert (Hk : streams w !! k = Some row).
    { specialize (Hsnap 0 row eq_refl). by rewrite Nat.add_0_r in Hsnap. }
    simpl enumerate. rewrite for_each_cons. unfold sweep_body at 1.
    fold (due current_time row).
    destruct (due current_time row) eqn:Hdue.
    + destruct (start_stream_eq (Video row) (Streaming_Key row) (Is_Shorts row)
                  k (Quality row) w) as (w1 & Hs & Hst & Hth).
      unfold mbind at 1, M_bind at 1. rewrite Hs.
      unfold mret at 1, M_ret at 1.
      destruct (IH (S k) w1) as (w' & Hf & Hth' & Hlow & Hrows).
      { intros i r Hi. rewrite Hst, list_lookup_alter_ne by lia.
        specialize (Hsnap (S i) r Hi). by rewrite Nat.add_succ_r in Hsnap. }
      exists w'. split; [exact Hf|]. split.
      { rewrite Hth', Hth, filter_cons_True by done.
        rewrite fmap_cons. by rewrite <- app_assoc. }
      split.
      { intros j Hj. rewrite Hlow by lia. rewrite Hst.
        apply list_lookup_alter_ne. lia. }
      intros [|i] r Hi.
      * injection Hi as <-. rewrite Nat.add_0_r, Hlow by lia.
        rewrite Hst, list_lookup_alter_eq, Hk, Hdue. reflexivity.
      * rewrite Nat.add_succ_r. apply (Hrows i r Hi).
    + unfold mret at 1, M_ret at 1.
      destruct (IH (S k) w) as (w' & Hf & Hth' & Hlow & Hrows).
      { intros i r Hi.
        specialize (Hsnap (S i) r Hi). by rewrite Nat.add_succ_r in Hsnap. }
      exists w'. split; [exact Hf|]. split.
      { rewrite Hth', filter_cons_False; [done|]. simpl. by rewrite Hdue. }
      split. { intros j Hj. apply Hlow. lia. }
      intros [|i] r Hi.
      * injection Hi as <-. rewrite Nat.add_0_r, Hlow by lia.
        by rewrite Hk, Hdue.
      * rewrite Nat.add_succ_r. apply (Hrows i r Hi).
Qed.

Lemma check_scheduled_streams_spec (current_time : string) (w : world) :
  ∃ w',
    check_scheduled_streams current_time w = (Ok tt, w') ∧
    threads w'
      = (threads w
         ++ (args_of <$> filter (λ it, due current_time it.2 = true)
                                (iterrows w)))%list ∧
    (∀ i row, streams w !! i = Some row →
       streams w' !! i
       = Some (if due current_time row then with_status Sedang_Live row
               else row)).
Proof.
  destruct (sweep_loop_spec current_time (streams w) 0 w)
    as (w' & Hf & Hth & _ & Hrows); [auto|].
  exists w'. split; [|split; [exact Hth|exact Hrows]].
  unfold check_scheduled_streams, mbind, M_bind, gets, iterrows.
  exact Hf.
Qed.

Lemma times_launched_enumerate (current_time : string) (idx : nat)
    (rows : list StreamJob) :
  ∀ k,
  times_launched idx
    (args_of <$> filter (λ it, due current_time it.2 = true)
                        (enumerate k rows))
  = match (if bool_decide (k ≤ idx)%nat then rows !! (idx - k) else None) with
    | Some row => if due current_time row then 1 else 0
    | None => 0
    end.
Proof.
  unfold times_launched.
  induction rows as [|row rows IH]; intros k.
  - simpl. by case_bool_decide.
  - simpl enumerate.
    assert (Htail :
      length (filter (λ a, arg_row_id a = idx)
                (args_of <$> filter (λ it, due current_time it.2 = true)
                                    (enumerate (S k) rows)))
      = if bool_decide (k ≤ idx)%nat then
          match idx - k with
          | 0 => 0
          | S n => match rows !! n with
                   | Some r => if due current_time r then 1 else 0
                   | None => 0
                   end
          end
        else 0).
    { rewrite IH. repeat case_bool_decide; try lia; try reflexivity.
      - destruct (idx - k) as [|n] eqn:E; [lia|].
        replace (idx - S k) with n by lia. reflexivity.
      - replace (idx - k) with 0 by lia. reflexivity. }
    destruct (due current_time row) eqn:Hdue.
    + rewrite filter_cons_True by done. rewrite fmap_cons.
      destruct (decide (k = idx)) as [->|Hne].
      * rewrite filter_cons_True by done. simpl length. rewrite Htail.
        rewrite bool_decide_true by lia. rewrite Nat.sub_diag. simpl.
        by rewrite Hdue.
      * rewrite filter_cons_False by done. rewrite Htail.
        case_bool_decide; [|reflexivity].
        destruct (idx - k) as [|n] eqn:E; [lia|]. reflexivity.
    + rewrite filter_cons_False by (simpl; by rewrite Hdue).
      rewrite Htail. case_bool_decide; [|reflexivity].
      destruct (idx - k) as [|n] eqn:E; [|reflexivity].
      simpl. by rewrite Hdue.
Qed.

Lemma times_launched_sweep (current_time : string) (w : world) (idx : nat) :
  times_launched idx (launches current_time w)
  = match streams w !! idx with
    | Some row => if due current_time row then 1 else 0
    | None => 0
    end.
Proof.
  destruct (check_scheduled_streams_spec current_time w) as (w' & Hc & Hth & _).
  unfold launches. rewrite Hc. simpl. rewrite Hth, drop_app_length.
  unfold iterrows. rewrite times_launched_enumerate.
  rewrite bool_decide_true by lia. by rewrite Nat.sub_0_r.
Qed.

(** ** Every step keeps started rows started *)

Lemma stop_stream_keeps_started (K : Kernel) (row_id : nat) (w : world) :
  keeps_started w (stop_stream K row_id w).2.
Proof.
  rewrite stop_stream_unfold.
  destruct (resolved_pid w row_id) as [p|e];
    [|by apply keeps_started_refl].
  destruct (truthy p && alive (procs w) (default 0%Z p)).
  - pose proof (stop_terminate_frame K (default 0%Z p) w) as (Hs & _).
    destruct (stop_terminate K (default 0%Z p) w) as [[[]|e] w1]; simpl in *.
    + apply (keeps_started_alter _ _ row_id Dihentikan);
        [simpl; by rewrite Hs|discriminate].
    + by apply keeps_started_refl.
  - apply (keeps_started_alter _ _ row_id Dihentikan);
      [reflexivity|discriminate].
Qed.

Lemma runner_steps_keep_streams :
  (∀ a header spawn now w,
     streams (run_ffmpeg_launch a header spawn now w).2 = streams w) ∧
  (∀ row_id w, streams (run_ffmpeg_exit row_id w).2 = streams w) ∧
  (∀ row_id line w, streams (log_output row_id line w).2 = streams w).
Proof.
  split; [|split].
  - intros a header spawn now w.
    destruct (get_quality_settings_total (arg_quality a) (arg_is_shorts a))
      as [v Hv].
    unfold run_ffmpeg_launch, run_ffmpeg_except, run_ffmpeg_finally,
      remove_active, write_status, append_log, cleanup_stream_files,
      save_active_streams.
    unfold mbind, M_bind, modify, lift. rewrite Hv.
    destruct spawn as [p|e]; rewrite load_active_streams_eq; reflexivity.
  - intros row_id w.
    unfold run_ffmpeg_exit, run_ffmpeg_completed, run_ffmpeg_finally,
      remove_active, write_status, append_log, cleanup_stream_files,
      save_active_streams.
    unfold mbind, M_bind, modify. rewrite load_active_streams_eq.
    reflexivity.
  - intros row_id line w.
    unfold log_output, write_status, append_log. munfold.
    destruct (contains "Connection refused" line
              || contains "Server returned 4" line); reflexivity.
Qed.

Lemma step_keeps_started (K : Kernel) (w w' : world) :
  step K w w' → keeps_started w w'.
Proof.
  destruct 1.
  - destruct (reconnect_to_existing_streams_spec now w) as (w' & -> & _ & H).
    exact H.
  - destruct (check_stream_statuses_spec w) as (w' & -> & _ & _ & _ & H & _).
    intros j row Hj. destruct (H j row Hj) as (r & Hr & HM & _). eauto.
  - destruct (check_scheduled_streams_spec current_time w)
      as (w' & -> & _ & H).
    intros j row Hj. simpl. rewrite (H j row Hj).
    eexists. split; [reflexivity|].
    destruct (due current_time row); [discriminate|done].
  - apply (keeps_started_alter _ _ row_id Sedang_Live);
      [reflexivity|discriminate].
  - apply stop_stream_keeps_started.
  - intros j row Hj. exists row. split; [|done]. simpl.
    apply lookup_app_l_Some. exact Hj.
  - apply keeps_started_refl. apply runner_steps_keep_streams.
  - apply keeps_started_refl. apply runner_steps_keep_streams.
  - apply keeps_started_refl. apply runner_steps_keep_streams.
  - by apply keeps_started_refl.
Qed.

Lemma steps_keep_started (K : Kernel) (w w' : world) :
  rtc (step K) w w' → keeps_started w w'.
Proof.
  induction 1 as [w|w1 w2 w3 Hstep _ IH].
  - by apply keeps_started_refl.
  - eapply keeps_started_trans; [|exact IH]. by apply (step_keeps_started K).
Qed.

Lemma job_step_started (K : Kernel) (w w' : world) (i i' : nat) :
  job_step K (w, i) (w', i') → started w i → started w' i'.
Proof.
  intros Hstep (row & Hrow & Hne).
  inversion Hstep as [w0 w0' i0 Hs|w0 i0 j Hself]; subst.
  - destruct (step_keeps_started K w w' Hs i' row Hrow) as (r & Hr & HM).
    exists r. auto.
  - exists row. split; [|exact Hne].
    unfold ui_remove, removes in *. munfold.
    destruct (streams w !! j) as [rj|] eqn:Hj; simpl; [|exact Hrow].
    destruct (removable (Status rj)) eqn:Hrem; simpl; [|exact Hrow].
    case_bool_decide as Hlt; simpl.
    + rewrite list_lookup_delete_ge by lia.
      by replace (S (i - 1)) with i by lia.
    + rewrite list_lookup_delete_lt; [exact Hrow|].
      destruct (decide (j = i)) as [->|]; [by specialize (Hself eq_refl)|lia].
Qed.

Lemma job_steps_started (K : Kernel) (s s' : world * nat) :
  rtc (job_step K) s s' → started s.1 s.2 → started s'.1 s'.2.
Proof.
  induction 1 as [s|[w1 i1] [w2 i2] s3 Hstep _ IH]; [done|].
  intros H. apply IH. by apply (job_step_started K w1 w2 i1 i2).
Qed.

(** ** The liveness sweep, job by job *)

Lemma same_rest_refl (w : world) : same_rest w w.
Proof. by repeat split. Qed.

Lemma same_rest_trans (w1 w2 w3 : world) :
  same_rest w1 w2 → same_rest w2 w3 → same_rest w1 w3.
Proof.
  intros (A1 & A2 & A3 & A4 & A5) (B1 & B2 & B3 & B4 & B5).
  repeat split; congruence.
Qed.

Lemma with_status_same (st : string) (row : StreamJob) :
  with_status st row = row → Status row = st.
Proof. intros H. rewrite <- H. reflexivity. Qed.

Lemma check_body_slot (idx : nat) (row : StreamJob)
    (active : gmap nat ActiveJobRecord) (w : world) :
  streams w !! idx = Some row →
  ∃ active' w',
    check_body (idx, row) active w = (Ok active', w') ∧
    (streams w' !! idx, active' !! idx, pid_files w' !! idx,
     status_files w' !! idx)
      = check_slot (procs w)
          (Some row, active !! idx, pid_files w !! idx,
           status_files w !! idx) ∧
    same_rest w w' ∧
    (check_slot (procs w)
       (Some row, active !! idx, pid_files w !! idx, status_files w !! idx)
     = (Some row, active !! idx, pid_files w !! idx, status_files w !! idx) →
     active' = active ∧ w' = w).
Proof.
  intros Hrow. unfold check_body, check_slot. munfold.
  destruct (active !! idx) as [rec|] eqn:Hrec.
  - rewrite is_process_running_eq.
    destruct (alive (procs w) (pid rec)) eqn:Halive; simpl.
    { eexists _, _. split; [reflexivity|]. rewrite Hrow, Hrec.
      split; [reflexivity|]. split; [by repeat split|auto]. }
    destruct (String.eqb (Status row) Sedang_Live) eqn:Hlive; simpl.
    + destruct (status_files w !! idx) as [content|] eqn:Hm; simpl.
      * eexists _, _. split; [reflexivity|]. simpl.
        rewrite !lookup_delete_eq, list_lookup_alter_eq, Hrow.
        split; [reflexivity|]. split; [by repeat split|].
        intros H. discriminate H.
      * eexists _, _. split; [reflexivity|]. simpl.
        rewrite !lookup_delete_eq, Hrow.
        split; [reflexivity|]. split; [by repeat split|].
        intros H. discriminate H.
    + eexists _, _. split; [reflexivity|]. rewrite Hrow, Hrec.
      split; [reflexivity|]. split; [by repeat split|auto].
  - destruct (status_files w !! idx) as [content|] eqn:Hm; simpl.
    + destruct (String.eqb (strip content) "completed"
                && String.eqb (Status row) Sedang_Live) eqn:Hc; simpl.
      { eexists _, _. split; [reflexivity|]. simpl.
        rewrite lookup_delete_eq, list_lookup_alter_eq, Hrow, Hrec.
        split; [reflexivity|]. split; [by repeat split|].
        intros H. injection H as H.
        apply with_status_same in H.
        apply andb_true_iff in Hc as [_ Hc]. apply String.eqb_eq in Hc.
        rewrite Hc in H. discriminate H. }
      destruct (startswith "error:" (strip content)
                && String.eqb (Status row) Sedang_Live) eqn:He; simpl.
      { eexists _, _. split; [reflexivity|]. simpl.
        rewrite lookup_delete_eq, list_lookup_alter_eq, Hrow, Hrec.
        split; [reflexivity|]. split; [by repeat split|].
        intros H. discriminate H. }
      eexists _, _. split; [reflexivity|]. rewrite Hrow, Hrec, Hm.
      split; [reflexivity|]. split; [by repeat split|auto].
    + eexists _, _. split; [reflexivity|]. rewrite Hrow, Hrec, Hm.
      split; [reflexivity|]. split; [by repeat split|auto].
Qed.

Lemma check_slot_idem (ps : gmap Z proc) (s : slot) :
  check_slot ps (check_slot ps s) = check_slot ps s.
Proof.
  destruct s as [[[[row|] [rec|]] pf] [content|]]; simpl; try reflexivity.
  - destruct (alive ps (pid rec)) eqn:Ha; simpl; [by rewrite Ha|].
    destruct (String.eqb (Status row) Sedang_Live) eqn:Hl; simpl;
      [reflexivity|by rewrite Ha, Hl].
  - destruct (alive ps (pid rec)) eqn:Ha; simpl; [by rewrite Ha|].
    destruct (String.eqb (Status row) Sedang_Live) eqn:Hl; simpl;
      [reflexivity|by rewrite Ha, Hl].
  - destruct (String.eqb (strip content) "completed"
              && String.eqb (Status row) Sedang_Live) eqn:Hc; simpl;
      [reflexivity|].
    destruct (startswith "error:" (strip content)
              && String.eqb (Status row) Sedang_Live) eqn:He; simpl;
      [reflexivity|by rewrite Hc, He].
Qed.

Lemma check_loop_slot (rows : list StreamJob) :
  ∀ (k : nat) (active : gmap nat ActiveJobRecord) (w : world),
  (∀ i row, rows !! i = Some row → streams w !! (k + i) = Some row) →
  active_of w = active →
  ∃ active' w',
    for_each (enumerate k rows) active check_body w = (Ok active', w') ∧
    active_of w' = active' ∧ same_rest w w' ∧
    (∀ j, (j < k ∨ k + length rows ≤ j)%nat → slot_of w' j = slot_of w j) ∧
    (∀ i row, rows !! i = Some row →
       slot_of w' (k + i) = check_slot (procs w) (slot_of w (k + i))).
Proof.
  induction rows as [|row rows IH]; intros k active w Hsnap Hact.
  - exists active, w. split; [reflexivity|]. split; [done|].
    split; [apply same_rest_refl|]. split; [auto|].
    intros i r Hi. discriminate Hi.
  - assert (Hk : streams w !! k = Some row).
    { specialize (Hsnap 0 row eq_refl). by rewrite Nat.add_0_r in Hsnap. }
    destruct (check_body_spec k row active w Hk Hact)
      as (a1 & w1 & Hb & Ha1 & Hp1 & _ & Hoth1 & _).
    assert (Hframe : ∀ j, j ≠ k → slot_of w1 j = slot_of w j).
    { intros j Hj. unfold slot_of.
      destruct (check_body_frame k row active w j Hj) as (H1 & H2 & H3).
      rewrite Hb in H1, H2, H3. simpl in *.
      rewrite Ha1, Hact, Hoth1, H2, H3 by done. congruence. }
    assert (Hown : slot_of w1 k = check_slot (procs w) (slot_of w k)
                   ∧ same_rest w w1).
    { destruct (check_body_slot k row active w Hk)
        as (a1' & w1' & Hb' & Hs & Hr & _).
      rewrite Hb in Hb'. injection Hb' as <- <-.
      split; [|exact Hr]. unfold slot_of. by rewrite Ha1, Hact, Hk. }
    destruct Hown as [Hown Hrest1].
    destruct (IH (S k) a1 w1) as (a2 & w2 & Hf & Ha2 & Hrest2 & Hout & Hin).
    { intros i r Hi. rewrite Hoth1 by lia.
      specialize (Hsnap (S i) r Hi). by rewrite Nat.add_succ_r in Hsnap. }
    { exact Ha1. }
    exists a2, w2. simpl enumerate. rewrite for_each_cons, Hb.
    split; [exact Hf|]. split; [exact Ha2|].
    split; [by eapply same_rest_trans|]. split.
    + intros j Hj. simpl in Hj. rewrite Hout by lia. apply Hframe. lia.
    + intros [|i] r Hi.
      * rewrite Nat.add_0_r. rewrite Hout by lia. exact Hown.
      * rewrite Nat.add_succ_r.
        change (S (k + i)) with (S k + i). rewrite (Hin i r Hi).
        rewrite Hp1. f_equal. apply Hframe. lia.
Qed.

Lemma check_stream_statuses_slots (w : world) :
  ∃ w',
    check_stream_statuses w = (Ok tt, w') ∧ same_rest w w' ∧
    ∀ j, slot_of w' j = check_slot (procs w) (slot_of w j).
Proof.
  destruct (check_loop_slot (streams w) 0 (active_of w) w)
    as (a & w' & Hf & Ha & Hrest & Hout & Hin); auto.
  exists w'. split.
  { unfold check_stream_statuses, mbind, M_bind.
    rewrite load_active_streams_eq. unfold gets, iterrows. by rewrite Hf. }
  split; [exact Hrest|].
  intros j. destruct (streams w !! j) as [row|] eqn:Hj.
  - exact (Hin j row Hj).
  - rewrite Hout by (right; simpl; by apply lookup_ge_None).
    unfold slot_of, check_slot. by rewrite Hj.
Qed.

Lemma check_loop_settled (rows : list StreamJob) :
  ∀ (k : nat) (w : world),
  (∀ i row, rows !! i = Some row →
     streams w !! (k + i) = Some row ∧
     check_slot (procs w) (slot_of w (k + i)) = slot_of w (k + i)) →
  for_each (enumerate k rows) (active_of w) check_body w
  = (Ok (active_of w), w).
Proof.
  induction rows as [|row rows IH]; intros k w Hall; [reflexivity|].
  destruct (Hall 0 row eq_refl) as [Hk Hset]. rewrite Nat.add_0_r in Hk, Hset.
  destruct (check_body_slot k row (active_of w) w Hk)
    as (a1 & w1 & Hb & _ & _ & Hsame).
  destruct Hsame as [-> ->].
  { unfold slot_of in Hset. by rewrite Hk in Hset. }
  simpl enumerate. rewrite for_each_cons, Hb. apply IH.
  intros i r Hi. specialize (Hall (S i) r Hi).
  by rewrite Nat.add_succ_r in Hall.
Qed.

(** ** Reattachment, job by job *)

Lemma reconnect_body_slot (now : string) (j : nat)
    (active : gmap nat ActiveJobRecord) (w : world) :
  ∃ active' w',
    reconnect_body now j active w = (Ok active', w') ∧
    slot_with active' w' j
      = reconnect_slot now (procs w) (slot_with active w j) ∧
    (∀ k, k ≠ j → slot_with active' w' k = slot_with active w k) ∧
    same_rest w w' ∧ streams_file w' = streams_file w ∧
    length (streams w') = length (streams w).
Proof.
  unfold reconnect_body, slot_with, reconnect_slot. munfold.
  destruct (pid_files w !! j) as [[p|]|] eqn:Hf; simpl.
  - rewrite is_process_running_eq.
    destruct (alive (procs w) p) eqn:Hal; simpl.
    + case_bool_decide as Hlen; simpl.
      * destruct (lookup_lt_is_Some_2 _ _ Hlen) as [row Hrow].
        eexists _, _. split; [reflexivity|]. simpl.
        rewrite list_lookup_alter_eq, Hrow, lookup_insert_eq, Hf.
        split; [reflexivity|]. split.
        { intros k Hk.
          by rewrite list_lookup_alter_ne, lookup_insert_ne by done. }
        split; [by repeat split|]. split; [reflexivity|].
        apply length_alter.
      * eexists _, _. split; [reflexivity|].
        rewrite (proj2 (lookup_ge_None _ _)) by lia. rewrite Hf.
        split; [reflexivity|]. split; [auto|].
        split; [by repeat split|]. auto.
    + eexists _, _. split; [reflexivity|]. simpl.
      rewrite !lookup_delete_eq.
      split; [reflexivity|]. split.
      { intros k Hk. by rewrite !lookup_delete_ne by done. }
      split; [by repeat split|]. auto.
  - eexists _, _. split; [reflexivity|]. simpl. rewrite lookup_delete_eq.
    split; [reflexivity|]. split.
    { intros k Hk. by rewrite lookup_delete_ne by done. }
    split; [by repeat split|]. auto.
  - eexists _, _. split; [reflexivity|]. simpl.
    rewrite lookup_delete_eq.
    split; [reflexivity|]. split.
    { intros k Hk. by rewrite lookup_delete_ne by done. }
    split; [by repeat split|]. auto.
Qed.

Lemma reconnect_loop_slot (now : string) (ids : list nat) :
  NoDup ids →
  ∀ (active : gmap nat ActiveJobRecord) (w : world),
  ∃ active' w',
    for_each ids active (reconnect_body now) w = (Ok active', w') ∧
    same_rest w w' ∧ streams_file w' = streams_file w ∧
    length (streams w') = length (streams w) ∧
    (∀ j, j ∉ ids → slot_with active' w' j = slot_with active w j) ∧
    (∀ j, j ∈ ids →
       slot_with active' w' j
       = reconnect_slot now (procs w) (slot_with active w j)).
Proof.
  induction 1 as [|x ids Hx Hnd IH]; intros active w.
  - exists active, w. split; [reflexivity|].
    split; [apply same_rest_refl|]. split; [done|]. split; [done|].
    split; [auto|]. intros j Hj. by apply elem_of_nil in Hj.
  - destruct (reconnect_body_slot now x active w)
      as (a1 & w1 & Hb & Hown & Hfr & Hrest1 & Hsf1 & Hlen1).
    destruct (IH a1 w1) as (a2 & w2 & Hf & Hrest2 & Hsf2 & Hlen2 & Hout & Hin).
    exists a2, w2. rewrite for_each_cons, Hb.
    split; [exact Hf|]. split; [by eapply same_rest_trans|].
    split; [congruence|]. split; [congruence|]. split.
    + intros j Hj. apply not_elem_of_cons in Hj as [Hne Hj].
      rewrite Hout by done. by apply Hfr.
    + assert (Hp1 : procs w1 = procs w) by apply Hrest1.
      intros j Hj. apply elem_of_cons in Hj as [->|Hj].
      * rewrite Hout by done. exact Hown.
      * assert (Hne : j ≠ x) by (intros ->; contradiction).
        rewrite (Hin j Hj), Hp1. f_equal. by apply Hfr.
Qed.

Lemma reconnect_slots (now : string) (w : world) :
  ∃ w',
    reconnect_to_existing_streams now w = (Ok tt, w') ∧
    same_rest w w' ∧ streams_file w' = streams_file w ∧
    length (streams w') = length (streams w) ∧
    ∀ j, slot_of w' j = reconnect_slot now (procs w) (slot_of w j).
Proof.
  destruct (reconnect_loop_slot now (map_to_list (pid_files w)).*1
              (NoDup_fst_map_to_list _) (active_of w) w)
    as (a & w1 & Hf & Hrest & Hsf & Hlen & Hout & Hin).
  eexists. split.
  { unfold reconnect_to_existing_streams. unfold mbind at 1, M_bind at 1.
    rewrite load_active_streams_eq.
    unfold mbind at 1, M_bind at 1, gets at 1.
    unfold mbind, M_bind. rewrite Hf. reflexivity. }
  split; [exact Hrest|]. split; [exact Hsf|]. split; [exact Hlen|].
  intros j.
  change (slot_with a w1 j
          = reconnect_slot now (procs w) (slot_with (active_of w) w j)).
  destruct (pid_files w !! j) as [c|] eqn:Hj.
  - apply Hin. apply list_elem_of_fmap. exists (j, c).
    split; [reflexivity|]. by apply elem_of_map_to_list.
  - rewrite Hout.
    + unfold slot_with, reconnect_slot. by rewrite Hj.
    + intros Hmem. apply list_elem_of_fmap in Hmem as ([j' c] & -> & Hmem).
      apply elem_of_map_to_list in Hmem. simpl in Hj. congruence.
Qed.

(** ** The schedule sweep: what it leaves alone *)

Lemma due_false_iff (t : string) (row : StreamJob) :
  due t row = false ↔ Status row ≠ Menunggu ∨ Jam_Mulai row ≠ t.
Proof.
  unfold due. rewrite andb_false_iff, !String.eqb_neq. reflexivity.
Qed.

Lemma sweep_loop_nothing_due (t : string) (rows : list StreamJob) :
  ∀ (k : nat) (w : world),
  (∀ i row, rows !! i = Some row → due t row = false) →
  for_each (enumerate k rows) tt (sweep_body t) w = (Ok tt, w).
Proof.
  induction rows as [|row rows IH]; intros k w Hnone; [reflexivity|].
  simpl enumerate. rewrite for_each_cons. unfold sweep_body at 1.
  fold (due t row). rewrite (Hnone 0 row eq_refl).
  unfold mret at 1, M_ret at 1. apply IH.
  intros i r Hi. exact (Hnone (S i) r Hi).
Qed.

Lemma sweep_loop_frame (t : string) (rows : list StreamJob) :
  ∀ (k : nat) (w : world),
  ∃ w',
    for_each (enumerate k rows) tt (sweep_body t) w = (Ok tt, w') ∧
    active_file w' = active_file w ∧ pid_files w' = pid_files w ∧
    procs w' = procs w ∧ log_files w' = log_files w ∧
    syscalls w' = syscalls w ∧ st_errors w' = st_errors w ∧
    length (streams w') = length (streams w) ∧
    ∀ j, status_files w' !! j
         = match (if bool_decide (k ≤ j)%nat then rows !! (j - k)
                  else None) with
           | Some row => if due t row then Some "starting"
                         else status_files w !! j
           | None => status_files w !! j
           end.
Proof.
  induction rows as [|row rows IH]; intros k w.
  - exists w. split; [reflexivity|]. repeat split; auto.
    intros j. by case_bool_decide.
  - simpl enumerate. rewrite for_each_cons. unfold sweep_body at 1.
    fold (due t row).
    destruct (due t row) eqn:Hdue.
    + unfold mbind at 1, M_bind at 1.
      destruct (start_stream_eq (Video row) (Streaming_Key row)
                  (Is_Shorts row) k (Quality row) w) as (w1 & Hs & _).
      rewrite Hs. unfold mret at 1, M_ret at 1.
      assert (Hw1 : w1 = (start_stream (Video row) (Streaming_Key row)
                            (Is_Shorts row) k (Quality row) w).2)
        by (by rewrite Hs).
      destruct (IH (S k) w1) as (w' & Hf & A & B & C & D & E & F & L & G).
      exists w'. split; [exact Hf|].
      rewrite A, B, C, D, E, F, L, Hw1. repeat split.
      { simpl. apply length_alter. }
      intros j. rewrite G, Hw1. simpl.
      repeat case_bool_decide; try lia.
      * destruct (j - k) as [|n] eqn:En; [lia|].
        replace (j - S k) with n by lia. simpl.
        rewrite lookup_insert_ne by lia. reflexivity.
      * replace (j - k) with 0 by lia. simpl. rewrite Hdue.
        replace j with k by lia. apply lookup_insert_eq.
      * rewrite lookup_insert_ne by lia. reflexivity.
    + unfold mret at 1, M_ret at 1.
      destruct (IH (S k) w) as (w' & Hf & A & B & C & D & E & F & L & G).
      exists w'. split; [exact Hf|]. repeat split; auto.
      intros j. rewrite G.
      repeat case_bool_decide; try lia; try reflexivity.
      * destruct (j - k) as [|n] eqn:En; [lia|].
        replace (j - S k) with n by lia. reflexivity.
      * replace (j - k) with 0 by lia. simpl. by rewrite Hdue.
Qed.
(** ** Theorems on the quality profiles *)

(** C6: the quality-profile mapping is total on the three tiers and the two
    orientations, returns exactly the row of the fixed table (scale swapped
    when vertical), always with framerate 30, and different (tier,
    orientation) pairs get different tuples. *)
Theorem quality_profile_table_total_distinct :
  (∀ t o, get_quality_settings (tier_key t) (is_vertical o)
          = Ok (profile_table t o)) ∧
  (∀ t o, fps (profile_table t o) = "30") ∧
  (∀ t, scale (profile_table t normal)
          = (dimensions t).1 ++ ":" ++ (dimensions t).2 ∧
        scale (profile_table t vertical)
          = (dimensions t).2 ++ ":" ++ (dimensions t).1) ∧
  (∀ t1 o1 t2 o2,
     get_quality_settings (tier_key t1) (is_vertical o1)
     = get_quality_settings (tier_key t2) (is_vertical o2) →
     t1 = t2 ∧ o1 = o2).
Proof.
  split; [|split; [|split]].
  - intros [] []; vm_compute; reflexivity.
  - intros [] []; reflexivity.
  - intros []; split; reflexivity.
  - intros [] [] [] []; vm_compute; intros H; first [ split; reflexivity | discriminate H ].
Qed.

(** C10: a quality string that is none of "480p", "720p", "1080p" does not
    make the lookup fail: it returns the "720p" entry, that is the medium
    profile 2500k / 128k / 2750k / 5500k at 1280:720 (720:1280 when
    vertical). *)
Theorem unknown_quality_falls_back_to_medium
    (quality : string) (is_shorts : bool) :
  quality ≠ "480p" → quality ≠ "720p" → quality ≠ "1080p" →
  get_quality_settings quality is_shorts
    = get_quality_settings "720p" is_shorts ∧
  get_quality_settings quality is_shorts
    = Ok (profile_table medium (if is_shorts then vertical else normal)) ∧
  profile_table medium (if is_shorts then vertical else normal)
    = mk_settings "2500k" "128k" "2750k" "5500k"
        (if is_shorts then "720:1280" else "1280:720").
Proof.
  intros H480 H720 H1080.
  assert (Hq : settings is_shorts !! quality = None).
  { unfold settings.
    rewrite !lookup_insert_ne by congruence. apply lookup_empty. }
  unfold get_quality_settings. rewrite Hq.
  destruct is_shorts; vm_compute; repeat split; reflexivity.
Qed.

Lemma unknown_quality_falls_back_to_medium_witness :
  "4k" ≠ "480p" ∧ "4k" ≠ "720p" ∧ "4k" ≠ "1080p" ∧
  get_quality_settings "4k" false = get_quality_settings "720p" false ∧
  get_quality_settings "4k" false = Ok (profile_table medium normal) ∧
  profile_table medium normal
    = mk_settings "2500k" "128k" "2750k" "5500k" "1280:720".
Proof.
  split; [discriminate|]. split; [discriminate|]. split; [discriminate|].
  apply (unknown_quality_falls_back_to_medium "4k" false); discriminate.
Defined.

(** ** Theorems on the state store and the process monitor *)

(** C7: loading the catalog or the active-jobs mapping never raises,
    whatever the state of the file: a missing, unreadable or unparseable
    file gives the empty catalog with the fixed seven columns, respectively
    the empty mapping, and the world is left as it was. *)
Theorem state_store_load_never_raises (w : world) :
  load_persistent_streams w
    = (Ok (match streams_file w with
           | Stored data => DataFrame_of_records data
           | NoFile | Unreadable | Garbage => empty_catalog
           end), w) ∧
  load_active_streams w
    = (Ok (match active_file w with
           | Stored m => m
           | NoFile | Unreadable | Garbage => ∅
           end), w) ∧
  columns empty_catalog = schema ∧ rows empty_catalog = [].
Proof.
  split; [apply load_persistent_streams_eq|].
  split; [apply load_active_streams_eq|].
  split; reflexivity.
Qed.

(** C8: [is_process_running] never raises and answers [True] exactly when
    the process table has a live process under the pid whose name, in lower
    case, contains "ffmpeg"; for a pid that is unknown, that vanished, or
    whose process may not be inspected, it answers [False]. *)
Theorem is_process_running_safe (p : Z) (w : world) :
  ∃ b : bool,
    is_process_running p w = (Ok b, w) ∧
    (b = true ↔ ∃ name g, procs w !! p = Some (Running name g)
                          ∧ contains "ffmpeg" (lower name) = true) ∧
    (procs w !! p = None ∨ procs w !! p = Some Vanished
     ∨ (∃ g, procs w !! p = Some (Protected g)) → b = false).
Proof.
  exists (alive (procs w) p). split; [apply is_process_running_eq|].
  unfold alive. split.
  - destruct (procs w !! p) as [[name g|g|]|]; split;
      try discriminate; try (intros (? & ? & ? & ?); discriminate).
    + intros H. exists name, g. split; [reflexivity|exact H].
    + intros (name' & g' & Heq & H). injection Heq as -> ->. exact H.
  - intros [-> | [-> | [g ->]]]; reflexivity.
Qed.

(** ** Theorems on reconciliation *)






(** C2, at the inputs where the code departs from it.  A job that is
    'Sedang Live' and whose record points to a dead process keeps the status
    'Sedang Live' when no status marker is there to read: the record is
    removed and the files are cleaned, the status is not set to 'Terputus'.
    The same happens after a crash that left the marker "streaming" behind,
    because [reconnect_to_existing_streams] deletes marker and record before
    [check_stream_statuses] looks at the job. *)
Theorem dead_tracked_job_without_marker_stays_live :
  (∃ w', check_stream_statuses w_dead_no_marker = (Ok tt, w') ∧
         streams w' = [sample_job Sedang_Live] ∧
         load_active_streams w' = (Ok ∅, w') ∧
         pid_files w' = ∅ ∧ status_files w' = ∅) ∧
  (∃ w', reconcile "now" w_crashed = (Ok tt, w') ∧
         streams w' = [sample_job Sedang_Live] ∧
         load_active_streams w' = (Ok ∅, w') ∧
         pid_files w' = ∅ ∧ status_files w' = ∅).
Proof.
  split.
  - exists (check_stream_statuses w_dead_no_marker).2.
    vm_compute. repeat split; reflexivity.
  - exists (reconcile "now" w_crashed).2.
    vm_compute. repeat split; reflexivity.
Qed.

(** What [check_stream_statuses] does for a job that is 'Sedang Live' and
    tracked by a record whose process is dead: it removes the record, deletes
    the pid file and the marker, and sets the status from the marker when
    there is one: 'Selesai' for "completed", the marker itself when it
    starts with "error:", 'Terputus' for any other content. *)
Lemma check_stream_statuses_dead_tracked (w : world) (idx : nat)
    (row : StreamJob) (rec : ActiveJobRecord) :
  streams w !! idx = Some row → Status row = Sedang_Live →
  active_of w !! idx = Some rec → alive (procs w) (pid rec) = false →
  ∃ w',
    check_stream_statuses w = (Ok tt, w') ∧
    active_of w' !! idx = None ∧
    pid_files w' !! idx = None ∧ status_files w' !! idx = None ∧
    streams w' !! idx = Some (reclassified (status_files w !! idx) row).
Proof.
  intros Hrow Hlive Hrec Hdead.
  destruct (check_loop_spec (streams w) 0 (active_of w) w)
    as (a & w' & Hf & Ha & _); auto.
  destruct (check_loop_dead (streams w) 0 (active_of w) w)
    as (a' & w'' & Hf' & _ & HD); auto.
  rewrite Hf in Hf'. injection Hf' as <- <-.
  exists w'. split.
  { unfold check_stream_statuses, mbind, M_bind.
    rewrite load_active_streams_eq. unfold gets, iterrows. by rewrite Hf. }
  rewrite Ha. apply (HD idx row rec); auto.
Qed.

(** ** Theorems on the job runner *)

(** C3, as stated, fails: [run_ffmpeg] writes the marker "completed" when
    [process.wait()] returns, also for a job that was stopped on purpose. *)
Lemma completed_only_on_own_exit_fails : ¬ completed_only_on_own_exit.
Proof.
  intros H.
  apply (H w_stopped 0 (sample_job Dihentikan)); reflexivity.
Qed.

(** C3, amended.  When [process.wait()] returns, [run_ffmpeg] writes the
    marker "completed" whatever made the process exit; it then appends
    "Streaming completed." and the closing line to the log, removes the
    job's record and deletes the pid file and the marker, keeping the log.
    When the spawn raised it logs the error and the closing line and does
    the same removals.  The catalog is not touched, so a job that
    [stop_stream] set to 'Dihentikan' is 'Dihentikan' after the exit
    handling and after the next pass of [check_stream_statuses]. *)
Theorem run_ffmpeg_exit_bookkeeping :
  (∀ row_id w,
     status_files (run_ffmpeg_completed row_id w).2 !! row_id
       = Some "completed") ∧
  (∀ row_id w, ∃ w',
     run_ffmpeg_exit row_id w = (Ok tt, w') ∧
     streams w' = streams w ∧
     log_files w' !! row_id
       = Some (default [] (log_files w !! row_id)
               ++ [completed_line; closing_line])%list ∧
     load_active_streams w' = (Ok (delete row_id (active_of w)), w') ∧
     pid_files w' !! row_id = None ∧ status_files w' !! row_id = None) ∧
  (∀ a header e now w, ∃ w',
     run_ffmpeg_launch a header (Raise e) now w = (Ok tt, w') ∧
     streams w' = streams w ∧
     log_files w' !! arg_row_id a
       = Some (header ++ [error_line (exn_str e); closing_line])%list ∧
     load_active_streams w' = (Ok (delete (arg_row_id a) (active_of w)), w') ∧
     pid_files w' !! arg_row_id a = None ∧
     status_files w' !! arg_row_id a = None) ∧
  (∀ row_id w row,
     streams w !! row_id = Some row → Status row = Dihentikan →
     ∃ w' w'', run_ffmpeg_exit row_id w = (Ok tt, w') ∧
               check_stream_statuses w' = (Ok tt, w'') ∧
               streams w' !! row_id = Some row ∧
               streams w'' !! row_id = Some row).
Proof.
  assert (Hexit : ∀ row_id w, ∃ w',
     run_ffmpeg_exit row_id w = (Ok tt, w') ∧
     streams w' = streams w ∧
     log_files w' !! row_id
       = Some (default [] (log_files w !! row_id)
               ++ [completed_line; closing_line])%list ∧
     load_active_streams w' = (Ok (delete row_id (active_of w)), w') ∧
     pid_files w' !! row_id = None ∧ status_files w' !! row_id = None).
  { intros row_id w.
    unfold run_ffmpeg_exit, run_ffmpeg_completed, run_ffmpeg_finally,
      remove_active, write_status, append_log, cleanup_stream_files,
      save_active_streams.
    unfold mbind, M_bind, modify. rewrite load_active_streams_eq.
    eexists. split; [reflexivity|]. simpl.
    split; [reflexivity|].
    split. { rewrite !lookup_insert_eq. simpl. by rewrite <- app_assoc. }
    split. { by rewrite load_active_streams_eq. }
    split; apply lookup_delete_eq. }
  split.
  { intros row_id w.
    unfold run_ffmpeg_completed, remove_active, write_status, append_log,
      save_active_streams.
    unfold mbind, M_bind, modify. rewrite load_active_streams_eq. simpl.
    apply lookup_insert_eq. }
  split; [exact Hexit|].
  split.
  { intros a header e now w.
    destruct (get_quality_settings_total (arg_quality a) (arg_is_shorts a))
      as [v Hv].
    unfold run_ffmpeg_launch, run_ffmpeg_except, run_ffmpeg_finally,
      remove_active, write_status, append_log, cleanup_stream_files,
      save_active_streams.
    unfold mbind, M_bind, modify, lift. rewrite Hv, load_active_streams_eq.
    eexists. split; [reflexivity|]. simpl.
    split; [reflexivity|].
    split. { rewrite !lookup_insert_eq. simpl. by rewrite <- app_assoc. }
    split. { by rewrite load_active_streams_eq. }
    split; apply lookup_delete_eq. }
  intros row_id w row Hrow Hst.
  destruct (Hexit row_id w) as (w' & He & Hs & _).
  destruct (check_stream_statuses_spec w') as (w'' & Hc & _ & _ & _ & HM & _).
  exists w', w''. split; [exact He|]. split; [exact Hc|].
  rewrite Hs. split; [exact Hrow|].
  destruct (HM row_id row) as (row' & Hrow' & _ & Hsame); [by rewrite Hs|].
  rewrite Hrow'. f_equal. apply Hsame. rewrite Hst. discriminate.
Qed.

Lemma run_ffmpeg_exit_bookkeeping_witness :
  streams w_stopped !! 0 = Some (sample_job Dihentikan) ∧
  Status (sample_job Dihentikan) = Dihentikan ∧
  ∃ w' w'', run_ffmpeg_exit 0 w_stopped = (Ok tt, w') ∧
            check_stream_statuses w' = (Ok tt, w'') ∧
            streams w' !! 0 = Some (sample_job Dihentikan) ∧
            streams w'' !! 0 = Some (sample_job Dihentikan).
Proof.
  split; [reflexivity|]. split; [reflexivity|].
  apply (proj2 (proj2 (proj2 run_ffmpeg_exit_bookkeeping))
           0 w_stopped (sample_job Dihentikan)); reflexivity.
Defined.

(** ** Theorems on stop *)

Lemma no_live_handle_iff (w : world) (row_id : nat) :
  no_live_handle w row_id
  ↔ (∀ rec, active_of w !! row_id = Some rec →
            alive (procs w) (pid rec) = false) ∧
    (∀ p, pid_files w !! row_id = Some (Some p) → alive (procs w) p = false).
Proof.
  unfold no_live_handle. split; intros [H1 H2]; split.
  - intros rec Hrec.
    specialize (H1 _ rec (load_active_streams_eq w) Hrec).
    rewrite is_process_running_eq in H1. congruence.
  - intros p Hp. specialize (H2 p Hp).
    rewrite is_process_running_eq in H2. congruence.
  - intros m rec Hm Hrec. rewrite load_active_streams_eq in Hm.
    injection Hm as <-. rewrite is_process_running_eq. by rewrite (H1 rec).
  - intros p Hp. rewrite is_process_running_eq. by rewrite (H2 p).
Qed.

Lemma stopped_cleanly_dead (K : Kernel) (row_id : nat) (w : world)
    (p : option Z) :
  row_id < length (streams w) →
  resolved_pid w row_id = Ok p →
  truthy p && alive (procs w) (default 0%Z p) = false →
  stopped_cleanly K row_id w.
Proof.
  intros Hlen Hres Hdead.
  destruct (lookup_lt_is_Some_2 _ _ Hlen) as [row Hrow].
  exists (finish_dead row_id w), (with_status Dihentikan row),
    (delete row_id (active_of w)).
  rewrite stop_stream_unfold, Hres, Hdead.
  split; [reflexivity|].
  split. { simpl. by rewrite list_lookup_alter_eq, Hrow. }
  split; [reflexivity|].
  split. { by rewrite load_active_streams_eq. }
  split; [apply lookup_delete_eq|].
  split; [apply lookup_delete_eq|].
  split; [apply lookup_delete_eq|reflexivity].
Qed.


(** X25: a stop without a live process succeeds.  When neither the pid of
    the job's record nor the pid in its pid file is a running ffmpeg, and
    the pid file, where [stop_stream] has to read it (no record, or a record
    whose pid is 0), is absent or holds a number, [stop_stream] returns
    [True], sets the status to 'Dihentikan', removes the record, the pid
    file and the status marker, and reports no error.  This covers the
    second of two stops in a row: after any stop that returned [True], the
    next one succeeds in the same way. *)
Theorem stop_without_live_handle_succeeds :
  (∀ K w row_id,
     row_id < length (streams w) → no_live_handle w row_id →
     (truthy (pid <$> active_of w !! row_id) = false →
      pid_files w !! row_id ≠ Some None) →
     stopped_cleanly K row_id w) ∧
  (∀ K w row_id w1,
     row_id < length (streams w) →
     stop_stream K row_id w = (Ok true, w1) →
     stopped_cleanly K row_id w1).
Proof.
  split.
  - intros K w row_id Hlen Hno Hfile.
    apply no_live_handle_iff in Hno as [Hrec Hpid].
    unfold resolved_pid in *.
    destruct (truthy (pid <$> active_of w !! row_id)) eqn:Ht.
    + apply (stopped_cleanly_dead K row_id w (pid <$> active_of w !! row_id));
        [done|by unfold resolved_pid; rewrite Ht|].
      destruct (active_of w !! row_id) as [rec|]; [|discriminate Ht].
      simpl. rewrite (Hrec rec eq_refl). apply andb_false_r.
    + destruct (pid_files w !! row_id) as [[n|]|] eqn:Hf.
      * apply (stopped_cleanly_dead K row_id w (Some n));
          [done|by unfold resolved_pid; rewrite Ht, Hf|].
        simpl. rewrite (Hpid n eq_refl). apply andb_false_r.
      * by destruct (Hfile eq_refl).
      * apply (stopped_cleanly_dead K row_id w (pid <$> active_of w !! row_id));
          [done|by unfold resolved_pid; rewrite Ht, Hf|].
        by rewrite Ht.
  - intros K w row_id w1 Hlen Hstop.
    assert (Hw1 : length (streams w1) = length (streams w)
                  ∧ active_of w1 !! row_id = None
                  ∧ pid_files w1 !! row_id = None).
    { rewrite stop_stream_unfold in Hstop.
      destruct (resolved_pid w row_id) as [p|e]; [|discriminate Hstop].
      destruct (truthy p && alive (procs w) (default 0%Z p)).
      - pose proof (stop_terminate_frame K (default 0%Z p) w) as (Hs & _).
        destruct (stop_terminate K (default 0%Z p) w) as [[[]|e] w0];
          [|discriminate Hstop].
        injection Hstop as <-. simpl in *.
        rewrite length_alter, Hs.
        split; [reflexivity|]. split; apply lookup_delete_eq.
      - injection Hstop as <-. simpl.
        rewrite length_alter.
        split; [reflexivity|]. split; apply lookup_delete_eq. }
    destruct Hw1 as (Hlen1 & Hrec1 & Hpid1).
    apply (stopped_cleanly_dead K row_id w1 None).
    + lia.
    + unfold resolved_pid. by rewrite Hrec1, Hpid1.
    + reflexivity.
Qed.

Lemma stop_without_live_handle_succeeds_witness :
  0 < length (streams w_untracked_live) ∧
  no_live_handle w_untracked_live 0 ∧
  (truthy (pid <$> active_of w_untracked_live !! 0) = false →
   pid_files w_untracked_live !! 0 ≠ Some None) ∧
  stopped_cleanly obedient_unix 0 w_untracked_live.
Proof.
  assert (H1 : 0 < length (streams w_untracked_live)) by (simpl; lia).
  assert (H2 : no_live_handle w_untracked_live 0).
  { apply no_live_handle_iff. split.
    - intros rec Hrec. vm_compute in Hrec. discriminate Hrec.
    - intros p Hp. vm_compute in Hp. discriminate Hp. }
  assert (H3 : truthy (pid <$> active_of w_untracked_live !! 0) = false →
               pid_files w_untracked_live !! 0 ≠ Some None).
  { intros _ Hp. vm_compute in Hp. discriminate Hp. }
  split; [exact H1|]. split; [exact H2|]. split; [exact H3|].
  exact (proj1 stop_without_live_handle_succeeds obedient_unix
           w_untracked_live 0 H1 H2 H3).
Defined.

Lemma resolves_to_resolved (w : world) (row_id : nat) (p : Z) :
  resolves_to w row_id p → p ≠ 0%Z →
  resolved_pid w row_id = Ok (Some p).
Proof.
  unfold resolves_to, resolved_pid, truthy. intros H Hp.
  destruct (active_of w !! row_id) as [rec|]; simpl.
  - destruct (Z.eqb (pid rec) 0) eqn:E; simpl.
    + by rewrite H.
    + by rewrite H.
  - by rewrite H.
Qed.

Lemma stop_bookkeeping_finish_live (row_id : nat) (w w1 : world) :
  row_id < length (streams w) → same_files w w1 →
  stop_bookkeeping row_id w (finish_live row_id (active_of w) w1).
Proof.
  intros Hlen (Hs & _).
  destruct (lookup_lt_is_Some_2 _ _ Hlen) as [row Hrow].
  split.
  - exists (with_status Dihentikan row). simpl.
    by rewrite Hs, list_lookup_alter_eq, Hrow.
  - rewrite load_active_streams_eq.
    split; [reflexivity|]. split; apply lookup_delete_eq.
Qed.

(** C9, as stated, fails: on Windows [stop_stream] runs [taskkill /F] on the
    pid at once, with no termination signal to the group and no grace
    interval. *)
Lemma stop_is_graceful_fails : ¬ stop_is_graceful.
Proof.
  intros H.
  destruct (H windows w_streaming 0 4242%Z)
    as (w' & g & rest & Hs & _ & Hcalls & _).
  - simpl. lia.
  - reflexivity.
  - discriminate.
  - vm_compute. reflexivity.
  - assert (Hw : syscalls w' = [Taskkill 4242]).
    { transitivity (syscalls (stop_stream windows 0 w_streaming).2);
        [by rewrite Hs|vm_compute; reflexivity]. }
    rewrite Hw in Hcalls. discriminate Hcalls.
Qed.

(** C9, amended.  Off Windows, for a job whose handle resolves (record
    first, pid file second) to a running ffmpeg process, and when the
    operating system accepts the termination signal, [stop_stream] sends
    SIGTERM to the process group of the handle, sleeps 2, and sends SIGKILL
    to the group exactly when [is_process_running] still answers [True].
    When no SIGKILL is sent, or it is accepted, or it fails with
    [ProcessLookupError], [stop_stream] then sets the status to
    'Dihentikan', removes the record and deletes the pid file and the
    marker, returning [True].  When the SIGKILL is refused with another
    error, [stop_stream] reports that error and returns [False] without the
    bookkeeping: the job keeps its row, its record, its pid file and its
    marker.  On Windows it runs [taskkill /F /PID] once, without a grace
    interval, and does the same bookkeeping. *)
Theorem stop_live_job_terminates_gracefully :
  (∀ K w row_id p g ps1,
     String.eqb (os_name K) "nt" = false →
     row_id < length (streams w) → resolves_to w row_id p → p ≠ 0%Z →
     is_process_running p w = (Ok true, w) →
     os_getpgid p w = (Ok g, w) →
     deliver K SIGTERM g (procs w) = Ok ps1 →
     (∀ g' e, alive (elapse K 2 ps1) p = true →
              elapse K 2 ps1 !! p ≫= pgid_of = Some g' →
              deliver K SIGKILL g' (elapse K 2 ps1) = Raise e →
              e = ProcessLookupError) →
     ∃ w',
       stop_stream K row_id w = (Ok true, w') ∧
       syscalls w'
         = (syscalls w ++ [Killpg g SIGTERM; Sleep 2]
            ++ match elapse K 2 ps1 !! p ≫= pgid_of with
               | Some g' => if alive (elapse K 2 ps1) p
                            then [Killpg g' SIGKILL] else []
               | None => []
               end)%list ∧
       stop_bookkeeping row_id w w') ∧
  (∀ K w row_id p,
     String.eqb (os_name K) "nt" = true →
     row_id < length (streams w) → resolves_to w row_id p → p ≠ 0%Z →
     is_process_running p w = (Ok true, w) →
     ∃ w',
       stop_stream K row_id w = (Ok true, w') ∧
       syscalls w' = (syscalls w ++ [Taskkill p])%list ∧
       stop_bookkeeping row_id w w') ∧
  (∀ K w row_id p g ps1 g' e,
     String.eqb (os_name K) "nt" = false →
     row_id < length (streams w) → resolves_to w row_id p → p ≠ 0%Z →
     is_process_running p w = (Ok true, w) →
     os_getpgid p w = (Ok g, w) →
     deliver K SIGTERM g (procs w) = Ok ps1 →
     alive (elapse K 2 ps1) p = true →
     elapse K 2 ps1 !! p ≫= pgid_of = Some g' →
     deliver K SIGKILL g' (elapse K 2 ps1) = Raise e →
     e ≠ ProcessLookupError →
     ∃ w',
       stop_stream K row_id w = (Ok false, w') ∧
       syscalls w'
         = (syscalls w
            ++ [Killpg g SIGTERM; Sleep 2; Killpg g' SIGKILL])%list ∧
       st_errors w' = (st_errors w ++ [e])%list ∧
       streams w' = streams w ∧ streams_file w' = streams_file w ∧
       load_active_streams w' = (Ok (active_of w), w') ∧
       pid_files w' = pid_files w ∧ status_files w' = status_files w).
Proof.
  split; [|split].
  - intros K w row_id p g ps1 Hos Hlen Hres Hp Hrun Hg Hterm Hkill.
    rewrite is_process_running_eq in Hrun.
    assert (Halive : alive (procs w) p = true) by congruence.
    rewrite os_getpgid_eq in Hg.
    destruct (procs w !! p ≫= pgid_of) as [g0|] eqn:Hg0; [|discriminate Hg].
    assert (g0 = g) by congruence. subst g0.
    pose proof (stop_terminate_frame K p w) as Hframe.
    rewrite stop_stream_unfold, (resolves_to_resolved w row_id p Hres Hp).
    assert (Ht : truthy (Some p) = true).
    { unfold truthy. by apply negb_true_iff, Z.eqb_neq. }
    rewrite Ht. change (default 0%Z (Some p)) with p. rewrite Halive.
    cbn [andb].
    rewrite stop_terminate_posix in * by done.
    rewrite Hg0 in *. unfold killed at 1 in Hframe. unfold killed at 1.
    rewrite Hterm in *. cbv zeta in *.
    set (w1 := slept K (set_procs (λ _, ps1)
                          (add_syscall (Killpg g SIGTERM) w))) in *.
    change (procs w1) with (elapse K 2 ps1) in *.
    destruct (alive (elapse K 2 ps1) p) eqn:Hagain.
    + destruct (elapse K 2 ps1 !! p ≫= pgid_of) as [g'|] eqn:Hg'.
      * unfold killed in *. change (procs w1) with (elapse K 2 ps1) in *.
        destruct (deliver K SIGKILL g' (elapse K 2 ps1)) as [ps2|e] eqn:Hd.
        -- eexists. split; [reflexivity|]. split.
           ++ simpl. by rewrite <- !app_assoc.
           ++ by apply stop_bookkeeping_finish_live.
        -- rewrite (Hkill g' e eq_refl eq_refl Hd) in *. simpl in *.
           eexists. split; [reflexivity|]. split.
           ++ simpl. by rewrite <- !app_assoc.
           ++ by apply stop_bookkeeping_finish_live.
      * eexists. split; [reflexivity|]. split.
        -- simpl. by rewrite <- !app_assoc.
        -- by apply stop_bookkeeping_finish_live.
    + eexists. split; [reflexivity|]. split.
      * simpl. destruct (elapse K 2 ps1 !! p ≫= pgid_of);
          by rewrite <- !app_assoc.
      * by apply stop_bookkeeping_finish_live.
  - intros K w row_id p Hos Hlen Hres Hp Hrun.
    rewrite is_process_running_eq in Hrun.
    assert (Halive : alive (procs w) p = true) by congruence.
    pose proof (stop_terminate_frame K p w) as Hframe.
    rewrite stop_stream_unfold, (resolves_to_resolved w row_id p Hres Hp).
    assert (Ht : truthy (Some p) = true).
    { unfold truthy. by apply negb_true_iff, Z.eqb_neq. }
    rewrite Ht. change (default 0%Z (Some p)) with p. rewrite Halive.
    cbn [andb].
    rewrite stop_terminate_nt in * by done.
    eexists. split; [reflexivity|]. split; [reflexivity|].
    by apply stop_bookkeeping_finish_live.
  - intros K w row_id p g ps1 g' e Hos Hlen Hres Hp Hrun Hg Hterm Hagain Hg'
      Hkill He.
    rewrite is_process_running_eq in Hrun.
    assert (Halive : alive (procs w) p = true) by congruence.
    rewrite os_getpgid_eq in Hg.
    destruct (procs w !! p ≫= pgid_of) as [g0|] eqn:Hg0; [|discriminate Hg].
    assert (g0 = g) by congruence. subst g0.
    assert (Hne : is_ProcessLookupError e = false)
      by (destruct e; try reflexivity; by destruct He).
    rewrite stop_stream_unfold, (resolves_to_resolved w row_id p Hres Hp).
    assert (Ht : truthy (Some p) = true).
    { unfold truthy. by apply negb_true_iff, Z.eqb_neq. }
    rewrite Ht. change (default 0%Z (Some p)) with p. rewrite Halive.
    cbn [andb].
    rewrite stop_terminate_posix by done.
    rewrite Hg0. unfold killed at 1. rewrite Hterm. cbv zeta.
    set (w1 := slept K (set_procs (λ _, ps1)
                          (add_syscall (Killpg g SIGTERM) w))).
    change (procs w1) with (elapse K 2 ps1).
    rewrite Hagain, Hg'. unfold killed.
    change (procs w1) with (elapse K 2 ps1). rewrite Hkill, Hne.
    eexists. split; [reflexivity|]. simpl.
    split. { by rewrite <- !app_assoc. }
    split; [reflexivity|]. split; [reflexivity|]. split; [reflexivity|].
    split; [|split; reflexivity].
    by rewrite load_active_streams_eq.
Qed.

Lemma stop_live_job_terminates_gracefully_witness :
  (String.eqb (os_name stubborn_unix) "nt" = false ∧
   0 < length (streams w_streaming) ∧
   resolves_to w_streaming 0 4242 ∧ 4242%Z ≠ 0%Z ∧
   is_process_running 4242 w_streaming = (Ok true, w_streaming) ∧
   os_getpgid 4242 w_streaming = (Ok 4242%Z, w_streaming) ∧
   deliver stubborn_unix SIGTERM 4242 (procs w_streaming)
     = Ok (procs w_streaming) ∧
   (∀ g' e, alive (elapse stubborn_unix 2 (procs w_streaming)) 4242 = true →
            elapse stubborn_unix 2 (procs w_streaming) !! 4242%Z ≫= pgid_of
              = Some g' →
            deliver stubborn_unix SIGKILL g'
              (elapse stubborn_unix 2 (procs w_streaming)) = Raise e →
            e = ProcessLookupError) ∧
   ∃ w',
     stop_stream stubborn_unix 0 w_streaming = (Ok true, w') ∧
     syscalls w' = [Killpg 4242 SIGTERM; Sleep 2; Killpg 4242 SIGKILL] ∧
     stop_bookkeeping 0 w_streaming w') ∧
  (String.eqb (os_name unkillable_unix) "nt" = false ∧
   deliver unkillable_unix SIGTERM 4242 (procs w_streaming)
     = Ok (procs w_streaming) ∧
   alive (elapse unkillable_unix 2 (procs w_streaming)) 4242 = true ∧
   elapse unkillable_unix 2 (procs w_streaming) !! 4242%Z ≫= pgid_of
     = Some 4242%Z ∧
   deliver unkillable_unix SIGKILL 4242
     (elapse unkillable_unix 2 (procs w_streaming)) = Raise PermissionError ∧
   PermissionError ≠ ProcessLookupError ∧
   ∃ w',
     stop_stream unkillable_unix 0 w_streaming = (Ok false, w') ∧
     syscalls w' = [Killpg 4242 SIGTERM; Sleep 2; Killpg 4242 SIGKILL] ∧
     st_errors w' = [PermissionError] ∧
     streams w' = streams w_streaming ∧
     pid_files w' = pid_files w_streaming ∧
     status_files w' = status_files w_streaming).
Proof.
  assert (H2 : 0 < length (streams w_streaming)) by (simpl; lia).
  assert (H3 : resolves_to w_streaming 0 4242) by reflexivity.
  assert (H4 : 4242%Z ≠ 0%Z) by discriminate.
  assert (H5 : is_process_running 4242 w_streaming = (Ok true, w_streaming))
    by (vm_compute; reflexivity).
  assert (H6 : os_getpgid 4242 w_streaming = (Ok 4242%Z, w_streaming))
    by (vm_compute; reflexivity).
  pose proof stop_live_job_terminates_gracefully as (Hposix & _ & Hrefused).
  split.
  - assert (H1 : String.eqb (os_name stubborn_unix) "nt" = false)
      by reflexivity.
    assert (H7 : deliver stubborn_unix SIGTERM 4242 (procs w_streaming)
                 = Ok (procs w_streaming)) by (vm_compute; reflexivity).
    assert (H8 : ∀ g' e,
               alive (elapse stubborn_unix 2 (procs w_streaming)) 4242 = true →
               elapse stubborn_unix 2 (procs w_streaming) !! 4242%Z
                 ≫= pgid_of = Some g' →
               deliver stubborn_unix SIGKILL g'
                 (elapse stubborn_unix 2 (procs w_streaming)) = Raise e →
               e = ProcessLookupError).
    { intros g' e _ _. simpl. unfold kill_group. case_bool_decide; congruence. }
    repeat (split; [assumption|]).
    destruct (Hposix stubborn_unix w_streaming 0 4242%Z 4242%Z
                (procs w_streaming) H1 H2 H3 H4 H5 H6 H7 H8)
      as (w' & Hs & Hc & Hb).
    exists w'. split; [exact Hs|]. split; [|exact Hb].
    rewrite Hc. vm_compute. reflexivity.
  - assert (H1 : String.eqb (os_name unkillable_unix) "nt" = false)
      by reflexivity.
    assert (H7 : deliver unkillable_unix SIGTERM 4242 (procs w_streaming)
                 = Ok (procs w_streaming)) by reflexivity.
    assert (H8 : alive (elapse unkillable_unix 2 (procs w_streaming)) 4242
                 = true) by (vm_compute; reflexivity).
    assert (H9 : elapse unkillable_unix 2 (procs w_streaming) !! 4242%Z
                   ≫= pgid_of = Some 4242%Z) by (vm_compute; reflexivity).
    assert (H10 : deliver unkillable_unix SIGKILL 4242
                    (elapse unkillable_unix 2 (procs w_streaming))
                  = Raise PermissionError) by reflexivity.
    assert (H11 : PermissionError ≠ ProcessLookupError) by discriminate.
    repeat (split; [assumption|]).
    destruct (Hrefused unkillable_unix w_streaming 0 4242%Z 4242%Z
                (procs w_streaming) 4242%Z PermissionError
                H1 H2 H3 H4 H5 H6 H7 H8 H9 H10 H11)
      as (w' & Hs & Hc & He & Hst & _ & _ & Hpf & Hsf).
    exists w'. split; [exact Hs|]. split; [exact Hc|]. split; [exact He|].
    split; [exact Hst|]. split; [exact Hpf|exact Hsf].
Defined.

(** ** Theorems on the schedule sweep *)

(** C5: for a job that is 'Menunggu', the sweep starts a [run_ffmpeg]
    thread for it once when its 'Jam Mulai' equals the current hour:minute
    and not at all otherwise.  A started job is 'Sedang Live' right after the
    sweep, and whatever the supervisor, the operator, the runner threads and
    the operating system do afterwards, no later sweep, in the same minute
    or in another, starts it again, at whatever row id the job then has. *)
Theorem schedule_sweep_launches_once (K : Kernel) (current_time : string)
    (w : world) (idx : nat) (row : StreamJob) :
  streams w !! idx = Some row → Status row = Menunggu →
  ∃ w1,
    check_scheduled_streams current_time w = (Ok tt, w1) ∧
    threads w1 = (threads w ++ launches current_time w)%list ∧
    times_launched idx (launches current_time w)
      = (if String.eqb (Jam_Mulai row) current_time then 1 else 0) ∧
    (Jam_Mulai row = current_time →
       (∃ row1, streams w1 !! idx = Some row1 ∧ Status row1 = Sedang_Live) ∧
       ∀ w2 idx2 later, rtc (job_step K) (w1, idx) (w2, idx2) →
         times_launched idx2 (launches later w2) = 0).
Proof.
  intros Hrow Hst.
  destruct (check_scheduled_streams_spec current_time w)
    as (w1 & Hc & Hth & Hrows).
  exists w1. split; [exact Hc|].
  split. { unfold launches. rewrite Hc. simpl. by rewrite Hth, drop_app_length. }
  assert (Hdue : due current_time row
                 = String.eqb (Jam_Mulai row) current_time).
  { unfold due. by rewrite Hst. }
  split. { by rewrite times_launched_sweep, Hrow, Hdue. }
  intros Htime.
  assert (Hrow1 : streams w1 !! idx = Some (with_status Sedang_Live row)).
  { rewrite (Hrows idx row Hrow), Hdue.
    by rewrite (proj2 (String.eqb_eq _ _) Htime). }
  split. { eexists. split; [exact Hrow1|reflexivity]. }
  intros w2 idx2 later Hsteps.
  destruct (job_steps_started K (w1, idx) (w2, idx2) Hsteps)
    as (row2 & Hrow2 & Hne).
  { eexists. split; [exact Hrow1|discriminate]. }
  simpl in Hrow2. rewrite times_launched_sweep, Hrow2.
  unfold due.
  destruct (String.eqb (Status row2) Menunggu) eqn:E; [|reflexivity].
  apply String.eqb_eq in E. contradiction.
Qed.

Lemma schedule_sweep_launches_once_witness :
  streams w_waiting !! 0 = Some (sample_job Menunggu) ∧
  Status (sample_job Menunggu) = Menunggu ∧
  ∃ w1,
    check_scheduled_streams "09:00" w_waiting = (Ok tt, w1) ∧
    threads w1 = (threads w_waiting ++ launches "09:00" w_waiting)%list ∧
    times_launched 0 (launches "09:00" w_waiting)
      = (if String.eqb (Jam_Mulai (sample_job Menunggu)) "09:00"
         then 1 else 0) ∧
    (Jam_Mulai (sample_job Menunggu) = "09:00" →
       (∃ row1, streams w1 !! 0 = Some row1 ∧ Status row1 = Sedang_Live) ∧
       ∀ w2 idx2 later, rtc (job_step obedient_unix) (w1, 0) (w2, idx2) →
         times_launched idx2 (launches later w2) = 0).
Proof.
  split; [reflexivity|]. split; [reflexivity|].
  apply (schedule_sweep_launches_once obedient_unix "09:00" w_waiting 0
           (sample_job Menunggu)); reflexivity.
Defined.

(** ** Further theorems on the liveness sweep *)

(** X1: a second pass of [check_stream_statuses] right after a first one,
    with the process table unchanged in between, changes nothing at all. *)
Theorem check_stream_statuses_idempotent (w : world) :
  ∃ w', check_stream_statuses w = (Ok tt, w') ∧
        check_stream_statuses w' = (Ok tt, w').
Proof.
  destruct (check_stream_statuses_slots w) as (w' & Hc & Hrest & Hslots).
  exists w'. split; [exact Hc|].
  assert (Hp : procs w' = procs w) by apply Hrest.
  unfold check_stream_statuses, mbind, M_bind.
  rewrite load_active_streams_eq. unfold gets, iterrows.
  rewrite (check_loop_settled (streams w') 0 w'); [reflexivity|].
  intros i row Hi. split; [exact Hi|]. change (0 + i) with i.
  rewrite Hslots, Hp. apply check_slot_idem.
Qed.

(** X2: [check_stream_statuses] only ever rewrites jobs of the catalog that
    are 'Sedang Live'.  A job with any other status keeps its row, its
    record (even one that points to a dead process), its pid file and its
    status marker; records and files under an id outside the catalog are
    kept too; and the pass never touches a log, the process table, the list
    of threads or the system calls. *)
Theorem check_stream_statuses_only_live_jobs (w : world) :
  ∃ w', check_stream_statuses w = (Ok tt, w') ∧
    (∀ j row, streams w !! j = Some row → Status row ≠ Sedang_Live →
       slot_of w' j = slot_of w j) ∧
    (∀ j, streams w !! j = None → slot_of w' j = slot_of w j) ∧
    log_files w' = log_files w ∧ procs w' = procs w ∧
    threads w' = threads w ∧ syscalls w' = syscalls w.
Proof.
  destruct (check_stream_statuses_slots w)
    as (w' & Hc & (R1 & R2 & R3 & R4 & _) & Hslots).
  exists w'. split; [exact Hc|]. split; [|split; [|auto]].
  - intros j row Hrow Hst. rewrite Hslots. unfold slot_of, check_slot.
    rewrite Hrow. apply String.eqb_neq in Hst.
    destruct (active_of w !! j) as [rec|].
    + rewrite Hst. by destruct (alive _ _).
    + destruct (status_files w !! j); [|reflexivity].
      by rewrite Hst, !andb_false_r.
  - intros j Hrow. rewrite Hslots. unfold slot_of, check_slot.
    by rewrite Hrow.
Qed.

Lemma check_stream_statuses_only_live_jobs_witness :
  streams w_tracked_waiting !! 0 = Some (sample_job Menunggu) ∧
  Status (sample_job Menunggu) ≠ Sedang_Live ∧
  ∃ w', check_stream_statuses w_tracked_waiting = (Ok tt, w') ∧
        slot_of w' 0 = slot_of w_tracked_waiting 0.
Proof.
  assert (H1 : streams w_tracked_waiting !! 0 = Some (sample_job Menunggu))
    by reflexivity.
  assert (H2 : Status (sample_job Menunggu) ≠ Sedang_Live) by discriminate.
  split; [exact H1|]. split; [exact H2|].
  destruct (check_stream_statuses_only_live_jobs w_tracked_waiting)
    as (w' & Hc & Hnl & _).
  exists w'. split; [exact Hc|]. exact (Hnl 0 _ H1 H2).
Defined.

(** X3: for a job that is 'Sedang Live' and has no record, the pass reads
    the status marker: "completed" makes the job 'Selesai', a marker that
    starts with "error:" becomes the job's status, and in both cases the
    marker is deleted; any other marker (such as "starting" or "streaming")
    leaves row and marker as they are.  The pid file is never deleted on
    this path and no record appears. *)
Theorem check_stream_statuses_untracked_live (w : world) (j : nat)
    (row : StreamJob) (content : string) :
  streams w !! j = Some row → Status row = Sedang_Live →
  active_of w !! j = None → status_files w !! j = Some content →
  ∃ w', check_stream_statuses w = (Ok tt, w') ∧
    active_of w' !! j = None ∧ pid_files w' !! j = pid_files w !! j ∧
    (strip content = "completed" →
       streams w' !! j = Some (with_status Selesai row) ∧
       status_files w' !! j = None) ∧
    (strip content ≠ "completed" →
     startswith "error:" (strip content) = true →
       streams w' !! j = Some (with_status (strip content) row) ∧
       status_files w' !! j = None) ∧
    (strip content ≠ "completed" →
     startswith "error:" (strip content) = false →
       streams w' !! j = Some row ∧
       status_files w' !! j = Some content).
Proof.
  intros Hrow Hlive Hrec Hm.
  destruct (check_stream_statuses_slots w) as (w' & Hc & _ & Hslots).
  exists w'. split; [exact Hc|].
  specialize (Hslots j). unfold slot_of, check_slot in Hslots.
  rewrite Hrow, Hrec, Hm, Hlive in Hslots.
  change (String.eqb Sedang_Live Sedang_Live) with true in Hslots.
  rewrite !andb_true_r in Hslots.
  destruct (String.eqb (strip content) "completed") eqn:Hc1.
  - injection Hslots as S1 S2 S3 S4. apply String.eqb_eq in Hc1.
    repeat split; auto; intros; congruence.
  - apply String.eqb_neq in Hc1.
    destruct (startswith "error:" (strip content)) eqn:He;
      injection Hslots as S1 S2 S3 S4;
      repeat split; auto; intros; congruence.
Qed.

Lemma check_stream_statuses_untracked_live_witness :
  streams w_untracked_completed !! 0 = Some (sample_job Sedang_Live) ∧
  Status (sample_job Sedang_Live) = Sedang_Live ∧
  active_of w_untracked_completed !! 0 = None ∧
  status_files w_untracked_completed !! 0 = Some "completed" ∧
  ∃ w', check_stream_statuses w_untracked_completed = (Ok tt, w') ∧
        streams w' !! 0 = Some (sample_job Selesai) ∧
        status_files w' !! 0 = None.
Proof.
  assert (H1 : streams w_untracked_completed !! 0
               = Some (sample_job Sedang_Live)) by reflexivity.
  assert (H2 : Status (sample_job Sedang_Live) = Sedang_Live) by reflexivity.
  assert (H3 : active_of w_untracked_completed !! 0 = None) by reflexivity.
  assert (H4 : status_files w_untracked_completed !! 0 = Some "completed")
    by reflexivity.
  repeat (split; [assumption|]).
  destruct (check_stream_statuses_untracked_live w_untracked_completed 0
              _ "completed" H1 H2 H3 H4) as (w' & Hc & _ & _ & Hdone & _).
  exists w'. split; [exact Hc|]. apply Hdone. reflexivity.
Defined.

(** X22: for a job that is 'Sedang Live' and has a record whose process is
    not a running ffmpeg, the pass removes the record and deletes the pid
    file and the status marker.  When there was a marker, the new status is
    'Selesai' for "completed", the marker's text when it starts with
    "error:", and 'Terputus' for any other text; when there was no marker
    the row is left as it is. *)
Theorem check_stream_statuses_tracked_dead (w : world) (j : nat)
    (row : StreamJob) (rec : ActiveJobRecord) :
  streams w !! j = Some row → Status row = Sedang_Live →
  active_of w !! j = Some rec →
  is_process_running (pid rec) w = (Ok false, w) →
  ∃ w', check_stream_statuses w = (Ok tt, w') ∧
    active_of w' !! j = None ∧
    pid_files w' !! j = None ∧ status_files w' !! j = None ∧
    (status_files w !! j = None → streams w' !! j = Some row) ∧
    (∀ content, status_files w !! j = Some content →
       ∃ status, streams w' !! j = Some (with_status status row) ∧
         (strip content = "completed" → status = Selesai) ∧
         (strip content ≠ "completed" →
          startswith "error:" (strip content) = true →
          status = strip content) ∧
         (strip content ≠ "completed" →
          startswith "error:" (strip content) = false →
          status = Terputus)).
Proof.
  intros Hrow Hlive Hrec Hrun. rewrite is_process_running_eq in Hrun.
  assert (Hal : alive (procs w) (pid rec) = false) by congruence.
  destruct (check_stream_statuses_slots w) as (w' & Hc & _ & Hslots).
  exists w'. split; [exact Hc|].
  specialize (Hslots j). unfold slot_of, check_slot in Hslots.
  rewrite Hrow, Hrec, Hal, Hlive in Hslots.
  change (String.eqb Sedang_Live Sedang_Live) with true in Hslots.
  injection Hslots as S1 S2 S3 S4.
  repeat (split; [assumption|]). split.
  - intros Hnone. by rewrite S1, Hnone.
  - intros content Hm. rewrite S1, Hm. simpl.
    exists (classify_marker (strip content)). split; [reflexivity|].
    unfold classify_marker.
    destruct (String.eqb (strip content) "completed") eqn:E.
    + apply String.eqb_eq in E. repeat split; intros; congruence.
    + apply String.eqb_neq in E.
      destruct (startswith "error:" (strip content));
        repeat split; intros; congruence.
Qed.

Lemma check_stream_statuses_tracked_dead_witness :
  streams w_crashed !! 0 = Some (sample_job Sedang_Live) ∧
  Status (sample_job Sedang_Live) = Sedang_Live ∧
  active_of w_crashed !! 0 = Some sample_record ∧
  is_process_running (pid sample_record) w_crashed = (Ok false, w_crashed) ∧
  ∃ w', check_stream_statuses w_crashed = (Ok tt, w') ∧
        streams w' !! 0 = Some (sample_job Terputus) ∧
        active_of w' !! 0 = None ∧ status_files w' !! 0 = None.
Proof.
  assert (H1 : streams w_crashed !! 0 = Some (sample_job Sedang_Live))
    by reflexivity.
  assert (H2 : Status (sample_job Sedang_Live) = Sedang_Live) by reflexivity.
  assert (H3 : active_of w_crashed !! 0 = Some sample_record) by reflexivity.
  assert (H4 : is_process_running (pid sample_record) w_crashed
               = (Ok false, w_crashed)) by (vm_compute; reflexivity).
  repeat (split; [assumption|]).
  destruct (check_stream_statuses_tracked_dead w_crashed 0 _ _ H1 H2 H3 H4)
    as (w' & Hc & A & _ & B & _ & Hcls).
  exists w'. split; [exact Hc|].
  destruct (Hcls "streaming" eq_refl) as (status & Hs & _ & _ & Hother).
  rewrite (Hother ltac:(discriminate) eq_refl) in Hs. auto.
Defined.

(** ** Further theorems on reattachment *)

(** X4: when the pid file of a catalog job names a running ffmpeg process,
    [reconnect_to_existing_streams] sets the job to 'Sedang Live' and writes
    a record with that pid and the current time as [started_at], whatever
    record the job had before; the pid file and the status marker stay, no
    thread is started and the process table is not touched. *)
Theorem reconnect_reattaches_running_job (now : string) (w : world)
    (j : nat) (row : StreamJob) (p : Z) :
  streams w !! j = Some row → pid_files w !! j = Some (Some p) →
  is_process_running p w = (Ok true, w) →
  ∃ w', reconnect_to_existing_streams now w = (Ok tt, w') ∧
    streams w' !! j = Some (with_status Sedang_Live row) ∧
    active_of w' !! j = Some {| pid := p; started_at := now |} ∧
    pid_files w' !! j = Some (Some p) ∧
    status_files w' !! j = status_files w !! j ∧
    threads w' = threads w ∧ procs w' = procs w.
Proof.
  intros Hrow Hpf Hrun. rewrite is_process_running_eq in Hrun.
  assert (Hal : alive (procs w) p = true) by congruence.
  destruct (reconnect_slots now w)
    as (w' & Hr & (_ & R2 & R3 & _) & _ & _ & Hslots).
  exists w'. split; [exact Hr|].
  specialize (Hslots j). unfold slot_of, reconnect_slot in Hslots.
  rewrite Hrow, Hpf, Hal in Hslots. injection Hslots as S1 S2 S3 S4.
  auto 10.
Qed.

Lemma reconnect_reattaches_running_job_witness :
  streams w_streaming !! 0 = Some (sample_job Sedang_Live) ∧
  pid_files w_streaming !! 0 = Some (Some 4242%Z) ∧
  is_process_running 4242 w_streaming = (Ok true, w_streaming) ∧
  ∃ w', reconnect_to_existing_streams "10:00" w_streaming = (Ok tt, w') ∧
    streams w' !! 0 = Some (with_status Sedang_Live (sample_job Sedang_Live)) ∧
    active_of w' !! 0 = Some {| pid := 4242; started_at := "10:00" |} ∧
    pid_files w' !! 0 = Some (Some 4242%Z) ∧
    status_files w' !! 0 = status_files w_streaming !! 0 ∧
    threads w' = threads w_streaming ∧ procs w' = procs w_streaming.
Proof.
  split; [reflexivity|]. split; [reflexivity|].
  split; [vm_compute; reflexivity|].
  apply (reconnect_reattaches_running_job "10:00" w_streaming 0
           (sample_job Sedang_Live) 4242%Z);
    [reflexivity|reflexivity|vm_compute; reflexivity].
Defined.

(** X5: when the pid file of a job names a process that is not a running
    ffmpeg, [reconnect_to_existing_streams] deletes the pid file and the
    status marker and removes the record, and it leaves the catalog row as
    it is: a job that was 'Sedang Live' is still 'Sedang Live'. *)
Theorem reconnect_cleans_dead_job (now : string) (w : world) (j : nat)
    (p : Z) :
  pid_files w !! j = Some (Some p) →
  is_process_running p w = (Ok false, w) →
  ∃ w', reconnect_to_existing_streams now w = (Ok tt, w') ∧
    streams w' !! j = streams w !! j ∧
    active_of w' !! j = None ∧
    pid_files w' !! j = None ∧ status_files w' !! j = None.
Proof.
  intros Hpf Hrun. rewrite is_process_running_eq in Hrun.
  assert (Hal : alive (procs w) p = false) by congruence.
  destruct (reconnect_slots now w) as (w' & Hr & _ & _ & _ & Hslots).
  exists w'. split; [exact Hr|].
  specialize (Hslots j). unfold slot_of, reconnect_slot in Hslots.
  rewrite Hpf, Hal in Hslots. injection Hslots as S1 S2 S3 S4. auto.
Qed.

Lemma reconnect_cleans_dead_job_witness :
  pid_files w_crashed !! 0 = Some (Some 4242%Z) ∧
  is_process_running 4242 w_crashed = (Ok false, w_crashed) ∧
  ∃ w', reconnect_to_existing_streams "10:00" w_crashed = (Ok tt, w') ∧
    streams w' !! 0 = streams w_crashed !! 0 ∧
    active_of w' !! 0 = None ∧
    pid_files w' !! 0 = None ∧ status_files w' !! 0 = None.
Proof.
  split; [reflexivity|]. split; [vm_compute; reflexivity|].
  apply (reconnect_cleans_dead_job "10:00" w_crashed 0 4242%Z);
    [reflexivity|vm_compute; reflexivity].
Defined.

(** X6: a pid file whose content is not a number is deleted, and that is
    all: the job's row, record and status marker are left as they are. *)
Theorem reconnect_removes_invalid_pid_file (now : string) (w : world)
    (j : nat) :
  pid_files w !! j = Some None →
  ∃ w', reconnect_to_existing_streams now w = (Ok tt, w') ∧
    pid_files w' !! j = None ∧
    streams w' !! j = streams w !! j ∧
    active_of w' !! j = active_of w !! j ∧
    status_files w' !! j = status_files w !! j.
Proof.
  intros Hpf.
  destruct (reconnect_slots now w) as (w' & Hr & _ & _ & _ & Hslots).
  exists w'. split; [exact Hr|].
  specialize (Hslots j). unfold slot_of, reconnect_slot in Hslots.
  rewrite Hpf in Hslots. injection Hslots as S1 S2 S3 S4. auto.
Qed.

Lemma reconnect_removes_invalid_pid_file_witness :
  pid_files w_garbage_pid !! 0 = Some None ∧
  ∃ w', reconnect_to_existing_streams "10:00" w_garbage_pid = (Ok tt, w') ∧
    pid_files w' !! 0 = None ∧
    streams w' !! 0 = streams w_garbage_pid !! 0 ∧
    active_of w' !! 0 = active_of w_garbage_pid !! 0 ∧
    status_files w' !! 0 = status_files w_garbage_pid !! 0.
Proof.
  split; [reflexivity|].
  apply (reconnect_removes_invalid_pid_file "10:00" w_garbage_pid 0).
  reflexivity.
Defined.

(** X7: [reconnect_to_existing_streams] goes by the pid files alone.  A job
    without pid file keeps its row, its record (dead or alive) and its
    marker; a pid file of a running ffmpeg under an id that is not in the
    catalog gets no record and is kept; and the catalog file on disk is not
    rewritten, so a status set by the reattachment is in memory only. *)
Theorem reconnect_goes_by_pid_files (now : string) (w : world) :
  ∃ w', reconnect_to_existing_streams now w = (Ok tt, w') ∧
    (∀ j, pid_files w !! j = None → slot_of w' j = slot_of w j) ∧
    (∀ j p, streams w !! j = None → pid_files w !! j = Some (Some p) →
            is_process_running p w = (Ok true, w) →
            slot_of w' j = slot_of w j) ∧
    streams_file w' = streams_file w ∧
    length (streams w') = length (streams w).
Proof.
  destruct (reconnect_slots now w) as (w' & Hr & _ & Hsf & Hlen & Hslots).
  exists w'. split; [exact Hr|].
  split; [|split; [|split; [exact Hsf|exact Hlen]]].
  - intros j Hpf. rewrite Hslots. unfold slot_of, reconnect_slot.
    by rewrite Hpf.
  - intros j p Hrow Hpf Hrun. rewrite is_process_running_eq in Hrun.
    assert (Hal : alive (procs w) p = true) by congruence.
    rewrite Hslots. unfold slot_of, reconnect_slot.
    by rewrite Hrow, Hpf, Hal.
Qed.

Lemma reconnect_goes_by_pid_files_witness :
  pid_files w_dead_no_marker !! 0 = None ∧
  ∃ w', reconnect_to_existing_streams "10:00" w_dead_no_marker = (Ok tt, w') ∧
        slot_of w' 0 = slot_of w_dead_no_marker 0.
Proof.
  split; [reflexivity|].
  destruct (reconnect_goes_by_pid_files "10:00" w_dead_no_marker)
    as (w' & Hr & Hnone & _).
  exists w'. split; [exact Hr|]. apply Hnone. reflexivity.
Defined.

(** ** Further theorems on stop *)

Lemma finish_live_frame (row_id : nat) (w w1 : world) (j : nat) :
  same_files w w1 → j ≠ row_id →
  slot_of (finish_live row_id (active_of w) w1) j = slot_of w j.
Proof.
  intros (Hs & _ & Ha & Hp & Hm & _) Hj. unfold slot_of.
  change (active_of (finish_live row_id (active_of w) w1))
    with (delete row_id (active_of w)).
  simpl. rewrite Hs, Hp, Hm.
  rewrite list_lookup_alter_ne by done.
  rewrite !lookup_delete_ne by done.
  rewrite lookup_insert_ne by done. reflexivity.
Qed.

Lemma finish_dead_frame (row_id : nat) (w : world) (j : nat) :
  j ≠ row_id → slot_of (finish_dead row_id w) j = slot_of w j.
Proof.
  intros Hj. unfold slot_of.
  change (active_of (finish_dead row_id w))
    with (delete row_id (active_of w)).
  simpl. rewrite list_lookup_alter_ne by done.
  rewrite !lookup_delete_ne by done. reflexivity.
Qed.

(** X8: [stop_stream] never raises, whatever the operating system does, and
    it touches one job only: the rows, records, pid files and status markers
    of all other jobs are as before, and so are all logs and the list of
    started threads. *)
Theorem stop_stream_touches_one_job (K : Kernel) (row_id : nat) (w : world) :
  ∃ (b : bool) w',
    stop_stream K row_id w = (Ok b, w') ∧
    (∀ j, j ≠ row_id → slot_of w' j = slot_of w j) ∧
    log_files w' = log_files w ∧ threads w' = threads w ∧
    length (streams w') = length (streams w).
Proof.
  rewrite stop_stream_unfold.
  destruct (resolved_pid w row_id) as [p|e].
  - destruct (truthy p && alive (procs w) (default 0%Z p)).
    + pose proof (stop_terminate_frame K (default 0%Z p) w) as Hfr.
      destruct (stop_terminate K (default 0%Z p) w) as [[[]|e] w1];
        simpl in Hfr.
      * eexists _, _. split; [reflexivity|].
        split; [intros j Hj; by apply finish_live_frame|].
        destruct Hfr as (Hs & _ & _ & _ & _ & Hl & Ht & _). simpl.
        by rewrite length_alter, Hs, Hl, Ht.
      * eexists _, _. split; [reflexivity|].
        destruct Hfr as (Hs & _ & Ha & Hp & Hm & Hl & Ht & _).
        split; [|simpl; by rewrite Hs, Hl, Ht].
        intros j _. unfold slot_of, active_of. simpl.
        by rewrite Hs, Ha, Hp, Hm.
    + eexists _, _. split; [reflexivity|].
      split; [intros j Hj; by apply finish_dead_frame|].
      simpl. by rewrite length_alter.
  - eexists _, _. split; [reflexivity|]. auto.
Qed.

Lemma stop_stream_live_unfold (K : Kernel) (row_id : nat) (w : world)
    (p : Z) :
  resolves_to w row_id p → p ≠ 0%Z →
  is_process_running p w = (Ok true, w) →
  stop_stream K row_id w
  = match stop_terminate K p w with
    | (Ok _, w1) => (Ok true, finish_live row_id (active_of w) w1)
    | (Raise e, w1) => (Ok false, add_st_error e w1)
    end.
Proof.
  intros Hres Hp Hrun. rewrite is_process_running_eq in Hrun.
  assert (Hal : alive (procs w) p = true) by congruence.
  rewrite stop_stream_unfold, (resolves_to_resolved w row_id p Hres Hp).
  assert (Ht : truthy (Some p) = true).
  { unfold truthy. by apply negb_true_iff, Z.eqb_neq. }
  rewrite Ht. change (default 0%Z (Some p)) with p. by rewrite Hal.
Qed.

(** X9: off Windows, when the operating system refuses the termination
    signal with an error other than [ProcessLookupError] (such as
    [PermissionError]), [stop_stream] reports that error, returns [False] and
    leaves the job as it was: still 'Sedang Live', with its record, its pid
    file and its marker.  It has not slept and has sent no SIGKILL. *)
Theorem stop_stream_signal_refused (K : Kernel) (w : world) (row_id : nat)
    (p g : Z) (e : exn) :
  String.eqb (os_name K) "nt" = false →
  resolves_to w row_id p → p ≠ 0%Z →
  is_process_running p w = (Ok true, w) →
  os_getpgid p w = (Ok g, w) →
  deliver K SIGTERM g (procs w) = Raise e →
  is_ProcessLookupError e = false →
  ∃ w',
    stop_stream K row_id w = (Ok false, w') ∧
    slot_of w' row_id = slot_of w row_id ∧
    st_errors w' = (st_errors w ++ [e])%list ∧
    syscalls w' = (syscalls w ++ [Killpg g SIGTERM])%list ∧
    procs w' = procs w.
Proof.
  intros Hos Hres Hp Hrun Hg Hdel He.
  rewrite (stop_stream_live_unfold K row_id w p Hres Hp Hrun).
  rewrite stop_terminate_posix by done.
  rewrite os_getpgid_eq in Hg.
  destruct (procs w !! p ≫= pgid_of) as [g0|]; [|discriminate Hg].
  assert (g0 = g) by congruence. subst g0.
  unfold killed. rewrite Hdel, He.
  eexists. split; [reflexivity|]. auto.
Qed.

Lemma stop_stream_signal_refused_witness :
  String.eqb (os_name forbidding_unix) "nt" = false ∧
  resolves_to w_streaming 0 4242 ∧ 4242%Z ≠ 0%Z ∧
  is_process_running 4242 w_streaming = (Ok true, w_streaming) ∧
  os_getpgid 4242 w_streaming = (Ok 4242%Z, w_streaming) ∧
  deliver forbidding_unix SIGTERM 4242 (procs w_streaming)
    = Raise PermissionError ∧
  is_ProcessLookupError PermissionError = false ∧
  ∃ w',
    stop_stream forbidding_unix 0 w_streaming = (Ok false, w') ∧
    slot_of w' 0 = slot_of w_streaming 0 ∧
    st_errors w' = (st_errors w_streaming ++ [PermissionError])%list ∧
    syscalls w' = (syscalls w_streaming ++ [Killpg 4242 SIGTERM])%list ∧
    procs w' = procs w_streaming.
Proof.
  split; [reflexivity|]. split; [reflexivity|]. split; [discriminate|].
  split; [vm_compute; reflexivity|]. split; [vm_compute; reflexivity|].
  split; [reflexivity|]. split; [reflexivity|].
  apply (stop_stream_signal_refused forbidding_unix w_streaming 0 4242%Z
           4242%Z PermissionError);
    try reflexivity; try discriminate; vm_compute; reflexivity.
Defined.

(** X10: off Windows, when the process group is already gone at the moment
    of the termination signal ([ProcessLookupError]), [stop_stream] skips
    the sleep and the SIGKILL and completes as a successful stop: the job is
    'Dihentikan', the record, the pid file and the marker are removed, and
    the value is [True]. *)
Theorem stop_stream_process_already_gone (K : Kernel) (w : world)
    (row_id : nat) (p g : Z) :
  String.eqb (os_name K) "nt" = false →
  row_id < length (streams w) →
  resolves_to w row_id p → p ≠ 0%Z →
  is_process_running p w = (Ok true, w) →
  os_getpgid p w = (Ok g, w) →
  deliver K SIGTERM g (procs w) = Raise ProcessLookupError →
  ∃ w',
    stop_stream K row_id w = (Ok true, w') ∧
    syscalls w' = (syscalls w ++ [Killpg g SIGTERM])%list ∧
    st_errors w' = st_errors w ∧
    stop_bookkeeping row_id w w'.
Proof.
  intros Hos Hlen Hres Hp Hrun Hg Hdel.
  pose proof (stop_terminate_frame K p w) as Hfr.
  rewrite (stop_stream_live_unfold K row_id w p Hres Hp Hrun).
  rewrite stop_terminate_posix in * by done.
  rewrite os_getpgid_eq in Hg.
  destruct (procs w !! p ≫= pgid_of) as [g0|]; [|discriminate Hg].
  assert (g0 = g) by congruence. subst g0.
  unfold killed in *. rewrite Hdel in *. simpl in *.
  eexists. split; [reflexivity|]. split; [reflexivity|].
  split; [reflexivity|]. by apply stop_bookkeeping_finish_live.
Qed.

Lemma stop_stream_process_already_gone_witness :
  String.eqb (os_name racing_unix) "nt" = false ∧
  0 < length (streams w_streaming) ∧
  resolves_to w_streaming 0 4242 ∧ 4242%Z ≠ 0%Z ∧
  is_process_running 4242 w_streaming = (Ok true, w_streaming) ∧
  os_getpgid 4242 w_streaming = (Ok 4242%Z, w_streaming) ∧
  deliver racing_unix SIGTERM 4242 (procs w_streaming)
    = Raise ProcessLookupError ∧
  ∃ w',
    stop_stream racing_unix 0 w_streaming = (Ok true, w') ∧
    syscalls w' = (syscalls w_streaming ++ [Killpg 4242 SIGTERM])%list ∧
    st_errors w' = st_errors w_streaming ∧
    stop_bookkeeping 0 w_streaming w'.
Proof.
  split; [reflexivity|]. split; [simpl; lia|]. split; [reflexivity|].
  split; [discriminate|].
  split; [vm_compute; reflexivity|]. split; [vm_compute; reflexivity|].
  split; [reflexivity|].
  apply (stop_stream_process_already_gone racing_unix w_streaming 0 4242%Z
           4242%Z);
    try reflexivity; try discriminate; try (simpl; lia);
    vm_compute; reflexivity.
Defined.

(** X11: the pid file is a fallback for a missing record, not for a stale
    one.  When the job has a record whose pid is not 0 and is not a running
    ffmpeg, [stop_stream] does not read the pid file: it sends no signal and
    leaves the process table alone, so an ffmpeg process that the pid file
    names keeps running, while the job is set to 'Dihentikan' and the pid
    file, the marker and the record are removed. *)
Theorem stop_stream_stale_record_shadows_pid_file (K : Kernel) (w : world)
    (row_id : nat) (rec : ActiveJobRecord) :
  row_id < length (streams w) →
  active_of w !! row_id = Some rec → pid rec ≠ 0%Z →
  is_process_running (pid rec) w = (Ok false, w) →
  ∃ w',
    stop_stream K row_id w = (Ok true, w') ∧
    syscalls w' = syscalls w ∧ procs w' = procs w ∧
    stop_bookkeeping row_id w w'.
Proof.
  intros Hlen Hrec Hp Hrun. rewrite is_process_running_eq in Hrun.
  assert (Hal : alive (procs w) (pid rec) = false) by congruence.
  destruct (lookup_lt_is_Some_2 _ _ Hlen) as [row Hrow].
  rewrite stop_stream_unfold. unfold resolved_pid. rewrite Hrec. simpl.
  assert (Ht : truthy (Some (pid rec)) = true).
  { unfold truthy. by apply negb_true_iff, Z.eqb_neq. }
  rewrite Ht. simpl. rewrite Ht.
  change (default 0%Z (Some (pid rec))) with (pid rec). rewrite Hal. simpl.
  eexists. split; [reflexivity|]. split; [reflexivity|].
  split; [reflexivity|]. split.
  - exists (with_status Dihentikan row). simpl.
    by rewrite list_lookup_alter_eq, Hrow.
  - rewrite load_active_streams_eq.
    split; [reflexivity|]. split; apply lookup_delete_eq.
Qed.

Lemma stop_stream_stale_record_shadows_pid_file_witness :
  0 < length (streams w_stale_record) ∧
  active_of w_stale_record !! 0 = Some sample_record ∧
  pid sample_record ≠ 0%Z ∧
  is_process_running (pid sample_record) w_stale_record
    = (Ok false, w_stale_record) ∧
  ∃ w',
    stop_stream obedient_unix 0 w_stale_record = (Ok true, w') ∧
    syscalls w' = syscalls w_stale_record ∧
    procs w' = procs w_stale_record ∧
    stop_bookkeeping 0 w_stale_record w'.
Proof.
  split; [simpl; lia|]. split; [reflexivity|]. split; [discriminate|].
  split; [vm_compute; reflexivity|].
  apply (stop_stream_stale_record_shadows_pid_file obedient_unix
           w_stale_record 0 sample_record);
    [simpl; lia|reflexivity|discriminate|vm_compute; reflexivity].
Defined.

(** ** Further theorems on the job runner *)

Lemma run_ffmpeg_launch_ok_eq (a : run_args) (header : list string) (p : Z)
    (now : string) (w : world) :
  run_ffmpeg_launch a header (Ok p) now w
  = (Ok tt,
     set_active_file
       (Stored (<[arg_row_id a := {| pid := p; started_at := now |}]>
                  (active_of w)))
       (set_status_files <[arg_row_id a := "streaming"]>
          (set_pid_files <[arg_row_id a := Some p]>
             (set_procs <[p := Running "ffmpeg" p]>
                (set_log_files <[arg_row_id a := header]> w))))).
Proof.
  destruct (get_quality_settings_total (arg_quality a) (arg_is_shorts a))
    as [v Hv].
  unfold run_ffmpeg_launch, write_status, save_active_streams.
  unfold mbind, M_bind, modify, lift. rewrite Hv.
  rewrite load_active_streams_eq. reflexivity.
Qed.

Lemma run_ffmpeg_exit_eq (row_id : nat) (w : world) :
  run_ffmpeg_exit row_id w
  = (Ok tt,
     set_status_files (delete row_id)
       (set_pid_files (delete row_id)
          (set_log_files
             (λ logs, <[row_id := (default [] (logs !! row_id)
                                   ++ [closing_line])%list]> logs)
             (set_active_file (Stored (delete row_id (active_of w)))
                (set_log_files
                   (λ logs, <[row_id := (default [] (logs !! row_id)
                                         ++ [completed_line])%list]> logs)
                   (set_status_files <[row_id := "completed"]> w)))))).
Proof.
  unfold run_ffmpeg_exit, run_ffmpeg_completed, run_ffmpeg_finally,
    remove_active, write_status, append_log, cleanup_stream_files,
    save_active_streams.
  unfold mbind, M_bind, modify. rewrite load_active_streams_eq. reflexivity.
Qed.

(** X12: a run of [run_ffmpeg] whose spawn succeeds registers the job (a
    record with the pid of the new process, which [is_process_running]
    accepts, the pid file and the marker "streaming"), and the exit handling
    that follows takes all of it back: afterwards the job has no record, no
    pid file and no marker, the records and files of the other jobs are as
    before the run, the catalog is untouched, and the log holds the header,
    "Streaming completed." and the closing line. *)
Theorem run_ffmpeg_launch_then_exit (a : run_args) (header : list string)
    (p : Z) (now : string) (w : world) :
  ∃ w1 w2,
    run_ffmpeg_launch a header (Ok p) now w = (Ok tt, w1) ∧
    run_ffmpeg_exit (arg_row_id a) w1 = (Ok tt, w2) ∧
    is_process_running p w1 = (Ok true, w1) ∧
    active_of w1 !! arg_row_id a = Some {| pid := p; started_at := now |} ∧
    pid_files w1 !! arg_row_id a = Some (Some p) ∧
    status_files w1 !! arg_row_id a = Some "streaming" ∧
    active_of w2 = delete (arg_row_id a) (active_of w) ∧
    pid_files w2 = delete (arg_row_id a) (pid_files w) ∧
    status_files w2 = delete (arg_row_id a) (status_files w) ∧
    log_files w2 !! arg_row_id a
      = Some (header ++ [completed_line; closing_line])%list ∧
    streams w1 = streams w ∧ streams w2 = streams w.
Proof.
  eexists _, _. split; [apply run_ffmpeg_launch_ok_eq|].
  split; [apply run_ffmpeg_exit_eq|].
  split. { rewrite is_process_running_eq. unfold alive. simpl.
           rewrite lookup_insert_eq. reflexivity. }
  split; [apply lookup_insert_eq|]. split; [apply lookup_insert_eq|].
  split; [apply lookup_insert_eq|].
  split. { unfold active_of at 1. simpl. apply delete_insert_eq. }
  split. { simpl. apply delete_insert_eq. }
  split. { simpl. rewrite insert_insert_eq. apply delete_insert_eq. }
  split; [|split; reflexivity].
  simpl. rewrite !lookup_insert_eq. simpl. by rewrite <- app_assoc.
Qed.

(** X13: a whole run.  A job of the catalog is started, its [run_ffmpeg]
    thread spawns ffmpeg with pid [p], a stop is requested and returns
    [True], and the thread handles the exit.  Then the job is 'Dihentikan',
    it has no record, no pid file and no status marker, its log is kept and
    ends with "Streaming completed." and "Streaming finished or stopped.",
    and the next pass of [check_stream_statuses] leaves it 'Dihentikan'. *)
Theorem start_launch_stop_exit (K : Kernel) (a : run_args)
    (header : list string) (p : Z) (now : string) (w w3 : world)
    (row : StreamJob) :
  streams w !! arg_row_id a = Some row → p ≠ 0%Z →
  let w1 := (start_stream (arg_video_path a) (arg_stream_key a)
               (arg_is_shorts a) (arg_row_id a) (arg_quality a) w).2 in
  let w2 := (run_ffmpeg_launch a header (Ok p) now w1).2 in
  stop_stream K (arg_row_id a) w2 = (Ok true, w3) →
  let w4 := (run_ffmpeg_exit (arg_row_id a) w3).2 in
  threads w1 = (threads w ++ [a])%list ∧
  streams w4 !! arg_row_id a = Some (with_status Dihentikan row) ∧
  active_of w4 !! arg_row_id a = None ∧
  pid_files w4 !! arg_row_id a = None ∧
  status_files w4 !! arg_row_id a = None ∧
  log_files w4 !! arg_row_id a
    = Some (header ++ [completed_line; closing_line])%list ∧
  ∃ w5, check_stream_statuses w4 = (Ok tt, w5) ∧
        streams w5 !! arg_row_id a = Some (with_status Dihentikan row).
Proof.
  intros Hrow Hp w1 w2 Hstop w4.
  set (r := arg_row_id a) in *.
  assert (Hw2 : w2 = (run_ffmpeg_launch a header (Ok p) now w1).2)
    by reflexivity.
  rewrite run_ffmpeg_launch_ok_eq in Hw2. simpl in Hw2. fold r in Hw2.
  assert (Hrec2 : active_of w2 !! r = Some {| pid := p; started_at := now |}).
  { rewrite Hw2. unfold active_of. simpl. apply lookup_insert_eq. }
  assert (Hrun2 : is_process_running p w2 = (Ok true, w2)).
  { rewrite is_process_running_eq. unfold alive. rewrite Hw2. simpl.
    rewrite lookup_insert_eq. reflexivity. }
  assert (Hres2 : resolves_to w2 r p).
  { unfold resolves_to. rewrite Hrec2. simpl.
    by rewrite (proj2 (Z.eqb_neq p 0) Hp). }
  assert (Hs2 : streams w2 !! r = Some (with_status Sedang_Live row)).
  { rewrite Hw2. simpl. by rewrite list_lookup_alter_eq, Hrow. }
  assert (Hl2 : log_files w2 !! r = Some header).
  { rewrite Hw2. simpl. apply lookup_insert_eq. }
  rewrite (stop_stream_live_unfold K r w2 p Hres2 Hp Hrun2) in Hstop.
  pose proof (stop_terminate_frame K p w2) as Hfr.
  destruct (stop_terminate K p w2) as [[[]|e] wt]; [|discriminate Hstop].
  injection Hstop as <-. simpl in Hfr.
  destruct Hfr as (Fs & _ & _ & _ & _ & Fl & _).
  assert (Hw4 : w4 = (run_ffmpeg_exit r (finish_live r (active_of w2) wt)).2)
    by reflexivity.
  rewrite run_ffmpeg_exit_eq in Hw4. simpl in Hw4.
  assert (Hs4 : streams w4 !! r = Some (with_status Dihentikan row)).
  { rewrite Hw4. simpl. by rewrite Fs, list_lookup_alter_eq, Hs2. }
  split. { subst w1. destruct a. reflexivity. }
  split; [exact Hs4|].
  split. { rewrite Hw4. unfold active_of. simpl. apply lookup_delete_eq. }
  split. { rewrite Hw4. simpl. apply lookup_delete_eq. }
  split. { rewrite Hw4. simpl. apply lookup_delete_eq. }
  split.
  { rewrite Hw4. simpl. rewrite !lookup_insert_eq. simpl.
    rewrite Fl, Hl2. simpl. by rewrite <- app_assoc. }
  destruct (check_stream_statuses_spec w4) as (w5 & Hc & _ & _ & _ & HM & _).
  exists w5. split; [exact Hc|].
  destruct (HM r _ Hs4) as (row' & Hrow' & _ & Hsame).
  rewrite Hrow'. f_equal. apply Hsame. discriminate.
Qed.

Lemma start_launch_stop_exit_witness :
  let a := args_of (0, sample_job Menunggu) in
  let w1 := (start_stream (arg_video_path a) (arg_stream_key a)
               (arg_is_shorts a) (arg_row_id a) (arg_quality a) w_waiting).2 in
  let w2 := (run_ffmpeg_launch a ["header"] (Ok 4242%Z) "now" w1).2 in
  let w3 := (stop_stream obedient_unix 0 w2).2 in
  let w4 := (run_ffmpeg_exit 0 w3).2 in
  streams w_waiting !! 0 = Some (sample_job Menunggu) ∧ 4242%Z ≠ 0%Z ∧
  stop_stream obedient_unix 0 w2 = (Ok true, w3) ∧
  streams w4 !! 0 = Some (sample_job Dihentikan) ∧
  log_files w4 !! 0 = Some ["header"; completed_line; closing_line].
Proof.
  intros a w1 w2 w3 w4.
  assert (H1 : streams w_waiting !! arg_row_id a = Some (sample_job Menunggu))
    by reflexivity.
  assert (H2 : 4242%Z ≠ 0%Z) by discriminate.
  assert (H3 : stop_stream obedient_unix (arg_row_id a) w2 = (Ok true, w3))
    by (vm_compute; reflexivity).
  destruct (start_launch_stop_exit obedient_unix a ["header"] 4242%Z "now"
              w_waiting w3 (sample_job Menunggu) H1 H2 H3)
    as (_ & Hs & _ & _ & _ & Hl & _).
  split; [exact H1|]. split; [exact H2|]. split; [exact H3|].
  split; [exact Hs|exact Hl].
Defined.

(** X14: [log_output] appends every line of ffmpeg's output to the log and
    sets the marker to "error: YouTube connection failed" on a line that
    contains "Connection refused" or "Server returned 4".  As long as the
    job's ffmpeg process is alive, [check_stream_statuses] does not act on
    that marker: the job stays as it is, tracked by its record, and the
    marker stays in place. *)
Theorem log_output_error_ignored_while_alive (w : world) (j : nat)
    (row : StreamJob) (rec : ActiveJobRecord) (line : string) :
  streams w !! j = Some row → active_of w !! j = Some rec →
  is_process_running (pid rec) w = (Ok true, w) →
  contains "Connection refused" line || contains "Server returned 4" line
    = true →
  ∃ w1 w2,
    log_output j line w = (Ok tt, w1) ∧
    check_stream_statuses w1 = (Ok tt, w2) ∧
    log_files w1 !! j = Some (default [] (log_files w !! j) ++ [line])%list ∧
    status_files w1 !! j = Some "error: YouTube connection failed" ∧
    streams w2 !! j = Some row ∧ active_of w2 !! j = Some rec ∧
    status_files w2 !! j = Some "error: YouTube connection failed".
Proof.
  intros Hrow Hrec Hrun Hline. rewrite is_process_running_eq in Hrun.
  assert (Hal : alive (procs w) (pid rec) = true) by congruence.
  assert (Hw1 : log_output j line w
                = (Ok tt,
                   set_status_files
                     <[j := "error: YouTube connection failed"]>
                     (set_log_files
                        (λ logs, <[j := (default [] (logs !! j)
                                         ++ [line])%list]> logs) w))).
  { unfold log_output, write_status, append_log. munfold. by rewrite Hline. }
  set (w1 := set_status_files _ _) in Hw1.
  assert (Hm1 : status_files w1 !! j
                = Some "error: YouTube connection failed")
    by apply lookup_insert_eq.
  assert (Hs1 : slot_of w1 j
                = (Some row, Some rec, pid_files w !! j,
                   Some "error: YouTube connection failed")).
  { unfold slot_of. rewrite Hm1.
    change (active_of w1) with (active_of w).
    change (streams w1) with (streams w).
    change (pid_files w1) with (pid_files w). by rewrite Hrow, Hrec. }
  assert (Hp1 : procs w1 = procs w) by reflexivity.
  destruct (check_stream_statuses_slots w1) as (w2 & Hc & _ & Hslots).
  exists w1, w2. split; [exact Hw1|]. split; [exact Hc|].
  split; [apply lookup_insert_eq|].
  split; [exact Hm1|].
  specialize (Hslots j). rewrite Hs1 in Hslots.
  unfold check_slot in Hslots. rewrite Hp1, Hal in Hslots.
  unfold slot_of in Hslots. injection Hslots as S1 S2 S3 S4. auto.
Qed.

Lemma log_output_error_ignored_while_alive_witness :
  streams w_streaming !! 0 = Some (sample_job Sedang_Live) ∧
  active_of w_streaming !! 0 = Some sample_record ∧
  is_process_running (pid sample_record) w_streaming
    = (Ok true, w_streaming) ∧
  contains "Connection refused" "rtmp: Connection refused"
  || contains "Server returned 4" "rtmp: Connection refused" = true ∧
  ∃ w1 w2,
    log_output 0 "rtmp: Connection refused" w_streaming = (Ok tt, w1) ∧
    check_stream_statuses w1 = (Ok tt, w2) ∧
    streams w2 !! 0 = Some (sample_job Sedang_Live) ∧
    status_files w2 !! 0 = Some "error: YouTube connection failed".
Proof.
  assert (H1 : streams w_streaming !! 0 = Some (sample_job Sedang_Live))
    by reflexivity.
  assert (H2 : active_of w_streaming !! 0 = Some sample_record)
    by reflexivity.
  assert (H3 : is_process_running (pid sample_record) w_streaming
               = (Ok true, w_streaming)) by (vm_compute; reflexivity).
  assert (H4 : contains "Connection refused" "rtmp: Connection refused"
               || contains "Server returned 4" "rtmp: Connection refused"
               = true) by reflexivity.
  repeat (split; [assumption|]).
  destruct (log_output_error_ignored_while_alive w_streaming 0 _ _
              "rtmp: Connection refused" H1 H2 H3 H4)
    as (w1 & w2 & A & B & _ & _ & C & _ & D).
  exists w1, w2. auto.
Defined.

(** ** Further theorems on the schedule sweep, the store and the forms *)

(** X15: [check_scheduled_streams] starts jobs and does nothing else.  It
    never touches a record, a pid file, a log or the process table; a job
    that is not 'Menunggu', or whose 'Jam Mulai' differs from the current
    hour:minute (earlier or later), keeps its row and its status marker; a
    job it starts gets the marker "starting"; and when no job is due the
    world is left exactly as it was. *)
Theorem check_scheduled_streams_only_starts (current_time : string)
    (w : world) :
  ∃ w', check_scheduled_streams current_time w = (Ok tt, w') ∧
    active_file w' = active_file w ∧ pid_files w' = pid_files w ∧
    procs w' = procs w ∧ log_files w' = log_files w ∧
    (∀ j row, streams w !! j = Some row →
       Status row ≠ Menunggu ∨ Jam_Mulai row ≠ current_time →
       streams w' !! j = Some row ∧
       status_files w' !! j = status_files w !! j) ∧
    (∀ j row, streams w !! j = Some row →
       Status row = Menunggu → Jam_Mulai row = current_time →
       status_files w' !! j = Some "starting") ∧
    ((∀ j row, streams w !! j = Some row →
        Status row ≠ Menunggu ∨ Jam_Mulai row ≠ current_time) →
     w' = w).
Proof.
  destruct (check_scheduled_streams_spec current_time w)
    as (w' & Hc & _ & Hrows).
  destruct (sweep_loop_frame current_time (streams w) 0 w)
    as (w'' & Hf & A & B & C & D & _ & _ & _ & G).
  assert (Hc' : check_scheduled_streams current_time w = (Ok tt, w'')).
  { unfold check_scheduled_streams, mbind, M_bind, gets, iterrows.
    exact Hf. }
  rewrite Hc in Hc'. injection Hc' as <-.
  exists w'. split; [exact Hc|]. repeat (split; [assumption|]).
  split; [|split].
  - intros j row Hrow Hnot. apply due_false_iff in Hnot.
    rewrite (Hrows j row Hrow), G, Hnot.
    rewrite bool_decide_true by lia. rewrite Nat.sub_0_r, Hrow, Hnot. auto.
  - intros j row Hrow Hst Htime. rewrite G.
    rewrite bool_decide_true by lia. rewrite Nat.sub_0_r, Hrow.
    unfold due. rewrite Hst, Htime, !String.eqb_refl.
    reflexivity.
  - intros Hnone.
    assert (Hid : check_scheduled_streams current_time w = (Ok tt, w)).
    { unfold check_scheduled_streams, mbind, M_bind, gets, iterrows.
      apply sweep_loop_nothing_due. intros i row Hi.
      apply due_false_iff. by apply (Hnone i). }
    rewrite Hc in Hid. by injection Hid.
Qed.

Lemma check_scheduled_streams_only_starts_witness :
  streams w_waiting !! 0 = Some (sample_job Menunggu) ∧
  (Status (sample_job Menunggu) ≠ Menunggu
   ∨ Jam_Mulai (sample_job Menunggu) ≠ "09:01") ∧
  ∃ w', check_scheduled_streams "09:01" w_waiting = (Ok tt, w') ∧
        streams w' !! 0 = Some (sample_job Menunggu) ∧
        status_files w' !! 0 = status_files w_waiting !! 0.
Proof.
  assert (H1 : streams w_waiting !! 0 = Some (sample_job Menunggu))
    by reflexivity.
  assert (H2 : Status (sample_job Menunggu) ≠ Menunggu
               ∨ Jam_Mulai (sample_job Menunggu) ≠ "09:01")
    by (right; discriminate).
  split; [exact H1|]. split; [exact H2|].
  destruct (check_scheduled_streams_only_starts "09:01" w_waiting)
    as (w' & Hc & _ & _ & _ & _ & Hkeep & _).
  exists w'. split; [exact Hc|]. exact (Hkeep 0 _ H1 H2).
Defined.

(** X17: [get_stream_logs] never raises and changes nothing.  A job without
    log file has the empty list.  For a positive [max_lines] the value is
    the last [max_lines] lines of the log, or the whole log when it is
    shorter.  For [max_lines = 0] it is the whole log, not the empty list,
    and a negative [max_lines] drops that many lines from the front. *)
Theorem get_stream_logs_tail (row_id : nat) (max_lines : Z) (w : world) :
  ∃ r, get_stream_logs row_id max_lines w = (Ok r, w) ∧
    (log_files w !! row_id = None → r = []) ∧
    (∀ lines, log_files w !! row_id = Some lines →
       ((0 < max_lines)%Z →
          r = drop (length lines - Z.to_nat max_lines) lines ∧
          length r = Nat.min (length lines) (Z.to_nat max_lines)) ∧
       (max_lines = 0%Z → r = lines) ∧
       ((max_lines < 0)%Z → r = drop (Z.to_nat (- max_lines)) lines)).
Proof.
  unfold get_stream_logs. munfold.
  destruct (log_files w !! row_id) as [lines|] eqn:Hlog.
  - destruct (Z.ltb max_lines (Z.of_nat (length lines))) eqn:Hlt.
    + apply Z.ltb_lt in Hlt.
      eexists. split; [reflexivity|]. split; [discriminate|].
      intros l [= <-]. unfold slice_from. split; [|split].
      * intros Hpos. rewrite (proj2 (Z.ltb_lt _ _)) by lia.
        replace (Z.to_nat (Z.max 0 (Z.of_nat (length lines) + - max_lines)))
          with (length lines - Z.to_nat max_lines) by lia.
        split; [reflexivity|]. rewrite length_drop. lia.
      * intros ->. reflexivity.
      * intros Hneg. rewrite (proj2 (Z.ltb_ge _ _)) by lia. reflexivity.
    + apply Z.ltb_ge in Hlt.
      eexists. split; [reflexivity|]. split; [discriminate|].
      intros l [= <-]. split; [|split].
      * intros Hpos.
        replace (length lines - Z.to_nat max_lines) with 0 by lia.
        split; [reflexivity|]. lia.
      * reflexivity.
      * intros Hneg. lia.
  - eexists. split; [reflexivity|]. split; [reflexivity|].
    intros l Hl. discriminate Hl.
Qed.

Lemma get_stream_logs_tail_witness :
  log_files w_three_lines !! 0 = Some ["a"; "b"; "c"] ∧
  get_stream_logs 0 2 w_three_lines = (Ok ["b"; "c"], w_three_lines) ∧
  get_stream_logs 0 0 w_three_lines = (Ok ["a"; "b"; "c"], w_three_lines).
Proof.
  assert (H : log_files w_three_lines !! 0 = Some ["a"; "b"; "c"])
    by reflexivity.
  split; [exact H|]. split.
  - destruct (get_stream_logs_tail 0 2 w_three_lines) as (r & Hr & _ & Hl).
    destruct (Hl _ H) as (Hpos & _). destruct Hpos as [-> _]; [lia|].
    exact Hr.
  - destruct (get_stream_logs_tail 0 0 w_three_lines) as (r & Hr & _ & Hl).
    destruct (Hl _ H) as (_ & Hzero & _). rewrite (Hzero eq_refl) in Hr.
    exact Hr.
Defined.

(** X18: the stream table never shows a character of a streaming key beyond
    the fourth.  The masked text is "****" for a key of up to four
    characters and the first four characters followed by "****" for a longer
    one, so two keys that agree on their first five characters are shown
    alike, and the text has at most eight characters. *)
Theorem masked_key_hides_tail :
  (∀ key, masked_key key = "****"
          ∨ masked_key key = str_take 4 key ++ "****") ∧
  (∀ key, (String.length (masked_key key) ≤ 8)%nat) ∧
  (∀ key1 key2, str_take 5 key1 = str_take 5 key2 →
                masked_key key1 = masked_key key2).
Proof.
  split; [|split].
  - intros key. unfold masked_key.
    destruct (Nat.ltb 4 (String.length key)); auto.
  - intros key. unfold masked_key.
    destruct key as [|c1 [|c2 [|c3 [|c4 [|c5 key]]]]]; simpl; lia.
  - intros key1 key2 H. unfold masked_key.
    destruct key1 as [|a1 [|a2 [|a3 [|a4 [|a5 key1]]]]];
      destruct key2 as [|b1 [|b2 [|b3 [|b4 [|b5 key2]]]]];
      simpl in H; try discriminate H; try reflexivity.
    injection H as -> -> -> -> ->. reflexivity.
Qed.

Lemma masked_key_hides_tail_witness :
  str_take 5 "abcd1234" = str_take 5 "abcd1xyz" ∧
  masked_key "abcd1234" = masked_key "abcd1xyz".
Proof.
  split; [reflexivity|].
  apply (proj2 (proj2 masked_key_hides_tail)). reflexivity.
Defined.

(** X19: "Remove" renumbers the rows of the catalog and nothing else: the
    rows after the removed one move up by one while the records, pid files
    and status markers stay under their old ids.  So when a tracked job has
    moved up to an id under which there is neither record nor pid file, a
    stop of that job finds no handle: it returns [True] and sets the job to
    'Dihentikan' without sending a signal, and the job's process and record
    are left as they were. *)
Theorem remove_then_stop_leaves_process (K : Kernel) (w : world)
    (j i : nat) (row_j row_i : StreamJob) (rec : ActiveJobRecord) :
  j < i → streams w !! j = Some row_j → removable (Status row_j) = true →
  streams w !! i = Some row_i → active_of w !! i = Some rec →
  active_of w !! (i - 1) = None → pid_files w !! (i - 1) = None →
  ∃ w1 w2,
    ui_remove j w = (Ok tt, w1) ∧
    streams w1 !! (i - 1) = Some row_i ∧
    length (streams w1) = length (streams w) - 1 ∧
    active_file w1 = active_file w ∧ pid_files w1 = pid_files w ∧
    status_files w1 = status_files w ∧
    log_files w1 = delete j (log_files w) ∧
    stop_stream K (i - 1) w1 = (Ok true, w2) ∧
    streams w2 !! (i - 1) = Some (with_status Dihentikan row_i) ∧
    syscalls w2 = syscalls w ∧ procs w2 = procs w ∧
    active_of w2 !! i = Some rec.
Proof.
  intros Hji Hj Hrem Hi Hrec Hnone Hnopid.
  assert (Hw1 : ui_remove j w
                = (Ok tt,
                   set_log_files (delete j)
                     (set_streams_file (Stored (delete j (streams w)))
                        (set_streams (delete j) w)))).
  { unfold ui_remove. munfold. by rewrite Hj, Hrem. }
  set (w1 := set_log_files _ _) in Hw1.
  assert (Hs1 : streams w1 !! (i - 1) = Some row_i).
  { change (streams w1) with (delete j (streams w)).
    rewrite list_lookup_delete_ge by lia.
    by replace (S (i - 1)) with i by lia. }
  assert (Hres : resolved_pid w1 (i - 1) = Ok None).
  { unfold resolved_pid. change (active_of w1) with (active_of w).
    change (pid_files w1) with (pid_files w). by rewrite Hnone, Hnopid. }
  exists w1, (finish_dead (i - 1) w1).
  split; [exact Hw1|]. split; [exact Hs1|].
  split.
  { change (streams w1) with (delete j (streams w)).
    rewrite length_delete; [reflexivity|]. by rewrite Hj. }
  repeat (split; [reflexivity|]).
  split. { rewrite stop_stream_unfold, Hres. reflexivity. }
  split.
  { change (streams (finish_dead (i - 1) w1))
      with (alter (with_status Dihentikan) (i - 1) (streams w1)).
    by rewrite list_lookup_alter_eq, Hs1. }
  split; [reflexivity|]. split; [reflexivity|].
  change (active_of (finish_dead (i - 1) w1))
    with (delete (i - 1) (active_of w)).
  rewrite lookup_delete_ne by lia. exact Hrec.
Qed.

Lemma remove_then_stop_leaves_process_witness :
  0 < 1 ∧
  streams w_finished_and_streaming !! 0 = Some (sample_job Selesai) ∧
  removable (Status (sample_job Selesai)) = true ∧
  streams w_finished_and_streaming !! 1 = Some (sample_job Sedang_Live) ∧
  active_of w_finished_and_streaming !! 1 = Some sample_record ∧
  active_of w_finished_and_streaming !! (1 - 1) = None ∧
  pid_files w_finished_and_streaming !! (1 - 1) = None ∧
  ∃ w1 w2,
    ui_remove 0 w_finished_and_streaming = (Ok tt, w1) ∧
    stop_stream obedient_unix (1 - 1) w1 = (Ok true, w2) ∧
    streams w2 !! (1 - 1) = Some (sample_job Dihentikan) ∧
    procs w2 = procs w_finished_and_streaming ∧
    active_of w2 !! 1 = Some sample_record.
Proof.
  assert (H0 : 0 < 1) by lia.
  assert (H1 : streams w_finished_and_streaming !! 0
               = Some (sample_job Selesai)) by reflexivity.
  assert (H2 : removable (Status (sample_job Selesai)) = true)
    by reflexivity.
  assert (H3 : streams w_finished_and_streaming !! 1
               = Some (sample_job Sedang_Live)) by reflexivity.
  assert (H4 : active_of w_finished_and_streaming !! 1 = Some sample_record)
    by reflexivity.
  assert (H5 : active_of w_finished_and_streaming !! (1 - 1) = None)
    by reflexivity.
  assert (H6 : pid_files w_finished_and_streaming !! (1 - 1) = None)
    by reflexivity.
  repeat (split; [assumption|]).
  destruct (remove_then_stop_leaves_process obedient_unix
              w_finished_and_streaming 0 1 _ _ _ H0 H1 H2 H3 H4 H5 H6)
    as (w1 & w2 & A & _ & _ & _ & _ & _ & _ & B & C & _ & D & E).
  exists w1, w2. auto.
Defined.



(** X21: one script run (reattachment, liveness sweep, schedule sweep in the
    order of [main]) over state files of the shape the program writes, or
    missing, unreadable or not JSON, runs to its end without an exception.
    It adds and removes no catalog row, returns no row to 'Menunggu', and
    touches neither the logs nor the process table. *)
Theorem refresh_keeps_catalog_rows (now current_time : string) (w : world) :
  ∃ w', refresh now current_time w = (Ok tt, w') ∧
    length (streams w') = length (streams w) ∧
    keeps_started w w' ∧
    log_files w' = log_files w ∧ procs w' = procs w.
Proof.
  destruct (reconnect_slots now w)
    as (w1 & Hr & (L1 & P1 & _) & _ & Hlen1 & _).
  destruct (reconnect_to_existing_streams_spec now w)
    as (w1' & Hr' & _ & K1).
  rewrite Hr in Hr'. injection Hr' as <-.
  destruct (check_stream_statuses_slots w1)
    as (w2 & Hc & (L2 & P2 & _) & _).
  destruct (check_stream_statuses_spec w1)
    as (w2' & Hc' & _ & Hlen2 & _ & K2 & _).
  rewrite Hc in Hc'. injection Hc' as <-.
  destruct (check_scheduled_streams_spec current_time w2)
    as (w3 & Hs & _ & Hrows).
  destruct (sweep_loop_frame current_time (streams w2) 0 w2)
    as (w3' & Hf & _ & _ & P3 & L3 & _ & _ & Hlen3 & _).
  assert (Hs' : check_scheduled_streams current_time w2 = (Ok tt, w3')).
  { unfold check_scheduled_streams, mbind, M_bind, gets, iterrows.
    exact Hf. }
  rewrite Hs in Hs'. injection Hs' as <-.
  exists w3. split.
  { unfold refresh, mbind, M_bind. by rewrite Hr, Hc. }
  assert (K3 : keeps_started w2 w3).
  { intros j row Hj. rewrite (Hrows j row Hj). eexists.
    split; [reflexivity|].
    destruct (due current_time row); [discriminate|done]. }
  split; [congruence|].
  split.
  { eapply keeps_started_trans; [exact K1|].
    eapply keeps_started_trans; [|exact K3].
    intros j row Hj. destruct (K2 j row Hj) as (r & Hr2 & HM & _). eauto. }
  split; congruence.
Qed.

(** ** Theorems on the command line of [run_ffmpeg] *)

Lemma string_app_assoc (a b c : string) : (a ++ b) ++ c = a ++ b ++ c.
Proof.
  induction a as [|x a IH]; [reflexivity|].
  change (String x ((a ++ b) ++ c) = String x (a ++ b ++ c)).
  by rewrite IH.
Qed.

Lemma concat_snoc (sep : string) (l : list string) (x : string) :
  ∃ pre, String.concat sep (l ++ [x])%list = pre ++ x.
Proof.
  induction l as [|y l IH].
  - by exists "".
  - destruct IH as [pre IH].
    exists (y ++ sep ++ pre).
    change (String.concat sep (y :: l ++ [x])%list = (y ++ sep ++ pre) ++ x).
    destruct (l ++ [x])%list as [|z t] eqn:E.
    { by destruct l. }
    change (y ++ sep ++ String.concat sep (z :: t) = (y ++ sep ++ pre) ++ x).
    by rewrite IH, !string_app_assoc.
Qed.

Lemma settings_cases (quality : string) (is_shorts : bool)
    (s : QualitySettings) :
  get_quality_settings quality is_shorts = Ok s →
  settings is_shorts !! "720p" = Some s
  ∨ settings is_shorts !! "1080p" = Some s
  ∨ settings is_shorts !! "480p" = Some s.
Proof.
  unfold get_quality_settings, settings.
  rewrite lookup_insert_eq.
  change (Ok (default ?d ?o) = Ok s → ?G)
    with (Ok (default d o) = Ok s → G).
  intros [= <-].
  destruct (decide (quality = "720p")) as [->|H1].
  { left. by rewrite !lookup_insert_eq. }
  destruct (decide (quality = "1080p")) as [->|H2].
  { right; left. rewrite !(lookup_insert_ne _ "720p") by done.
    by rewrite !lookup_insert_eq. }
  destruct (decide (quality = "480p")) as [->|H3].
  { right; right. rewrite !(lookup_insert_ne _ "720p") by done.
    rewrite !(lookup_insert_ne _ "1080p") by done.
    by rewrite !lookup_insert_eq. }
  left. rewrite !lookup_insert_ne, lookup_empty by done. done.
Qed.

(** X23: [run_ffmpeg] builds its command line for every job: whatever the
    quality string and the orientation, the three rates of the settings are
    digits followed by "k", so [int] does not raise.  The command has 56
    words, the video path after "-i", and the RTMP URL with the streaming
    key as its last word.  The value of "-minrate" is half the video
    bitrate, and the rates are ordered: minrate below the video bitrate, the
    video bitrate below maxrate, and bufsize twice maxrate. *)
Theorem run_ffmpeg_command_line (video_path stream_key quality : string)
    (is_shorts : bool) :
  ∃ s v m b cmd,
    get_quality_settings quality is_shorts = Ok s ∧
    int (remove_k (video_bitrate s)) = Ok v ∧
    int (remove_k (maxrate s)) = Ok m ∧
    int (remove_k (bufsize s)) = Ok b ∧
    build_cmd video_path stream_key s = Ok cmd ∧
    length cmd = 56 ∧
    cmd !! 7 = Some "-i" ∧ cmd !! 8 = Some video_path ∧
    cmd !! 27 = Some "-minrate" ∧ cmd !! 28 = Some (str (v / 2) ++ "k") ∧
    last cmd = Some ("rtmp://a.rtmp.youtube.com/live2/" ++ stream_key) ∧
    (0 < v / 2 < v)%Z ∧ (v < m)%Z ∧ (b = 2 * m)%Z.
Proof.
  destruct (get_quality_settings_total quality is_shorts) as [s Hs].
  exists s.
  destruct (settings_cases _ _ _ Hs) as [H|[H|H]];
    vm_compute in H; destruct is_shorts; injection H as <-;
    eexists _, _, _, _;
    (split; [exact Hs|]);
    (split; [vm_compute; reflexivity|]);
    (split; [vm_compute; reflexivity|]);
    (split; [vm_compute; reflexivity|]);
    (split; [vm_compute; reflexivity|]);
    repeat split; try reflexivity; try lia.
Qed.

Lemma minrate_of_total (quality : string) (is_shorts : bool)
    (s : QualitySettings) :
  get_quality_settings quality is_shorts = Ok s →
  ∃ minrate, minrate_of s = Ok minrate.
Proof.
  intros Hs.
  destruct (settings_cases _ _ _ Hs) as [H|[H|H]];
    destruct is_shorts; vm_compute in H; injection H as <-;
    eexists; vm_compute; reflexivity.
Qed.

Lemma build_cmd_last (video_path stream_key minrate : string)
    (s : QualitySettings) :
  minrate_of s = Ok minrate →
  ∃ front, build_cmd video_path stream_key s
           = Ok (front ++ [output_url stream_key])%list.
Proof.
  intros Hm. unfold build_cmd. rewrite Hm.
  change (mbind ?f (Ok minrate)) with (f minrate). cbv beta.
  match goal with
  | |- ∃ front, Ok ?l = _ =>
      destruct (proj1 (last_Some l (output_url stream_key)) eq_refl)
        as [front Hf]
  end.
  exists front. by apply f_equal.
Qed.

Lemma run_ffmpeg_header_eq (a : run_args) (clock : string) :
  ∃ l1 l2 pre,
    run_ffmpeg_header a clock
    = Ok [l1; l2;
          pre ++ "rtmp://a.rtmp.youtube.com/live2/" ++ arg_stream_key a
            ++ nl].
Proof.
  destruct (get_quality_settings_total (arg_quality a) (arg_is_shorts a))
    as [s Hs].
  destruct (minrate_of_total _ _ _ Hs) as [minrate Hm].
  destruct (build_cmd_last (arg_video_path a) (arg_stream_key a) _ _ Hm)
    as [front Hc].
  destruct (concat_snoc " " front (output_url (arg_stream_key a)))
    as [pre Hpre].
  unfold run_ffmpeg_header. rewrite Hs.
  exists ("Starting optimized stream for " ++ arg_video_path a ++ " at "
          ++ clock ++ nl),
    ("Quality: " ++ arg_quality a ++ ", Shorts: "
     ++ str_bool (arg_is_shorts a) ++ nl),
    ("Running: " ++ pre).
  change (mbind ?f (Ok s)) with (f s). cbv beta.
  rewrite Hc.
  change (mbind ?f (Ok ?c)) with (f c). cbv beta.
  rewrite Hpre. unfold output_url.
  by rewrite !string_app_assoc.
Qed.

(** X24: the log of a job holds its streaming key in clear.  The header
    that [run_ffmpeg] writes has three lines, and the third, the command
    line, ends with the RTMP URL and the streaming key.  After the launch,
    whether ffmpeg could be spawned or not, [get_stream_logs] with
    [max_lines] of three or more returns that line: the log viewer shows the
    key that the stream table masks. *)
Theorem run_ffmpeg_logs_streaming_key (a : run_args) (clock : string) :
  ∃ header line,
    run_ffmpeg_header a clock = Ok header ∧
    length header = 3 ∧
    (∃ pre, line = pre ++ "rtmp://a.rtmp.youtube.com/live2/"
                   ++ arg_stream_key a ++ nl) ∧
    ∀ spawn now w max_lines, (3 ≤ max_lines)%Z →
      ∃ w' r, run_ffmpeg_launch a header spawn now w = (Ok tt, w') ∧
              get_stream_logs (arg_row_id a) max_lines w' = (Ok r, w') ∧
              line ∈ r.
Proof.
  destruct (run_ffmpeg_header_eq a clock) as (l1 & l2 & pre & Hh).
  eexists _, _. split; [exact Hh|]. split; [reflexivity|].
  split; [by exists pre|].
  intros spawn now w max_lines Hmax.
  destruct (get_quality_settings_total (arg_quality a) (arg_is_shorts a))
    as [v Hv].
  unfold run_ffmpeg_launch, run_ffmpeg_except, run_ffmpeg_finally,
    remove_active, write_status, append_log, cleanup_stream_files,
    save_active_streams, get_stream_logs.
  unfold mbind, M_bind, modify, lift, gets, mret, M_ret. rewrite Hv.
  destruct spawn as [p|e]; rewrite load_active_streams_eq; cbv beta iota.
  - eexists _, _. split; [reflexivity|]. simpl.
    rewrite lookup_insert_eq.
    rewrite (proj2 (Z.ltb_ge _ _)) by (simpl; lia).
    split; [reflexivity|].
    apply elem_of_cons; right. apply elem_of_cons; right.
    apply elem_of_cons; by left.
  - eexists _, _. split; [reflexivity|]. simpl.
    rewrite !lookup_insert_eq. simpl.
    change (Z.of_nat 5) with 5%Z.
    assert (Hif : ∀ (b : bool) (x y : list string) (W : world),
              (if b then λ w0 : world, (Ok x, w0)
               else λ w0 : world, (Ok y, w0)) W
              = (Ok (if b then x else y), W)) by (by intros []).
    rewrite Hif. split; [reflexivity|].
    destruct (Z.ltb max_lines 5) eqn:E.
    + apply Z.ltb_lt in E.
      assert (Hc : max_lines = 3%Z ∨ max_lines = 4%Z) by lia.
      destruct Hc as [-> | ->]; vm_compute slice_from.
      * apply elem_of_cons; by left.
      * apply elem_of_cons; right. apply elem_of_cons; by left.
    + apply elem_of_cons; right. apply elem_of_cons; right.
      apply elem_of_cons; by left.
Qed.

Lemma run_ffmpeg_logs_streaming_key_witness :
  ∃ header line,
    run_ffmpeg_header sample_args "2024-01-01 09:00:00" = Ok header ∧
    (3 ≤ 100)%Z ∧
    ∃ w' r,
      run_ffmpeg_launch sample_args header (Ok 4242%Z) "now" w_waiting
      = (Ok tt, w') ∧
      get_stream_logs (arg_row_id sample_args) 100 w' = (Ok r, w') ∧
      line ∈ r.
Proof.
  destruct (run_ffmpeg_logs_streaming_key sample_args "2024-01-01 09:00:00")
    as (header & line & Hh & _ & _ & H).
  exists header, line. split; [exact Hh|].
  assert (Hmax : (3 ≤ 100)%Z) by lia.
  split; [exact Hmax|].
  exact (H (Ok 4242%Z) "now" w_waiting 100%Z Hmax).
Defined.
